(** * IPSAE: interface scoring of multimeric structure predictions

    A shallow embedding of the scoring library [ipsae]:
    - [ipsae/models/data_models.py]: the result records and [IPSAEResults.save];
    - [ipsae/core/parser.py]: [StructureParser.parse_cif] / [parse_pdb];
    - [ipsae/core/calculator.py]: [IPSAECalculator].

    Numbers.  The scores are Python/NumPy floats.  They are embedded as exact
    real numbers ([R]): comparisons are the exact order, [np.mean] is the
    exact arithmetic mean, [np.exp] and the square root of [cdist] are the
    real functions.  Rounding, infinities and NaN are outside the model.

    Exceptions.  Fallible code returns a [result]: [Ok v] or [Raise e]. *)

From Stdlib Require Import String Ascii.
From Stdlib Require Import Reals Lra Lia List Arith Bool ZArith.
From Stdlib Require Import Sorting.Sorted Structures.OrdersEx.
Import ListNotations.

Local Open Scope string_scope.
Local Open Scope list_scope.
Local Open Scope R_scope.

(** ** Comparisons on floats *)

(** [x <= y] as a Python truth value. *)
Definition Rleb (x y : R) : bool := if Rle_dec x y then true else false.

(** ** Exceptions *)

Inductive exn : Type :=
| IndexError   (* an index outside an array axis *)
| ValueError.  (* scipy's [cdist] on an array that is not 2-dimensional *)

Inductive result (A : Type) : Type :=
| Ok (a : A)
| Raise (e : exn).

Arguments Ok {A} a.
Arguments Raise {A} e.

Definition bind {A B : Type} (c : result A) (k : A -> result B) : result B :=
  match c with
  | Ok a => k a
  | Raise e => Raise e
  end.

Notation "x <- c ;; k" := (bind c (fun x => k))
  (at level 61, c at next level, right associativity).

(** A [for] loop whose body may raise: the loop state is threaded through
    the iterations and the first exception ends the loop. *)
Fixpoint for_each {A S : Type} (xs : list A) (body : S -> A -> result S) (s : S)
  : result S :=
  match xs with
  | [] => Ok s
  | x :: xs' => s' <- body s x ;; for_each xs' body s'
  end.

(** Python's [enumerate]. *)
Definition enumerate {A : Type} (xs : list A) : list (nat * A) :=
  combine (seq 0 (length xs)) xs.

(** ** Data model ([data_models.py]) *)

(** A CA coordinate: a NumPy vector of three floats. *)
Definition coord : Type := (R * R * R)%type.

(** A residue tuple [(chain, residue_number, residue_name)]. *)
Definition residue : Type := (string * Z * string)%type.

(** A two-dimensional NumPy array, by rows. *)
Definition matrix : Type := list (list R).

Module ChainChainScore.
Record t : Type := mk {
  chain1 : string;
  chain2 : string;
  ipsae_score : R;
  pdockq_score : R;
  lis_score : R;
  avg_pae : R;
  avg_distance : R;
  num_interactions : nat;
  valid_interactions : list (nat * nat);
  pae_values : list R;
  distances : list R
}.
End ChainChainScore.

Module ResidueScore.
Record t : Type := mk {
  chain : string;
  residue_number : Z;
  residue_name : string;
  ipsae_score : R;
  avg_pae : R;
  avg_distance : R;
  num_interactions : nat;
  valid_interactions : list (nat * nat);
  pae_values : list R;
  distances : list R
}.
End ResidueScore.

Module StructureData.
Record t : Type := mk {
  chains : list string;
  residues : list residue;
  coordinates : list coord;
  pae_matrix : option matrix
}.
End StructureData.

Module IPSAEResults.
Record t : Type := mk {
  chain_chain_scores : list ChainChainScore.t;
  residue_scores : list ResidueScore.t;
  structure_data : StructureData.t
}.
End IPSAEResults.

(** ** NumPy and SciPy primitives used by the calculator *)

(** [np.mean] of a list of floats. *)
Definition np_sum (xs : list R) : R := fold_right Rplus 0 xs.
Definition np_mean (xs : list R) : R := np_sum xs / INR (length xs).

(** The Euclidean distance of two coordinates. *)
Definition euclidean (u v : coord) : R :=
  let '(ux, uy, uz) := u in
  let '(vx, vy, vz) := v in
  sqrt ((ux - vx) * (ux - vx) + (uy - vy) * (uy - vy) + (uz - vz) * (uz - vz)).

(** [scipy.spatial.distance.cdist(XA, XB)] with the default metric.  The
    arguments are [np.array(coordinates)]: for an empty list that array is
    one-dimensional and [cdist] raises [ValueError]. *)
Definition cdist (XA XB : list coord) : result matrix :=
  match XA, XB with
  | [], _ => Raise ValueError
  | _, [] => Raise ValueError
  | _, _ => Ok (map (fun u => map (fun v => euclidean u v) XB) XA)
  end.

(** [m[i, j]] on a two-dimensional array. *)
Definition getitem (m : matrix) (i j : nat) : result R :=
  match nth_error m i with
  | None => Raise IndexError
  | Some row =>
      match nth_error row j with
      | None => Raise IndexError
      | Some v => Ok v
      end
  end.

(** ** [sorted(set(...))] on chain labels *)

(** The distinct labels of a list; a Python [set] has no order of its own,
    the caller sorts it. *)
Definition py_set (xs : list string) : list string := nodup string_dec xs.

Fixpoint insert_sorted (x : string) (l : list string) : list string :=
  match l with
  | [] => [x]
  | y :: l' => if String.leb x y then x :: l else y :: insert_sorted x l'
  end.

(** [sorted] on strings: ascending in the lexicographic order of the
    characters' codes. *)
Definition sorted (l : list string) : list string :=
  fold_right insert_sorted [] l.

(** ** The calculator ([calculator.py]) *)

(** The calculator object after [load_data]: the parsed structure, the
    parsed PAE matrix and the two cutoffs. *)
Module IPSAECalculator.
Record t : Type := mk {
  pae_cutoff : R;
  distance_cutoff : R;
  structure_data : StructureData.t;
  pae_matrix : matrix
}.
End IPSAECalculator.

Import IPSAECalculator(pae_cutoff, distance_cutoff, structure_data, pae_matrix).

(** The three lists filled by the interaction loops:
    [(valid_interactions, pae_values, dist_values)]. *)
Definition interactions : Type := (list (nat * nat) * list R * list R)%type.

(** The body of the innermost loop (lines 90-96 and 144-150): read both
    matrices, then append when both cutoffs hold. *)
Definition scan_pair (self : IPSAECalculator.t) (distances : matrix)
    (acc : interactions) (idx1 idx2 : nat) : result interactions :=
  pae <- getitem (pae_matrix self) idx1 idx2 ;;
  dist <- getitem distances idx1 idx2 ;;
  if Rleb pae (pae_cutoff self) && Rleb dist (distance_cutoff self) then
    let '(valid_interactions, pae_values, dist_values) := acc in
    Ok (valid_interactions ++ [(idx1, idx2)], pae_values ++ [pae], dist_values ++ [dist])
  else Ok acc.

(** [[k for k, (c, _, _) in enumerate(residues) if c == chain]]. *)
Definition chain_indices (residues : list residue) (chain : string) : list nat :=
  map fst (filter (fun '(_, (c, _, _)) => String.eqb c chain) (enumerate residues)).

(** Lines 88-96: the two nested loops over the residues of both chains. *)
Definition collect_chain_pair (self : IPSAECalculator.t) (distances : matrix)
    (chain1_indices chain2_indices : list nat) : result interactions :=
  for_each chain1_indices
    (fun acc idx1 =>
       for_each chain2_indices (fun acc idx2 => scan_pair self distances acc idx1 idx2) acc)
    ([], [], []).

(** Lines 79-124: the body of the loop over chain pairs. *)
Definition score_chain_pair (self : IPSAECalculator.t) (distances : matrix)
    (scores : list ChainChainScore.t) (chain1 chain2 : string)
  : result (list ChainChainScore.t) :=
  let residues := StructureData.residues (structure_data self) in
  let chain1_indices := chain_indices residues chain1 in
  let chain2_indices := chain_indices residues chain2 in
  acc <- collect_chain_pair self distances chain1_indices chain2_indices ;;
  let '(valid_interactions, pae_values, dist_values) := acc in
  match valid_interactions with
  | [] => Ok scores
  | _ :: _ =>
      let avg_pae := np_mean pae_values in
      let avg_distance := np_mean dist_values in
      let ipsae_score := 1 - avg_pae / pae_cutoff self in
      let pdockq_score := 1 / (1 + exp (- 0.5 * (avg_pae - 20))) in
      let lis_score :=
        INR (length valid_interactions)
        / INR (length chain1_indices * length chain2_indices) in
      Ok (scores ++
          [ChainChainScore.mk chain1 chain2 ipsae_score pdockq_score lis_score
             avg_pae avg_distance (length valid_interactions)
             valid_interactions pae_values dist_values])
  end.

(** [calculate_chain_chain_scores]. *)
Definition calculate_chain_chain_scores (self : IPSAECalculator.t)
  : result (list ChainChainScore.t) :=
  let chains := sorted (py_set (StructureData.chains (structure_data self))) in
  let coordinates := StructureData.coordinates (structure_data self) in
  distances <- cdist coordinates coordinates ;;
  for_each (enumerate chains)
    (fun scores '(i, chain1) =>
       for_each (skipn (i + 1) chains)
         (fun scores chain2 => score_chain_pair self distances scores chain1 chain2)
         scores)
    [].

(** Lines 137-171: the body of the loop over residues. *)
Definition score_residue (self : IPSAECalculator.t) (distances : matrix)
    (scores : list ResidueScore.t) (i : nat) (r : residue)
  : result (list ResidueScore.t) :=
  let '(chain, res_num, res_name) := r in
  let coordinates := StructureData.coordinates (structure_data self) in
  acc <- for_each (seq 0 (length coordinates))
           (fun acc j =>
              if negb (Nat.eqb i j) then scan_pair self distances acc i j else Ok acc)
           ([], [], []) ;;
  let '(valid_interactions, pae_values, dist_values) := acc in
  match valid_interactions with
  | [] => Ok scores
  | _ :: _ =>
      let avg_pae := np_mean pae_values in
      let avg_distance := np_mean dist_values in
      let ipsae_score := 1 - avg_pae / pae_cutoff self in
      Ok (scores ++
          [ResidueScore.mk chain res_num res_name ipsae_score avg_pae avg_distance
             (length valid_interactions) valid_interactions pae_values dist_values])
  end.

(** [calculate_residue_scores]. *)
Definition calculate_residue_scores (self : IPSAECalculator.t)
  : result (list ResidueScore.t) :=
  let coordinates := StructureData.coordinates (structure_data self) in
  distances <- cdist coordinates coordinates ;;
  for_each (enumerate (StructureData.residues (structure_data self)))
    (fun scores '(i, r) => score_residue self distances scores i r)
    [].

(** [load_data], once both files are parsed: the PAE matrix is kept on the
    calculator and attached to the structure data (line 64). *)
Definition load_data (pae_cutoff distance_cutoff : R)
    (parsed : StructureData.t) (pae : matrix) : IPSAECalculator.t :=
  IPSAECalculator.mk pae_cutoff distance_cutoff
    (StructureData.mk (StructureData.chains parsed) (StructureData.residues parsed)
       (StructureData.coordinates parsed) (Some pae))
    pae.

(** [calculate], on a loaded calculator. *)
Definition calculate (self : IPSAECalculator.t) : result IPSAEResults.t :=
  chain_chain_scores <- calculate_chain_chain_scores self ;;
  residue_scores <- calculate_residue_scores self ;;
  Ok (IPSAEResults.mk chain_chain_scores residue_scores (structure_data self)).

(** ** The structure parsers ([parser.py]) *)

(** The object tree that Biopython's [get_structure] returns, as far as the
    parsers walk it: models, chains, residues and atoms, each iterated in
    file order. *)
Module Bio.
Record Atom : Type := mkAtom {
  atom_id : string;
  get_coord : coord
}.
Record Residue : Type := mkResidue {
  residue_id : string * Z * string;  (* (hetero flag, sequence number, insertion code) *)
  resname : string;
  atoms : list Atom
}.
Record Chain : Type := mkChain {
  chain_id : string;
  chain_residues : list Residue
}.
Definition Model : Type := list Chain.
Definition Structure : Type := list Model.
End Bio.

(** The three lists the parsers fill: [(chains, residues, coordinates)]. *)
Definition parsed_lists : Type := (list string * list residue * list coord)%type.

(** Lines 34-36: [for atom in residue: if atom.id == 'CA': coordinates.append(...)]. *)
Definition parse_atom (st : parsed_lists) (atom : Bio.Atom) : parsed_lists :=
  let '(chains, residues, coordinates) := st in
  if String.eqb (Bio.atom_id atom) "CA"
  then (chains, residues, coordinates ++ [Bio.get_coord atom])
  else st.

(** Lines 32-36: [residues.append((chain.id, residue.id[1], residue.resname))],
    then the atoms. *)
Definition parse_residue (chain : Bio.Chain) (st : parsed_lists) (residue : Bio.Residue)
  : parsed_lists :=
  let '(chains, residues, coordinates) := st in
  let '(_, seq_number, _) := Bio.residue_id residue in
  fold_left parse_atom (Bio.atoms residue)
    (chains, residues ++ [(Bio.chain_id chain, seq_number, Bio.resname residue)], coordinates).

(** Lines 30-36: [chains.append(chain.id)], then the residues. *)
Definition parse_chain (st : parsed_lists) (chain : Bio.Chain) : parsed_lists :=
  let '(chains, residues, coordinates) := st in
  fold_left (parse_residue chain) (Bio.chain_residues chain)
    (chains ++ [Bio.chain_id chain], residues, coordinates).

Definition parse_model (st : parsed_lists) (model : Bio.Model) : parsed_lists :=
  fold_left parse_chain model st.

(** [StructureParser.parse_cif], from the structure [MMCIFParser] returned. *)
Definition parse_cif (structure : Bio.Structure) : StructureData.t :=
  let '(chains, residues, coordinates) := fold_left parse_model structure ([], [], []) in
  StructureData.mk chains residues coordinates None.

(** [StructureParser.parse_pdb], from the structure [PDBParser] returned:
    the same walk as [parse_cif]. *)
Definition parse_pdb (structure : Bio.Structure) : StructureData.t :=
  let '(chains, residues, coordinates) := fold_left parse_model structure ([], [], []) in
  StructureData.mk chains residues coordinates None.

(** ** [IPSAEResults.save] ([data_models.py]) *)

(** A NumPy array of one or two dimensions. *)
Inductive ndarray : Type :=
| Array1 (v : list R)
| Array2 (m : list (list R)).

(** The Python values that [save] handles.  A NumPy scalar ([np.float64],
    or the integer type of an integer array) is what indexing an array,
    [np.mean] and [np.exp] return; it is not a Python [float] object. *)
#[local] Unset Elimination Schemes.
Inductive pyobj : Type :=
| PyNone
| PyInt (n : Z)
| PyFloat (x : R)
| PyStr (s : string)
| PyList (xs : list pyobj)
| PyTuple (xs : list pyobj)
| PyDict (items : list (string * pyobj))
| PyNdarray (a : ndarray)
| PyNpScalar (x : R).
#[local] Set Elimination Schemes.

(** [ndarray.tolist()]: nested lists of Python numbers. *)
Definition tolist (a : ndarray) : pyobj :=
  match a with
  | Array1 v => PyList (map PyFloat v)
  | Array2 m => PyList (map (fun row => PyList (map PyFloat row)) m)
  end.

(** The local function [convert_numpy] of [save]: arrays, lists, tuples and
    dicts are rebuilt, anything else (a NumPy scalar too) is returned as it
    is (line 61). *)
Fixpoint convert_numpy (obj : pyobj) : pyobj :=
  match obj with
  | PyNdarray a => tolist a
  | PyList xs => PyList (map convert_numpy xs)
  | PyTuple xs => PyList (map convert_numpy xs)
  | PyDict items => PyDict (map (fun kv => (fst kv, convert_numpy (snd kv))) items)
  | _ => obj
  end.

(** The fields of the records as Python values, the way [calculate] stores
    them.  [pae_values] and [distances] are Python lists of the scalars read
    from the two arrays ([pae_matrix[idx1, idx2]], [distances[idx1, idx2]]):
    NumPy scalars. *)
Definition np_scalars (xs : list R) : pyobj := PyList (map PyNpScalar xs).

Definition py_index_pairs (ps : list (nat * nat)) : pyobj :=
  PyList (map (fun p => PyTuple [PyInt (Z.of_nat (fst p)); PyInt (Z.of_nat (snd p))]) ps).

Definition py_residues (rs : list residue) : pyobj :=
  PyList (map (fun '(c, n, name) => PyTuple [PyStr c; PyInt n; PyStr name]) rs).

Definition py_coordinates (cs : list coord) : pyobj :=
  PyList (map (fun '(x, y, z) => PyNdarray (Array1 [x; y; z])) cs).

(** The record of one chain pair (lines 66-78), for a score built by
    [calculate_chain_chain_scores]: [avg_pae] and [avg_distance] are results
    of [np.mean], [ipsae_score] and [pdockq_score] are computed from
    [avg_pae] (calculator.py, lines 100-107), all four NumPy scalars;
    [lis_score] is a quotient of two Python ints, a Python float.  The
    scalar fields are stored as they are; only the two lists go through
    [convert_numpy]. *)
Definition chain_chain_record (score : ChainChainScore.t) : pyobj :=
  PyDict
    [ ("chain1", PyStr (ChainChainScore.chain1 score));
      ("chain2", PyStr (ChainChainScore.chain2 score));
      ("ipsae_score", PyNpScalar (ChainChainScore.ipsae_score score));
      ("pdockq_score", PyNpScalar (ChainChainScore.pdockq_score score));
      ("lis_score", PyFloat (ChainChainScore.lis_score score));
      ("avg_pae", PyNpScalar (ChainChainScore.avg_pae score));
      ("avg_distance", PyNpScalar (ChainChainScore.avg_distance score));
      ("num_interactions", PyInt (Z.of_nat (ChainChainScore.num_interactions score)));
      ("valid_interactions", py_index_pairs (ChainChainScore.valid_interactions score));
      ("pae_values", convert_numpy (np_scalars (ChainChainScore.pae_values score)));
      ("distances", convert_numpy (np_scalars (ChainChainScore.distances score))) ].

(** The record of one residue (lines 82-93), for a score built by
    [calculate_residue_scores] (calculator.py, lines 154-158). *)
Definition residue_score_record (score : ResidueScore.t) : pyobj :=
  PyDict
    [ ("chain", PyStr (ResidueScore.chain score));
      ("residue_number", PyInt (ResidueScore.residue_number score));
      ("residue_name", PyStr (ResidueScore.residue_name score));
      ("ipsae_score", PyNpScalar (ResidueScore.ipsae_score score));
      ("avg_pae", PyNpScalar (ResidueScore.avg_pae score));
      ("avg_distance", PyNpScalar (ResidueScore.avg_distance score));
      ("num_interactions", PyInt (Z.of_nat (ResidueScore.num_interactions score)));
      ("valid_interactions", py_index_pairs (ResidueScore.valid_interactions score));
      ("pae_values", convert_numpy (np_scalars (ResidueScore.pae_values score)));
      ("distances", convert_numpy (np_scalars (ResidueScore.distances score))) ].

(** The record of the structure (lines 96-101). *)
Definition structure_record (sd : StructureData.t) : pyobj :=
  PyDict
    [ ("chains", PyList (map PyStr (StructureData.chains sd)));
      ("residues", py_residues (StructureData.residues sd));
      ("coordinates", convert_numpy (py_coordinates (StructureData.coordinates sd)));
      ("pae_matrix",
        match StructureData.pae_matrix sd with
        | Some m => convert_numpy (PyNdarray (Array2 m))
        | None => PyNone
        end) ].

(** The mapping [data] that [save] builds and hands to [json.dump], for the
    results of [calculate]. *)
Definition save_data (self : IPSAEResults.t) : pyobj :=
  PyDict
    [ ("chain_chain_scores",
        PyList (map chain_chain_record (IPSAEResults.chain_chain_scores self)));
      ("residue_scores",
        PyList (map residue_score_record (IPSAEResults.residue_scores self)));
      ("structure_data", structure_record (IPSAEResults.structure_data self)) ].

(** ** Vocabulary of the statements *)

(** Total reads: [entry m i j] is [m[i, j]] wherever that read succeeds. *)
Definition entry (m : matrix) (i j : nat) : R := nth j (nth i m []) 0.

Definition origin : coord := (0, 0, 0).

(** The Euclidean distance of the coordinates at two indices. *)
Definition distance_at (coordinates : list coord) (i j : nat) : R :=
  euclidean (nth i coordinates origin) (nth j coordinates origin).

(** The matrix [cdist] returns on a non-empty coordinate list. *)
Definition distance_matrix (cs : list coord) : matrix :=
  map (fun u => map (fun v => euclidean u v) cs) cs.

Definition coords_of (self : IPSAECalculator.t) : list coord :=
  StructureData.coordinates (structure_data self).

Definition residues_of (self : IPSAECalculator.t) : list residue :=
  StructureData.residues (structure_data self).

(** The sorted distinct chain labels the chain loop runs over. *)
Definition chain_labels (self : IPSAECalculator.t) : list string :=
  sorted (py_set (StructureData.chains (structure_data self))).

Definition pae_at (self : IPSAECalculator.t) (p : nat * nat) : R :=
  entry (pae_matrix self) (fst p) (snd p).

Definition dist_at (self : IPSAECalculator.t) (p : nat * nat) : R :=
  distance_at (coords_of self) (fst p) (snd p).

(** Both cutoffs hold for the index pair [p]. *)
Definition qualifies (self : IPSAECalculator.t) (p : nat * nat) : bool :=
  Rleb (pae_at self p) (pae_cutoff self) && Rleb (dist_at self p) (distance_cutoff self).

(** Both matrix reads at [p] are inside the arrays. *)
Definition readable (self : IPSAECalculator.t) (p : nat * nat) : bool :=
  Nat.ltb (fst p) (length (pae_matrix self))
  && Nat.ltb (snd p) (length (nth (fst p) (pae_matrix self) []))
  && (Nat.ltb (fst p) (length (coords_of self)) && Nat.ltb (snd p) (length (coords_of self))).

(** All pairs [(x, y)] of a list with [x] before [y], row by row. *)
Fixpoint ordered_pairs {A : Type} (l : list A) : list (A * A) :=
  match l with
  | [] => []
  | x :: l' => map (pair x) l' ++ ordered_pairs l'
  end.

(** The index pairs the chain loop reads for the chains [c1], [c2]. *)
Definition cross_pairs (self : IPSAECalculator.t) (c : string * string) : list (nat * nat) :=
  list_prod (chain_indices (residues_of self) (fst c)) (chain_indices (residues_of self) (snd c)).

(** The index pairs the residue loop reads for residue [i]. *)
Definition partner_pairs (self : IPSAECalculator.t) (i : nat) : list (nat * nat) :=
  map (pair i) (filter (fun j => negb (Nat.eqb i j)) (seq 0 (length (coords_of self)))).

(** The qualifying index pairs of a chain pair, and of a residue. *)
Definition qualifying_pairs (self : IPSAECalculator.t) (c : string * string)
  : list (nat * nat) :=
  filter (qualifies self) (cross_pairs self c).

Definition qualifying_partners (self : IPSAECalculator.t) (i : nat) : list (nat * nat) :=
  filter (qualifies self) (partner_pairs self i).

(** The number of residues carrying a chain label. *)
Definition chain_size (self : IPSAECalculator.t) (chain : string) : nat :=
  length (filter (fun r : residue => String.eqb (fst (fst r)) chain) (residues_of self)).

(** The record of a chain pair, from its qualifying index pairs. *)
Definition chain_pair_record (self : IPSAECalculator.t) (c : string * string)
  : ChainChainScore.t :=
  let valid := qualifying_pairs self c in
  let avg_pae := np_mean (map (pae_at self) valid) in
  ChainChainScore.mk (fst c) (snd c)
    (1 - avg_pae / pae_cutoff self)
    (1 / (1 + exp (- 0.5 * (avg_pae - 20))))
    (INR (length valid)
     / INR (length (chain_indices (residues_of self) (fst c))
            * length (chain_indices (residues_of self) (snd c))))
    avg_pae (np_mean (map (dist_at self) valid)) (length valid)
    valid (map (pae_at self) valid) (map (dist_at self) valid).

(** The entry a chain pair contributes: none without a qualifying pair. *)
Definition chain_pair_entry (self : IPSAECalculator.t) (c : string * string)
  : list ChainChainScore.t :=
  match qualifying_pairs self c with
  | [] => []
  | _ :: _ => [chain_pair_record self c]
  end.

(** The record of a residue, from its qualifying partners. *)
Definition residue_record (self : IPSAECalculator.t) (ir : nat * residue)
  : ResidueScore.t :=
  let valid := qualifying_partners self (fst ir) in
  let avg_pae := np_mean (map (pae_at self) valid) in
  ResidueScore.mk (fst (fst (snd ir))) (snd (fst (snd ir))) (snd (snd ir))
    (1 - avg_pae / pae_cutoff self)
    avg_pae (np_mean (map (dist_at self) valid)) (length valid)
    valid (map (pae_at self) valid) (map (dist_at self) valid).

(** The entry a residue contributes: none without a qualifying partner. *)
Definition residue_entry (self : IPSAECalculator.t) (ir : nat * residue)
  : list ResidueScore.t :=
  match qualifying_partners self (fst ir) with
  | [] => []
  | _ :: _ => [residue_record self ir]
  end.

(** Every index pair a run reads, in the chain loop and in the residue loop. *)
Definition chain_reads (self : IPSAECalculator.t) : list (nat * nat) :=
  flat_map (cross_pairs self) (ordered_pairs (chain_labels self)).

Definition residue_reads (self : IPSAECalculator.t) : list (nat * nat) :=
  flat_map (fun ir => partner_pairs self (fst ir)) (enumerate (residues_of self)).

(** The strict lexicographic order of Python strings. *)
Definition str_lt (a b : string) : Prop := String.ltb a b = true.

(** Chain pairs in the order of the nested loops: by first label, then by
    second label. *)
Definition pair_lt (p q : string * string) : Prop :=
  str_lt (fst p) (fst q) \/ (fst p = fst q /\ str_lt (snd p) (snd q)).

(** A PAE matrix of shape [n] by [n]. *)
Definition square (n : nat) (m : matrix) : Prop :=
  length m = n /\ Forall (fun row => length row = n) m.

(** A Python list is truthy when it is not empty. *)
Definition nonempty {A : Type} (l : list A) : bool :=
  match l with
  | [] => false
  | _ :: _ => true
  end.

(** The same calculator with another PAE cutoff. *)
Definition with_pae_cutoff (self : IPSAECalculator.t) (p : R) : IPSAECalculator.t :=
  IPSAECalculator.mk p (distance_cutoff self) (structure_data self) (pae_matrix self).

(** No NumPy array anywhere inside a Python value. *)
Fixpoint no_ndarray (obj : pyobj) : bool :=
  match obj with
  | PyNdarray _ => false
  | PyList xs => forallb no_ndarray xs
  | PyTuple xs => forallb no_ndarray xs
  | PyDict items => forallb (fun kv => no_ndarray (snd kv)) items
  | _ => true
  end.

(** No value of a NumPy type anywhere inside a Python value: neither an
    array nor a NumPy scalar. *)
Fixpoint numpy_free (obj : pyobj) : bool :=
  match obj with
  | PyNdarray _ => false
  | PyNpScalar _ => false
  | PyList xs => forallb numpy_free xs
  | PyTuple xs => forallb numpy_free xs
  | PyDict items => forallb (fun kv => numpy_free (snd kv)) items
  | PyNone | PyInt _ | PyFloat _ | PyStr _ => true
  end.

(** The NumPy scalars directly under the keys of a record. *)
Definition numpy_fields (record : pyobj) : list string :=
  match record with
  | PyDict items =>
      map fst (filter (fun kv => match snd kv with PyNpScalar _ => true | _ => false end) items)
  | _ => []
  end.

(** The keys of a mapping, in insertion order. *)
Definition keys (obj : pyobj) : list string :=
  match obj with
  | PyDict items => map fst items
  | _ => []
  end.

(** The value stored under a key of a mapping. *)
Fixpoint lookup (k : string) (items : list (string * pyobj)) : option pyobj :=
  match items with
  | [] => None
  | (k', v) :: rest => if String.eqb k k' then Some v else lookup k rest
  end.

Definition getkey (obj : pyobj) (k : string) : option pyobj :=
  match obj with
  | PyDict items => lookup k items
  | _ => None
  end.

(** The coordinates a residue contributes: those of its atoms named [CA]. *)
Definition ca_coords (r : Bio.Residue) : list coord :=
  map Bio.get_coord (filter (fun a => String.eqb (Bio.atom_id a) "CA") (Bio.atoms r)).

(** The residue tuples a chain contributes. *)
Definition residue_tuple (chain : Bio.Chain) (r : Bio.Residue) : residue :=
  (Bio.chain_id chain, snd (fst (Bio.residue_id r)), Bio.resname r).

Definition chain_tuples (chain : Bio.Chain) : list residue :=
  map (residue_tuple chain) (Bio.chain_residues chain).

Definition chain_coords (chain : Bio.Chain) : list coord :=
  flat_map ca_coords (Bio.chain_residues chain).

(** The number of atoms of a residue named [CA]. *)
Definition ca_count (r : Bio.Residue) : nat :=
  length (filter (fun a => String.eqb (Bio.atom_id a) "CA") (Bio.atoms r)).

(** The residues of a structure, over all models and chains, in file order. *)
Definition all_chains (structure : Bio.Structure) : list Bio.Chain := concat structure.

Definition all_residues (structure : Bio.Structure) : list Bio.Residue :=
  flat_map Bio.chain_residues (all_chains structure).

(** ** Example inputs *)

(** Two chains: chain A with three residues on the x axis, chain B with two
    residues five units above the first two. *)
Definition scenario_structure : StructureData.t :=
  StructureData.mk ["A"; "B"]
    [("A", 1%Z, "ALA"); ("A", 2%Z, "GLY"); ("A", 3%Z, "SER");
     ("B", 1%Z, "LEU"); ("B", 2%Z, "VAL")]
    [(0, 0, 0); (1, 0, 0); (2, 0, 0); (0, 0, 5); (1, 0, 5)]
    None.

(** A PAE matrix with every entry off the diagonal equal to 10. *)
Definition scenario_pae : matrix :=
  [[0; 10; 10; 10; 10];
   [10; 0; 10; 10; 10];
   [10; 10; 0; 10; 10];
   [10; 10; 10; 0; 10];
   [10; 10; 10; 10; 0]].

(** The calculator on that input, with PAE cutoff 30 and the given distance
    cutoff. *)
Definition scenario (distance_cutoff : R) : IPSAECalculator.t :=
  load_data 30 distance_cutoff scenario_structure scenario_pae.

Definition scenario_pairs : list (nat * nat) :=
  [(0, 3); (0, 4); (1, 3); (1, 4); (2, 3); (2, 4)]%nat.

(** The one chain-pair record expected with distance cutoff 8. *)
Definition scenario_AB : ChainChainScore.t :=
  ChainChainScore.mk "A" "B"
    (1 - 10 / 30) (1 / (1 + exp (- 0.5 * (10 - 20)))) (6 / 6)
    10 (np_mean (map (dist_at (scenario 8)) scenario_pairs)) 6
    scenario_pairs [10; 10; 10; 10; 10; 10] (map (dist_at (scenario 8)) scenario_pairs).

(** The residue record expected with distance cutoff 8: every other residue
    is a partner. *)
Definition scenario_residue (ir : nat * residue) : ResidueScore.t :=
  let valid := partner_pairs (scenario 8) (fst ir) in
  ResidueScore.mk (fst (fst (snd ir))) (snd (fst (snd ir))) (snd (snd ir))
    (1 - 10 / 30) 10 (np_mean (map (dist_at (scenario 8)) valid)) 4
    valid [10; 10; 10; 10] (map (dist_at (scenario 8)) valid).

Definition scenario_results : IPSAEResults.t :=
  IPSAEResults.mk [scenario_AB]
    (map scenario_residue (enumerate (residues_of (scenario 8))))
    (structure_data (scenario 8)).

(** The same structure with a PAE matrix of six rows and columns. *)
Definition oversized_pae : matrix :=
  [[0; 10; 10; 10; 10; 10];
   [10; 0; 10; 10; 10; 10];
   [10; 10; 0; 10; 10; 10];
   [10; 10; 10; 0; 10; 10];
   [10; 10; 10; 10; 0; 10];
   [10; 10; 10; 10; 10; 0]].

Definition oversized : IPSAECalculator.t :=
  load_data 30 8 scenario_structure oversized_pae.

(** A structure without any residue, with an empty PAE matrix. *)
Definition empty_calculator : IPSAECalculator.t :=
  load_data 30 8 (StructureData.mk [] [] [] None) [].

(** Two residues in two chains, a 2 by 2 PAE matrix, but one coordinate
    only (the second residue has no alpha carbon). *)
Definition missing_coordinate : IPSAECalculator.t :=
  load_data 30 8
    (StructureData.mk ["A"; "B"] [("A", 1%Z, "GLY"); ("B", 1%Z, "HOH")] [(0, 0, 0)] None)
    [[0; 10]; [10; 0]].

(** A parsed file with one model and one chain of two residues, each with
    a backbone nitrogen and an alpha carbon. *)
Definition two_residue_chain : Bio.Structure :=
  [[Bio.mkChain "A"
      [Bio.mkResidue (" ", 1%Z, " ") "GLY"
         [Bio.mkAtom "N" (0, 0, 0); Bio.mkAtom "CA" (1, 0, 0)];
       Bio.mkResidue (" ", 2%Z, " ") "ALA"
         [Bio.mkAtom "N" (2, 0, 0); Bio.mkAtom "CA" (3, 0, 0)]]]].

(** The residues, the coordinates and the PAE matrix have the same size. *)
Definition shapes_agree (self : IPSAECalculator.t) : Prop :=
  length (coords_of self) = length (residues_of self)
  /\ square (length (residues_of self)) (pae_matrix self).

(** Three chains, listed in the file in the order C, A, B, on the x axis:
    C1 at 0, A1 at 3, A2 at 6, B1 at 9 and B2 far away at 100.  The PAE is
    10 everywhere off the diagonal, except 40 from A1 to B1.  PAE cutoff 30,
    distance cutoff 7. *)
Definition three_chains_pae : matrix :=
  [[0; 10; 10; 10; 10];
   [10; 0; 10; 40; 10];
   [10; 10; 0; 10; 10];
   [10; 10; 10; 0; 10];
   [10; 10; 10; 10; 0]].

Definition three_chains : IPSAECalculator.t :=
  load_data 30 7
    (StructureData.mk ["C"; "A"; "B"]
       [("C", 1%Z, "GLY"); ("A", 1%Z, "ALA"); ("A", 2%Z, "SER");
        ("B", 1%Z, "LEU"); ("B", 2%Z, "VAL")]
       [(0, 0, 0); (3, 0, 0); (6, 0, 0); (9, 0, 0); (100, 0, 0)]
       None)
    three_chains_pae.

(** Two residues in two chains, one unit apart, with PAE -2 between them
    and the PAE cutoff -1. *)
Definition negative_cutoff : IPSAECalculator.t :=
  load_data (-1) 8
    (StructureData.mk ["A"; "B"] [("A", 1%Z, "GLY"); ("B", 1%Z, "ALA")]
       [(0, 0, 0); (1, 0, 0)] None)
    [[0; -2]; [-2; 0]].

(** A parsed file with one chain of two residues: a glycine and a water
    molecule, which has no alpha carbon. *)
Definition chain_with_water : Bio.Structure :=
  [[Bio.mkChain "A"
      [Bio.mkResidue (" ", 1%Z, " ") "GLY"
         [Bio.mkAtom "N" (0, 0, 0); Bio.mkAtom "CA" (1, 0, 0)];
       Bio.mkResidue ("W", 2%Z, " ") "HOH"
         [Bio.mkAtom "O" (5, 0, 0)]]]].

(** ** Vocabulary of the further statements *)

(** The same calculator with other cutoffs. *)
Definition with_cutoffs (self : IPSAECalculator.t) (p d : R) : IPSAECalculator.t :=
  IPSAECalculator.mk p d (structure_data self) (pae_matrix self).

(** The same calculator reading another PAE matrix. *)
Definition with_pae_matrix (self : IPSAECalculator.t) (m : matrix) : IPSAECalculator.t :=
  IPSAECalculator.mk (pae_cutoff self) (distance_cutoff self) (structure_data self) m.

(** The pair of labels of a chain-pair record. *)
Definition labels_of (sc : ChainChainScore.t) : string * string :=
  (ChainChainScore.chain1 sc, ChainChainScore.chain2 sc).

(** The chain label of a residue tuple. *)
Definition label_of (r : residue) : string := fst (fst r).

(** Two matrices of the same shape that agree off the diagonal. *)
Definition same_off_diagonal (m m' : matrix) : Prop :=
  length m = length m'
  /\ (forall i, length (nth i m []) = length (nth i m' []))
  /\ forall i j, i <> j -> entry m i j = entry m' i j.

(** A PAE matrix whose reads are symmetric. *)
Definition symmetric (m : matrix) : Prop := forall i j, entry m i j = entry m j i.

(** The two score lists of a run, or its exception. *)
Definition scores_of (run : result IPSAEResults.t)
  : result (list ChainChainScore.t * list ResidueScore.t) :=
  r <- run ;; Ok (IPSAEResults.chain_chain_scores r, IPSAEResults.residue_scores r).

(** ** The PAE parsers ([parser.py]) *)

(** The exceptions of the loading code, and its results. *)
Module Py.
Inductive exc : Type :=
| ValueError
| KeyError
| IndexError
| ReadError.  (* raised by a file reader: missing file, malformed content *)

Inductive result (A : Type) : Type :=
| Ok (a : A)
| Raise (e : exc).

Arguments Ok {A} a.
Arguments Raise {A} e.

Definition bind {A B : Type} (c : result A) (k : A -> result B) : result B :=
  match c with
  | Ok a => k a
  | Raise e => Raise e
  end.
End Py.

(** The value a PAE document holds under a key: a list of numbers or a list
    of lists of numbers.  The members of the document that hold anything
    else are left out. *)
Inductive json_array : Type :=
| Flat (xs : list R)
| Rows (rows : list (list R)).

(** [d.get(key)] on the items of a dict: [key in d] and [d[key]]. *)
Fixpoint dict_get {V : Type} (key : string) (items : list (string * V)) : option V :=
  match items with
  | [] => None
  | (k, v) :: rest => if String.eqb key k then Some v else dict_get key rest
  end.

(** [np.array] on such a value.  The empty list is a one-dimensional array
    of length 0; rows of unequal lengths are refused ([ValueError], NumPy
    1.24 and later). *)
Definition np_array (v : json_array) : Py.result ndarray :=
  match v with
  | Flat xs => Py.Ok (Array1 xs)
  | Rows [] => Py.Ok (Array1 [])
  | Rows (row :: rows) =>
      if forallb (fun row' => Nat.eqb (length row') (length row)) rows
      then Py.Ok (Array2 (row :: rows))
      else Py.Raise Py.ValueError
  end.

(** The rows of a row-major reshape: [r] rows of [c] entries. *)
Fixpoint chunks (c r : nat) (v : list R) : list (list R) :=
  match r with
  | O => []
  | S r' => firstn c v :: chunks c r' (skipn c v)
  end.

(** [v.reshape(r, c)] on a one-dimensional array. *)
Definition reshape (v : list R) (r c : nat) : Py.result matrix :=
  if Nat.eqb (length v) (r * c) then Py.Ok (chunks c r v) else Py.Raise Py.ValueError.

(** Lines 102-110 and 131-139: a one-dimensional array is reshaped to
    [n] by [n] with [n = int(np.sqrt(len(pae_matrix)))]; any other array is
    returned as it is. *)
Definition ensure_2d (pae_matrix : ndarray) : Py.result matrix :=
  match pae_matrix with
  | Array1 v => let n := Nat.sqrt (length v) in reshape v n n
  | Array2 m => Py.Ok m
  end.

Definition possible_keys : list string := ["pae_matrix"; "predicted_aligned_error"; "pae"].

(** Lines 93-97: the value under the first of the keys present in [data]. *)
Fixpoint first_present (keys : list string) (data : list (string * json_array))
  : option json_array :=
  match keys with
  | [] => None
  | key :: keys' =>
      match dict_get key data with
      | Some v => Some v
      | None => first_present keys' data
      end
  end.

(** [PAEParser.parse_json], from the object [json.load] returned. *)
Definition parse_json (data : list (string * json_array)) : Py.result matrix :=
  match first_present possible_keys data with
  | None => Py.Raise Py.ValueError
  | Some v => Py.bind (np_array v) ensure_2d
  end.

(** [PAEParser.parse_npz], from the archive [np.load] returned. *)
Definition parse_npz (data : list (string * ndarray)) : Py.result matrix :=
  match dict_get "pae_matrix" data with
  | None => Py.Raise Py.KeyError
  | Some pae_matrix => ensure_2d pae_matrix
  end.

(** ** Loading the files ([calculator.py], lines 12-64) *)

(** File names are the final component of a path, in ASCII. *)

(** [name.rpartition('.')] when there is a dot: the text before the last
    dot and the text after it. *)
Fixpoint rpartition_dot (s : string) : option (string * string) :=
  match s with
  | EmptyString => None
  | String a s' =>
      match rpartition_dot s' with
      | Some (h, t) => Some (String a h, t)
      | None => if Ascii.eqb a "." then Some (EmptyString, s') else None
      end
  end.

Definition is_empty (s : string) : bool :=
  match s with
  | EmptyString => true
  | String _ _ => false
  end.

(** [pathlib]'s [suffix] (Python 3.8 to 3.13): with [i = name.rfind('.')],
    [name[i:]] when [0 < i < len(name) - 1], else the empty string. *)
Definition suffix (name : string) : string :=
  match rpartition_dot name with
  | Some (h, t) => if negb (is_empty h) && negb (is_empty t) then String "." t else ""
  | None => ""
  end.

(** [pathlib]'s [stem]: [name[:i]] under the same condition, else [name]. *)
Definition stem (name : string) : string :=
  match rpartition_dot name with
  | Some (h, t) => if negb (is_empty h) && negb (is_empty t) then h else name
  | None => name
  end.

(** [s.split('.')[-1]]. *)
Definition last_segment (s : string) : string :=
  match rpartition_dot s with
  | Some (_, t) => t
  | None => s
  end.

(** [str.lower] on ASCII text. *)
Definition lower_char (a : ascii) : ascii :=
  let n := nat_of_ascii a in
  if (65 <=? n)%nat && (n <=? 90)%nat then ascii_of_nat (n + 32) else a.

Fixpoint lower (s : string) : string :=
  match s with
  | EmptyString => EmptyString
  | String a s' => String (lower_char a) (lower s')
  end.

Inductive structure_format : Type := CIF | PDB.
Inductive pae_format : Type := JSON | NPZ.

(** Lines 42-47: the parser chosen for the structure file. *)
Definition structure_format_of (structure_file : string) : Py.result structure_format :=
  if String.eqb (lower (suffix structure_file)) ".cif" then Py.Ok CIF
  else if String.eqb (lower (suffix structure_file)) ".pdb" then Py.Ok PDB
  else Py.Raise Py.ValueError.

(** Lines 51-61: the parser chosen for the PAE file. *)
Definition pae_format_of (pae_file : string) : Py.result pae_format :=
  let pae_suffix := lower (suffix pae_file) in
  let pae_suffix :=
    if String.eqb pae_suffix ".gz"
    then String "." (lower (last_segment (stem pae_file)))
    else pae_suffix in
  if String.eqb pae_suffix ".json" then Py.Ok JSON
  else if String.eqb pae_suffix ".npz" then Py.Ok NPZ
  else Py.Raise Py.ValueError.

(** What the external readers do with a file name: Biopython's
    [get_structure], [json.load] and [np.load] on the opened file. *)
Record Files : Type := mkFiles {
  mmcif_structure : string -> Py.result Bio.Structure;
  pdb_structure : string -> Py.result Bio.Structure;
  json_document : string -> Py.result (list (string * json_array));
  npz_archive : string -> Py.result (list (string * ndarray))
}.

(** [load_data] on the two files (lines 39-64): the structure first, then
    the PAE matrix. *)
Definition load_files (files : Files) (pae_file structure_file : string)
    (pae_cutoff distance_cutoff : R) : Py.result IPSAECalculator.t :=
  Py.bind (structure_format_of structure_file) (fun format =>
  Py.bind
    match format with
    | CIF => Py.bind (mmcif_structure files structure_file) (fun s => Py.Ok (parse_cif s))
    | PDB => Py.bind (pdb_structure files structure_file) (fun s => Py.Ok (parse_pdb s))
    end (fun structure_data =>
  Py.bind (pae_format_of pae_file) (fun format =>
  Py.bind
    match format with
    | JSON => Py.bind (json_document files pae_file) parse_json
    | NPZ => Py.bind (npz_archive files pae_file) parse_npz
    end (fun pae_matrix =>
  Py.Ok (load_data pae_cutoff distance_cutoff structure_data pae_matrix))))).

(** [IPSAECalculator.__init__]: the fields, then [load_data]. *)
Definition init (files : Files) (pae_file structure_file : string)
    (pae_cutoff distance_cutoff : R) : Py.result IPSAECalculator.t :=
  load_files files pae_file structure_file pae_cutoff distance_cutoff.

(** The exceptions of the scoring code among those of the loading code. *)
Definition of_exn (e : exn) : Py.exc :=
  match e with
  | IndexError => Py.IndexError
  | ValueError => Py.ValueError
  end.

(** [IPSAECalculator(...).calculate()], as the command-line script runs it:
    [calculate] loads the two files once more (line 177) and scores what it
    loaded. *)
Definition run (files : Files) (pae_file structure_file : string)
    (pae_cutoff distance_cutoff : R) : Py.result IPSAEResults.t :=
  Py.bind (init files pae_file structure_file pae_cutoff distance_cutoff) (fun _ =>
  Py.bind (load_files files pae_file structure_file pae_cutoff distance_cutoff) (fun self =>
  match calculate self with
  | Ok results => Py.Ok results
  | Raise e => Py.Raise (of_exn e)
  end)).

(** A text without dot. *)
Fixpoint no_dot (s : string) : bool :=
  match s with
  | EmptyString => true
  | String a s' => negb (Ascii.eqb a ".") && no_dot s'
  end.

(** The format an extension stands for. *)
Definition format_of_extension (e : string) : Py.result pae_format :=
  if String.eqb e "json" then Py.Ok JSON
  else if String.eqb e "npz" then Py.Ok NPZ
  else Py.Raise Py.ValueError.

(** All rows of a matrix have the same length. *)
Definition rectangular (m : matrix) : Prop :=
  exists c, Forall (fun row => length row = c) m.

(** ** The file scanner ([scanner.py]) *)

(** A path: its directory and its final component. *)
Record Path : Type := mkPath {
  parent : string;
  name : string
}.

Module FileMatch.
Record t : Type := mk {
  structure_file : Path;
  pae_file : Path;
  model_name : string;
  seed : string;
  model_number : Z;
  is_valid : bool
}.
End FileMatch.

(** [s.split(sep)] for a one-character separator. *)
Fixpoint split (sep : ascii) (s : string) : list string :=
  match s with
  | EmptyString => [EmptyString]
  | String a s' =>
      if Ascii.eqb a sep then EmptyString :: split sep s'
      else match split sep s' with
           | part :: parts => String a part :: parts
           | [] => [String a EmptyString]
           end
  end.

(** [s[:-3]] when [s.endswith('.gz')]. *)
Fixpoint strip_gz (s : string) : option string :=
  match s with
  | EmptyString => None
  | String a s' =>
      if String.eqb s ".gz" then Some EmptyString
      else match strip_gz s' with
           | Some rest => Some (String a rest)
           | None => None
           end
  end.

(** [FileScanner._get_file_key]. *)
Definition _get_file_key (file_path : Path) : string :=
  let name := stem (name file_path) in
  let name := match strip_gz name with Some stripped => stripped | None => name end in
  hd EmptyString (split "_" name).

(** [parts.index(x)]: the first position of [x], or no position
    ([ValueError]). *)
Fixpoint index_of (x : string) (parts : list string) : option nat :=
  match parts with
  | [] => None
  | p :: parts' =>
      if String.eqb p x then Some 0%nat
      else match index_of x parts' with
           | Some i => Some (S i)
           | None => None
           end
  end.

Section Scanner.

(** Python's [int] on a string: the number, or none ([ValueError]). *)
Variable py_int : string -> option Z.

(** [Path.rglob] under the root directory, per pattern, in its order. *)
Variable rglob : string -> list Path.

(** [FileScanner._extract_model_info]: the exceptions [ValueError] and
    [IndexError] of the body end in [None]. *)
Definition _extract_model_info (filename : string) : option (string * string * Z) :=
  let parts := split "_" filename in
  match index_of "model" parts with
  | None => None
  | Some model_idx =>
      match nth_error parts (model_idx + 1) with
      | None => None
      | Some number =>
          match py_int number with
          | None => None
          | Some model_number =>
              match index_of "seed" parts with
              | None => None
              | Some seed_idx =>
                  match nth_error parts (seed_idx + 1) with
                  | None => None
                  | Some seed =>
                      match nth_error parts 0 with
                      | None => None
                      | Some model_name => Some (model_name, seed, model_number)
                      end
                  end
              end
          end
      end
  end.

(** Lines 78-83 and 88-93: a file is stored under its key unless the key
    is taken (the validity checks return [True]). *)
Definition store (files : list (string * Path)) (file_path : Path) : list (string * Path) :=
  let key := _get_file_key file_path in
  match dict_get key files with
  | Some _ => files
  | None => files ++ [(key, file_path)]
  end.

(** One of the two loops of [FileScanner._scan_files]. *)
Definition scan (patterns : list string) : list (string * Path) :=
  fold_left (fun files pattern => fold_left store (rglob pattern) files) patterns [].

Definition STRUCTURE_PATTERNS : list string :=
  ["*_unrelaxed_alphafold2_multimer_v3_model_*_seed_*.pdb";
   "*_unrelaxed_alphafold2_multimer_v3_model_*.pdb";
   "*.pdb"].

Definition PAE_PATTERNS : list string :=
  ["*_scores_alphafold2_multimer_v3_model_*_seed_*.json";
   "*_scores_alphafold2_multimer_v3_model_*_seed_*.json.gz";
   "*_scores_alphafold2_multimer_v3_model_*.json";
   "*_scores_alphafold2_multimer_v3_model_*.json.gz"].

(** [patterns or DEFAULT]: [None] and the empty list give the default. *)
Definition or_default (patterns : option (list string)) (default : list string)
  : list string :=
  match patterns with
  | Some (p :: ps) => p :: ps
  | _ => default
  end.

(** The scanner after [__init__]: its two dicts. *)
Record FileScanner : Type := mkFileScanner {
  structure_files : list (string * Path);
  pae_files : list (string * Path)
}.

Definition FileScanner_init (structure_patterns pae_patterns : option (list string))
  : FileScanner :=
  mkFileScanner (scan (or_default structure_patterns STRUCTURE_PATTERNS))
                (scan (or_default pae_patterns PAE_PATTERNS)).

(** The body of the loop of [find_matches] for one key. *)
Definition match_of (self : FileScanner) (key : string) : list FileMatch.t :=
  match dict_get key (structure_files self), dict_get key (pae_files self) with
  | Some structure_file, Some pae_file =>
      match _extract_model_info (name structure_file) with
      | Some (model_name, seed, model_number) =>
          [FileMatch.mk structure_file pae_file model_name seed model_number true]
      | None => []
      end
  | _, _ => []
  end.

(** The keys held by both dicts.  A Python set has no order of its own;
    here they come in the order of the structure files. *)
Definition common_keys (self : FileScanner) : list string :=
  filter (fun key => match dict_get key (pae_files self) with Some _ => true | None => false end)
    (map fst (structure_files self)).

(** [FileScanner.find_matches]. *)
Definition find_matches (self : FileScanner) : list FileMatch.t :=
  flat_map (match_of self) (common_keys self).

End Scanner.

(** A text without underscore. *)
Fixpoint no_underscore (s : string) : bool :=
  match s with
  | EmptyString => true
  | String a s' => negb (Ascii.eqb a "_") && no_underscore s'
  end.

(** [sep.join(parts)] for the separator [_]. *)
Fixpoint join_underscore (parts : list string) : string :=
  match parts with
  | [] => EmptyString
  | [p] => p
  | p :: parts' => (p ++ String "_" (join_underscore parts'))%string
  end.

(** The file has the given key. *)
Definition has_key (key : string) (p : Path) : bool := String.eqb key (_get_file_key p).

(** The key of the structure file of a pair. *)
Definition key_of_match (m : FileMatch.t) : string :=
  _get_file_key (FileMatch.structure_file m).


(** ** Further example inputs *)

(** A 2 by 2 PAE matrix. *)
Definition two_by_two : matrix := [[0; 10]; [10; 0]].

(** Two residues of one chain. *)
Definition single_chain : IPSAECalculator.t :=
  load_data 30 8
    (StructureData.mk ["A"] [("A", 1%Z, "GLY"); ("A", 2%Z, "ALA")]
       [(0, 0, 0); (1, 0, 0)] None)
    two_by_two.

(** The five residues of the scenario with a 2 by 2 PAE matrix. *)
Definition short_pae : IPSAECalculator.t :=
  load_data 30 8 scenario_structure two_by_two.

(** The PAE matrix of the scenario with another diagonal. *)
Definition other_diagonal : matrix :=
  [[99; 10; 10; 10; 10];
   [10; 99; 10; 10; 10];
   [10; 10; 99; 10; 10];
   [10; 10; 10; 99; 10];
   [10; 10; 10; 10; 99]].

(** A PAE document with the values of a 2 by 2 matrix as a flat list, and
    one with the rows of a 2 by 3 matrix. *)
Definition flat_document : list (string * json_array) := [("pae", Flat [0; 10; 12; 0])].

Definition rows_document : list (string * json_array) :=
  [("predicted_aligned_error", Rows [[0; 1; 2]; [3; 4; 5]])].

(** The 2 by 2 matrix of [flat_document] as a list of rows. *)
Definition nested_document : list (string * json_array) :=
  [("pae", Rows [[0; 10]; [12; 0]])].

(** A directory holding one PDB file and one PAE file. *)
Definition example_files : Files :=
  mkFiles
    (fun _ => Py.Raise Py.ReadError)
    (fun name => if String.eqb name "model.pdb" then Py.Ok two_residue_chain
                 else Py.Raise Py.ReadError)
    (fun name => if String.eqb name "scores.json" then Py.Ok flat_document
                 else Py.Raise Py.ReadError)
    (fun _ => Py.Raise Py.ReadError).

(** A reader of unsigned decimal numbers, to stand for [int] in examples. *)
Fixpoint digits_from (acc : Z) (s : string) : option Z :=
  match s with
  | EmptyString => Some acc
  | String a s' =>
      let n := nat_of_ascii a in
      if (48 <=? n)%nat && (n <=? 57)%nat
      then digits_from (10 * acc + Z.of_nat (n - 48)) s'
      else None
  end.

Definition decimal (s : string) : option Z :=
  match s with
  | EmptyString => None
  | String _ _ => digits_from 0 s
  end.

(** * Properties *)

(** ** Reads of the two matrices *)

Lemma Rleb_true (x y : R) : x <= y -> Rleb x y = true.
Proof. intros H. unfold Rleb. destruct (Rle_dec x y); [reflexivity | contradiction]. Qed.

Lemma Rleb_false (x y : R) : y < x -> Rleb x y = false.
Proof. intros H. unfold Rleb. destruct (Rle_dec x y); [lra | reflexivity]. Qed.

Lemma Rleb_le (x y : R) : Rleb x y = true <-> x <= y.
Proof.
  unfold Rleb. destruct (Rle_dec x y); split; intros; try assumption;
    try reflexivity; try discriminate; contradiction.
Qed.

Lemma getitem_spec (m : matrix) (i j : nat) :
  getitem m i j =
  if Nat.ltb i (length m) && Nat.ltb j (length (nth i m []))
  then Ok (entry m i j) else Raise IndexError.
Proof.
  unfold getitem, entry.
  destruct (Nat.ltb_spec i (length m)) as [Hi | Hi]; simpl.
  - rewrite (nth_error_nth' m [] Hi).
    destruct (Nat.ltb_spec j (length (nth i m []))) as [Hj | Hj].
    + rewrite (nth_error_nth' _ 0 Hj). reflexivity.
    + apply nth_error_None in Hj. rewrite Hj. reflexivity.
  - apply nth_error_None in Hi. rewrite Hi. reflexivity.
Qed.

Lemma cdist_spec (cs : list coord) :
  cdist cs cs = match cs with [] => Raise ValueError | _ :: _ => Ok (distance_matrix cs) end.
Proof. destruct cs; reflexivity. Qed.

Lemma distance_matrix_row (cs : list coord) (i : nat) :
  (i < length cs)%nat ->
  nth i (distance_matrix cs) [] = map (fun v => euclidean (nth i cs origin) v) cs.
Proof.
  intros Hi. unfold distance_matrix.
  rewrite (nth_indep _ [] (map (fun v => euclidean origin v) cs))
    by (rewrite length_map; exact Hi).
  exact (map_nth (fun u => map (fun v => euclidean u v) cs) cs origin i).
Qed.

Lemma getitem_distance_matrix (cs : list coord) (i j : nat) :
  getitem (distance_matrix cs) i j =
  if Nat.ltb i (length cs) && Nat.ltb j (length cs)
  then Ok (distance_at cs i j) else Raise IndexError.
Proof.
  rewrite getitem_spec. unfold entry.
  assert (Hlen : length (distance_matrix cs) = length cs)
    by (unfold distance_matrix; apply length_map).
  rewrite Hlen.
  destruct (Nat.ltb_spec i (length cs)) as [Hi | Hi]; simpl; [| reflexivity].
  rewrite (distance_matrix_row cs i Hi), length_map.
  destruct (Nat.ltb_spec j (length cs)) as [Hj | Hj]; [| reflexivity].
  f_equal. unfold distance_at.
  rewrite (nth_indep _ 0 (euclidean (nth i cs origin) origin))
    by (rewrite length_map; exact Hj).
  exact (map_nth (fun v => euclidean (nth i cs origin) v) cs origin j).
Qed.

(** ** Loops *)

Section ForEach.
Context {A S : Type}.

Lemma for_each_ext (f g : S -> A -> result S) (xs : list A) (s : S) :
  (forall s x, f s x = g s x) -> for_each xs f s = for_each xs g s.
Proof.
  intros Hfg. revert s. induction xs as [| x xs IH]; intros s; simpl.
  - reflexivity.
  - rewrite Hfg. destruct (g s x); simpl; [apply IH | reflexivity].
Qed.

Lemma for_each_app (f : S -> A -> result S) (xs ys : list A) (s : S) :
  for_each (xs ++ ys) f s = s' <- for_each xs f s ;; for_each ys f s'.
Proof.
  revert s. induction xs as [| x xs IH]; intros s; simpl.
  - reflexivity.
  - destruct (f s x); simpl; [apply IH | reflexivity].
Qed.

Lemma for_each_map {B : Type} (h : B -> A) (f : S -> A -> result S)
    (xs : list B) (s : S) :
  for_each (map h xs) f s = for_each xs (fun s x => f s (h x)) s.
Proof.
  revert s. induction xs as [| x xs IH]; intros s; simpl.
  - reflexivity.
  - destruct (f s (h x)); simpl; [apply IH | reflexivity].
Qed.

(** A loop that skips the elements failing a test is the loop over the
    elements passing it. *)
Lemma for_each_filter (t : A -> bool) (f : S -> A -> result S) (xs : list A) (s : S) :
  for_each xs (fun s x => if t x then f s x else Ok s) s = for_each (filter t xs) f s.
Proof.
  revert s. induction xs as [| x xs IH]; intros s; simpl.
  - reflexivity.
  - destruct (t x); simpl.
    + destruct (f s x); simpl; [apply IH | reflexivity].
    + apply IH.
Qed.

(** A loop whose body appends a list of entries and fails on no element. *)
Lemma for_each_flat_map {B : Type} (ok : A -> bool) (out : A -> list B)
    (f : list B -> A -> result (list B)) (xs : list A) (acc : list B) :
  (forall acc x, f acc x = if ok x then Ok (acc ++ out x) else Raise IndexError) ->
  for_each xs f acc =
  if forallb ok xs then Ok (acc ++ flat_map out xs) else Raise IndexError.
Proof.
  intros Hf. revert acc. induction xs as [| x xs IH]; intros acc; simpl.
  - rewrite app_nil_r. reflexivity.
  - rewrite Hf. destruct (ok x); simpl; [| reflexivity].
    rewrite IH, <- app_assoc. reflexivity.
Qed.
End ForEach.

(** Two nested loops are one loop over the product of their ranges. *)
Lemma for_each_list_prod {A B S : Type} (f : S -> A -> B -> result S)
    (xs : list A) (ys : list B) (s : S) :
  for_each xs (fun s x => for_each ys (fun s y => f s x y) s) s =
  for_each (list_prod xs ys) (fun s p => f s (fst p) (snd p)) s.
Proof.
  revert s. induction xs as [| x xs IH]; intros s; simpl.
  - reflexivity.
  - rewrite for_each_app, for_each_map. simpl.
    destruct (for_each ys (fun s y => f s x y) s); simpl; [apply IH | reflexivity].
Qed.

(** The chain loop, [for i, chain1 in enumerate(chains)] over
    [for chain2 in chains[i+1:]], visits [ordered_pairs chains]. *)
Lemma for_each_ordered_pairs {S : Type} (f : S -> string -> string -> result S)
    (pre l : list string) (s : S) :
  for_each (combine (seq (length pre) (length l)) l)
    (fun s '(i, x) => for_each (skipn (i + 1) (pre ++ l)) (fun s y => f s x y) s) s =
  for_each (ordered_pairs l) (fun s p => f s (fst p) (snd p)) s.
Proof.
  revert pre s. induction l as [| x l IH]; intros pre s; simpl.
  - reflexivity.
  - rewrite for_each_app, for_each_map. simpl.
    assert (Hskip : skipn (length pre + 1) (pre ++ x :: l) = l).
    { replace (pre ++ x :: l) with ((pre ++ [x]) ++ l) by (rewrite <- app_assoc; reflexivity).
      replace (length pre + 1)%nat with (length (pre ++ [x]))
        by (rewrite length_app; reflexivity).
      rewrite skipn_app, skipn_all, Nat.sub_diag. reflexivity. }
    rewrite Hskip.
    destruct (for_each l (fun s y => f s x y) s) as [s' |]; simpl; [| reflexivity].
    specialize (IH (pre ++ [x]) s').
    rewrite length_app in IH. simpl in IH. rewrite Nat.add_1_r in IH.
    rewrite <- app_assoc in IH. simpl in IH. exact IH.
Qed.

(** ** The interaction loops *)

Section Scan.
Variable self : IPSAECalculator.t.

Let d : matrix := distance_matrix (coords_of self).

Lemma scan_pair_spec (v : list (nat * nat)) (ps ds : list R) (i j : nat) :
  scan_pair self d (v, ps, ds) i j =
  if readable self (i, j) then
    Ok (if qualifies self (i, j)
        then (v ++ [(i, j)], ps ++ [pae_at self (i, j)], ds ++ [dist_at self (i, j)])
        else (v, ps, ds))
  else Raise IndexError.
Proof.
  unfold scan_pair, readable, d. rewrite getitem_spec, getitem_distance_matrix. simpl.
  destruct (Nat.ltb i (length (pae_matrix self))
            && Nat.ltb j (length (nth i (pae_matrix self) []))); simpl;
    [| reflexivity].
  destruct (Nat.ltb i (length (coords_of self)) && Nat.ltb j (length (coords_of self)));
    simpl; [| reflexivity].
  unfold qualifies, pae_at, dist_at. simpl.
  destruct (Rleb _ _ && Rleb _ _); reflexivity.
Qed.

Lemma scan_all_spec (pairs : list (nat * nat)) (v : list (nat * nat)) (ps ds : list R) :
  for_each pairs (fun acc p => scan_pair self d acc (fst p) (snd p)) (v, ps, ds) =
  if forallb (readable self) pairs then
    Ok (v ++ filter (qualifies self) pairs,
        ps ++ map (pae_at self) (filter (qualifies self) pairs),
        ds ++ map (dist_at self) (filter (qualifies self) pairs))
  else Raise IndexError.
Proof.
  revert v ps ds. induction pairs as [| [i j] pairs IH]; intros v ps ds; simpl.
  - rewrite !app_nil_r. reflexivity.
  - rewrite scan_pair_spec.
    destruct (readable self (i, j)); simpl; [| reflexivity].
    destruct (qualifies self (i, j)); simpl; rewrite IH;
      destruct (forallb (readable self) pairs); try reflexivity.
    rewrite <- !app_assoc. reflexivity.
Qed.

Lemma collect_chain_pair_spec (c : string * string) :
  collect_chain_pair self d (chain_indices (residues_of self) (fst c))
    (chain_indices (residues_of self) (snd c)) =
  if forallb (readable self) (cross_pairs self c) then
    Ok (qualifying_pairs self c,
        map (pae_at self) (qualifying_pairs self c),
        map (dist_at self) (qualifying_pairs self c))
  else Raise IndexError.
Proof.
  unfold collect_chain_pair.
  rewrite (for_each_list_prod (fun acc i j => scan_pair self d acc i j)).
  rewrite scan_all_spec. reflexivity.
Qed.

Lemma score_chain_pair_spec (scores : list ChainChainScore.t) (c : string * string) :
  score_chain_pair self d scores (fst c) (snd c) =
  if forallb (readable self) (cross_pairs self c)
  then Ok (scores ++ chain_pair_entry self c) else Raise IndexError.
Proof.
  unfold score_chain_pair. fold (residues_of self).
  rewrite collect_chain_pair_spec.
  destruct (forallb (readable self) (cross_pairs self c)); simpl; [| reflexivity].
  unfold chain_pair_entry, chain_pair_record.
  destruct (qualifying_pairs self c); [rewrite app_nil_r |]; reflexivity.
Qed.

Lemma score_residue_spec (scores : list ResidueScore.t) (ir : nat * residue) :
  score_residue self d scores (fst ir) (snd ir) =
  if forallb (readable self) (partner_pairs self (fst ir))
  then Ok (scores ++ residue_entry self ir) else Raise IndexError.
Proof.
  destruct ir as [i [[chain res_num] res_name]]. unfold score_residue. simpl.
  fold (coords_of self).
  rewrite (for_each_filter (fun j => negb (Nat.eqb i j))
             (fun acc j => scan_pair self d acc i j)).
  rewrite <- (for_each_map (pair i) (fun acc p => scan_pair self d acc (fst p) (snd p))).
  fold (partner_pairs self i). rewrite scan_all_spec.
  destruct (forallb (readable self) (partner_pairs self i)); simpl; [| reflexivity].
  unfold residue_entry, residue_record, qualifying_partners. simpl.
  destruct (filter (qualifies self) (partner_pairs self i));
    [rewrite app_nil_r |]; reflexivity.
Qed.
End Scan.

(** ** The two scorers as functions of their input *)

Lemma forallb_flat_map {A B : Type} (t : B -> bool) (g : A -> list B) (xs : list A) :
  forallb (fun x => forallb t (g x)) xs = forallb t (flat_map g xs).
Proof.
  induction xs as [| x xs IH]; simpl; [reflexivity |].
  rewrite forallb_app, IH. reflexivity.
Qed.

Lemma calculate_chain_chain_scores_spec (self : IPSAECalculator.t) :
  calculate_chain_chain_scores self =
  match coords_of self with
  | [] => Raise ValueError
  | _ :: _ =>
      if forallb (readable self) (chain_reads self)
      then Ok (flat_map (chain_pair_entry self) (ordered_pairs (chain_labels self)))
      else Raise IndexError
  end.
Proof.
  unfold calculate_chain_chain_scores. fold (coords_of self) (chain_labels self).
  rewrite cdist_spec.
  destruct (coords_of self) as [| c0 cs] eqn:Hcs; [reflexivity |].
  rewrite <- Hcs. simpl.
  transitivity
    (for_each (ordered_pairs (chain_labels self))
       (fun scores c =>
          score_chain_pair self (distance_matrix (coords_of self)) scores (fst c) (snd c))
       []).
  { exact (for_each_ordered_pairs
             (fun scores c1 c2 =>
                score_chain_pair self (distance_matrix (coords_of self)) scores c1 c2)
             [] (chain_labels self) []). }
  rewrite (for_each_flat_map (fun c => forallb (readable self) (cross_pairs self c))
             (chain_pair_entry self)).
  - unfold chain_reads. rewrite forallb_flat_map. reflexivity.
  - intros acc c. apply score_chain_pair_spec.
Qed.

Lemma calculate_residue_scores_spec (self : IPSAECalculator.t) :
  calculate_residue_scores self =
  match coords_of self with
  | [] => Raise ValueError
  | _ :: _ =>
      if forallb (readable self) (residue_reads self)
      then Ok (flat_map (residue_entry self) (enumerate (residues_of self)))
      else Raise IndexError
  end.
Proof.
  unfold calculate_residue_scores. fold (coords_of self) (residues_of self).
  rewrite cdist_spec.
  destruct (coords_of self) as [| c0 cs] eqn:Hcs; [reflexivity |].
  rewrite <- Hcs. simpl.
  rewrite (for_each_ext _
             (fun scores ir =>
                score_residue self (distance_matrix (coords_of self)) scores (fst ir) (snd ir)))
    by (intros s [i r]; reflexivity).
  rewrite (for_each_flat_map (fun ir => forallb (readable self) (partner_pairs self (fst ir)))
             (residue_entry self)).
  - unfold residue_reads. rewrite forallb_flat_map. reflexivity.
  - intros acc ir. apply score_residue_spec.
Qed.

(** ** The order on chain labels and [sorted(set(...))] *)

Lemma compare_as_OT (a b : string) : String.compare a b = String_as_OT.compare a b.
Proof.
  revert b. induction a as [| x a IH]; intros [| y b]; reflexivity.
Qed.

Lemma str_lt_trans (a b c : string) : str_lt a b -> str_lt b c -> str_lt a c.
Proof.
  unfold str_lt, String.ltb. intros Hab Hbc.
  destruct (String.compare a b) eqn:E1; try discriminate.
  destruct (String.compare b c) eqn:E2; try discriminate.
  rewrite compare_as_OT in E1, E2.
  destruct String_as_OT.lt_strorder as [_ Htrans].
  assert (H : String_as_OT.compare a c = Lt) by exact (Htrans a b c E1 E2).
  rewrite compare_as_OT, H. reflexivity.
Qed.

Lemma str_lt_irrefl (a : string) : ~ str_lt a a.
Proof.
  unfold str_lt, String.ltb. intros H.
  destruct (String.compare a a) eqn:E; try discriminate.
  pose proof (String.compare_antisym a a) as Ha. rewrite E in Ha. discriminate.
Qed.

Lemma leb_false_lt (a b : string) : String.leb a b = false -> str_lt b a.
Proof.
  unfold str_lt, String.leb, String.ltb. rewrite (String.compare_antisym b a).
  destruct (String.compare a b); simpl; intros H; try discriminate. reflexivity.
Qed.

Lemma leb_true_cases (a b : string) : String.leb a b = true -> a = b \/ str_lt a b.
Proof.
  unfold str_lt, String.leb, String.ltb.
  destruct (String.compare a b) eqn:E; intros H; try discriminate.
  - left. apply String.compare_eq_iff. exact E.
  - right. reflexivity.
Qed.

Lemma insert_sorted_In (x y : string) (l : list string) :
  In y (insert_sorted x l) <-> y = x \/ In y l.
Proof.
  induction l as [| z l IH]; simpl.
  - intuition.
  - destruct (String.leb x z); simpl; [intuition |]. rewrite IH. intuition.
Qed.

Lemma insert_sorted_sorted (x : string) (l : list string) :
  ~ In x l -> StronglySorted str_lt l -> StronglySorted str_lt (insert_sorted x l).
Proof.
  intros Hnin Hs. induction Hs as [| z l Hs IH Hall]; simpl.
  - constructor; constructor.
  - destruct (String.leb x z) eqn:E.
    + apply leb_true_cases in E. destruct E as [-> | Hlt]; [exfalso; apply Hnin; left; reflexivity |].
      constructor; [constructor; assumption |].
      constructor; [exact Hlt |].
      eapply Forall_impl; [| exact Hall]. intros w Hw. eapply str_lt_trans; eassumption.
    + apply leb_false_lt in E. constructor.
      * apply IH. intros Hin. apply Hnin. right. exact Hin.
      * apply Forall_forall. intros w Hw. apply insert_sorted_In in Hw.
        destruct Hw as [-> | Hw]; [exact E |].
        rewrite Forall_forall in Hall. apply Hall. exact Hw.
Qed.

Lemma sorted_In (y : string) (l : list string) : In y (sorted l) <-> In y l.
Proof.
  induction l as [| x l IH]; simpl; [reflexivity |].
  rewrite insert_sorted_In, IH. intuition.
Qed.

Lemma sorted_sorted (l : list string) : NoDup l -> StronglySorted str_lt (sorted l).
Proof.
  induction 1 as [| x l Hnin Hnd IH]; simpl; [constructor |].
  apply insert_sorted_sorted; [| exact IH]. rewrite sorted_In. exact Hnin.
Qed.

Lemma chain_labels_sorted (self : IPSAECalculator.t) :
  StronglySorted str_lt (chain_labels self).
Proof. apply sorted_sorted. apply NoDup_nodup. Qed.

Lemma chain_labels_In (self : IPSAECalculator.t) (c : string) :
  In c (chain_labels self) <-> In c (StructureData.chains (structure_data self)).
Proof. unfold chain_labels, py_set. rewrite sorted_In. apply nodup_In. Qed.

(** ** The pairs of a strictly sorted list *)

Lemma ordered_pairs_In (l : list string) (a b : string) :
  StronglySorted str_lt l ->
  (In (a, b) (ordered_pairs l) <-> In a l /\ In b l /\ str_lt a b).
Proof.
  induction 1 as [| x l Hs IH Hall]; simpl; [intuition |].
  rewrite Forall_forall in Hall. rewrite in_app_iff, in_map_iff, IH. split.
  - intros [[y [Heq Hy]] | [Ha [Hb Hlt]]].
    + inversion Heq; subst. auto.
    + auto.
  - intros [[-> | Ha] [[-> | Hb] Hlt]].
    + exfalso. exact (str_lt_irrefl _ Hlt).
    + left. exists b. auto.
    + exfalso. apply (str_lt_irrefl a). eapply str_lt_trans; [exact Hlt | apply Hall; exact Ha].
    + right. auto.
Qed.

Lemma ordered_pairs_sorted (l : list string) :
  StronglySorted str_lt l -> StronglySorted pair_lt (ordered_pairs l).
Proof.
  induction 1 as [| x l Hs IH Hall]; simpl; [constructor |].
  rewrite Forall_forall in Hall.
  assert (Hrow : forall l', StronglySorted str_lt l' ->
            (forall q, In q (ordered_pairs l) -> str_lt x (fst q)) ->
            StronglySorted pair_lt (map (pair x) l' ++ ordered_pairs l)).
  { intros l' Hs' Hq. induction Hs' as [| y l' Hs' IH' Hall']; simpl; [exact IH |].
    constructor; [exact IH' |].
    apply Forall_forall. intros q Hin. apply in_app_iff in Hin. destruct Hin as [Hin | Hin].
    - apply in_map_iff in Hin. destruct Hin as [z [<- Hz]]. right. simpl. split; [reflexivity |].
      rewrite Forall_forall in Hall'. apply Hall'. exact Hz.
    - left. simpl. apply Hq. exact Hin. }
  apply Hrow; [exact Hs |].
  intros [a b] Hin. apply (ordered_pairs_In l a b Hs) in Hin. simpl. apply Hall. tauto.
Qed.

Lemma pair_lt_irrefl (p : string * string) : ~ pair_lt p p.
Proof.
  intros [H | [_ H]]; exact (str_lt_irrefl _ H).
Qed.

Lemma StronglySorted_NoDup {A : Type} (lt : A -> A -> Prop) (l : list A) :
  (forall x, ~ lt x x) -> StronglySorted lt l -> NoDup l.
Proof.
  intros Hirr. induction 1 as [| x l Hs IH Hall]; constructor; [| exact IH].
  intros Hin. rewrite Forall_forall in Hall. exact (Hirr x (Hall x Hin)).
Qed.

Lemma ordered_pairs_NoDup (l : list string) :
  StronglySorted str_lt l -> NoDup (ordered_pairs l).
Proof.
  intros Hs. apply (StronglySorted_NoDup pair_lt); [exact pair_lt_irrefl |].
  apply ordered_pairs_sorted. exact Hs.
Qed.

(** ** Emitted entries *)

Lemma chain_pair_entry_In (self : IPSAECalculator.t) (sc : ChainChainScore.t)
    (pairs : list (string * string)) :
  In sc (flat_map (chain_pair_entry self) pairs) <->
  exists c, In c pairs /\ qualifying_pairs self c <> [] /\ sc = chain_pair_record self c.
Proof.
  rewrite in_flat_map. split; intros [c [Hc H]]; exists c.
  - unfold chain_pair_entry in H. destruct (qualifying_pairs self c) eqn:E; [destruct H |].
    destruct H as [<- | []]. repeat split; [exact Hc | discriminate].
  - destruct H as [Hne ->]. split; [exact Hc |]. unfold chain_pair_entry.
    destruct (qualifying_pairs self c); [contradiction | left; reflexivity].
Qed.

Lemma residue_entry_In (self : IPSAECalculator.t) (rs : ResidueScore.t)
    (irs : list (nat * residue)) :
  In rs (flat_map (residue_entry self) irs) <->
  exists ir, In ir irs /\ qualifying_partners self (fst ir) <> [] /\ rs = residue_record self ir.
Proof.
  rewrite in_flat_map. split; intros [ir [Hir H]]; exists ir.
  - unfold residue_entry in H.
    destruct (qualifying_partners self (fst ir)) eqn:E; [destruct H |].
    destruct H as [<- | []]. repeat split; [exact Hir | discriminate].
  - destruct H as [Hne ->]. split; [exact Hir |]. unfold residue_entry.
    destruct (qualifying_partners self (fst ir)); [contradiction | left; reflexivity].
Qed.

Lemma chain_scores_inv (self : IPSAECalculator.t) (scores : list ChainChainScore.t) :
  calculate_chain_chain_scores self = Ok scores ->
  coords_of self <> []
  /\ forallb (readable self) (chain_reads self) = true
  /\ scores = flat_map (chain_pair_entry self) (ordered_pairs (chain_labels self)).
Proof.
  rewrite calculate_chain_chain_scores_spec.
  destruct (coords_of self); [discriminate |].
  destruct (forallb (readable self) (chain_reads self)); [| discriminate].
  intros H. inversion H. repeat split. discriminate.
Qed.

Lemma residue_scores_inv (self : IPSAECalculator.t) (scores : list ResidueScore.t) :
  calculate_residue_scores self = Ok scores ->
  coords_of self <> []
  /\ forallb (readable self) (residue_reads self) = true
  /\ scores = flat_map (residue_entry self) (enumerate (residues_of self)).
Proof.
  rewrite calculate_residue_scores_spec.
  destruct (coords_of self); [discriminate |].
  destruct (forallb (readable self) (residue_reads self)); [| discriminate].
  intros H. inversion H. repeat split. discriminate.
Qed.

Lemma calculate_inv (self : IPSAECalculator.t) (r : IPSAEResults.t) :
  calculate self = Ok r ->
  calculate_chain_chain_scores self = Ok (IPSAEResults.chain_chain_scores r)
  /\ calculate_residue_scores self = Ok (IPSAEResults.residue_scores r)
  /\ IPSAEResults.structure_data r = structure_data self.
Proof.
  unfold calculate.
  destruct (calculate_chain_chain_scores self) as [ccs |]; [| discriminate].
  destruct (calculate_residue_scores self) as [rss |]; [| discriminate].
  simpl. intros H. inversion H. simpl. repeat split.
Qed.

(** ** Chain membership of residue indices *)

Lemma enumerate_In {A : Type} (xs : list A) (k : nat) (x : A) :
  In (k, x) (enumerate xs) <-> nth_error xs k = Some x.
Proof.
  unfold enumerate.
  assert (G : forall s, In (k, x) (combine (seq s (length xs)) xs) <->
                        (s <= k)%nat /\ nth_error xs (k - s) = Some x).
  { induction xs as [| y xs IH]; intros s; simpl.
    - split; [intros [] | intros [_ H]]. destruct (k - s)%nat; discriminate.
    - rewrite IH. split.
      + intros [H | [Hle H]].
        * inversion H; subst. rewrite Nat.sub_diag. split; [lia | reflexivity].
        * split; [lia |]. replace (k - s)%nat with (S (k - S s)) by lia. exact H.
      + intros [Hle H]. destruct (Nat.eq_dec s k) as [-> | Hne].
        * left. rewrite Nat.sub_diag in H. simpl in H. inversion H. reflexivity.
        * right. split; [lia |].
          replace (k - s)%nat with (S (k - S s)) in H by lia. exact H. }
  rewrite G, Nat.sub_0_r. intuition lia.
Qed.

Lemma chain_indices_In (rs : list residue) (c : string) (k : nat) :
  In k (chain_indices rs c) <->
  exists number name, nth_error rs k = Some (c, number, name).
Proof.
  unfold chain_indices. rewrite in_map_iff. split.
  - intros [[k' [[c' number] name]] [Hk Hin]]. simpl in Hk. subst k'.
    apply filter_In in Hin. destruct Hin as [Hin Hc].
    apply String.eqb_eq in Hc. subst c'. apply enumerate_In in Hin.
    exists number, name. exact Hin.
  - intros [number [name H]]. exists (k, (c, number, name)). split; [reflexivity |].
    apply filter_In. split; [apply enumerate_In; exact H | apply String.eqb_refl].
Qed.

Lemma chain_indices_length (self : IPSAECalculator.t) (c : string) :
  length (chain_indices (residues_of self) c) = chain_size self c.
Proof.
  unfold chain_indices, chain_size, enumerate. rewrite length_map.
  generalize 0%nat. induction (residues_of self) as [| [[c' number] name] rs IH];
    intros s; simpl; [reflexivity |].
  destruct (String.eqb c' c); simpl; rewrite IH; reflexivity.
Qed.

(** ** Means *)

Lemma np_sum_le (xs : list R) (c : R) :
  Forall (fun x => x <= c) xs -> np_sum xs <= INR (length xs) * c.
Proof.
  induction 1 as [| x xs Hx _ IH].
  - simpl. lra.
  - change (np_sum (x :: xs)) with (x + np_sum xs).
    change (length (x :: xs)) with (S (length xs)). rewrite S_INR. lra.
Qed.

Lemma np_sum_ge (xs : list R) (c : R) :
  Forall (fun x => c <= x) xs -> INR (length xs) * c <= np_sum xs.
Proof.
  induction 1 as [| x xs Hx _ IH].
  - simpl. lra.
  - change (np_sum (x :: xs)) with (x + np_sum xs).
    change (length (x :: xs)) with (S (length xs)). rewrite S_INR. lra.
Qed.

Lemma INR_length_pos {A : Type} (xs : list A) : xs <> [] -> 0 < INR (length xs).
Proof.
  intros H. destruct xs; [contradiction |]. apply lt_0_INR. simpl. lia.
Qed.

Lemma np_mean_le (xs : list R) (c : R) :
  xs <> [] -> Forall (fun x => x <= c) xs -> np_mean xs <= c.
Proof.
  intros Hne Hall. unfold np_mean.
  pose proof (INR_length_pos xs Hne) as Hn. pose proof (np_sum_le xs c Hall) as Hs.
  apply (Rmult_le_reg_r (INR (length xs))); [exact Hn |].
  unfold Rdiv. rewrite Rmult_assoc, Rinv_l by lra. lra.
Qed.

Lemma np_mean_ge (xs : list R) (c : R) :
  xs <> [] -> Forall (fun x => c <= x) xs -> c <= np_mean xs.
Proof.
  intros Hne Hall. unfold np_mean.
  pose proof (INR_length_pos xs Hne) as Hn. pose proof (np_sum_ge xs c Hall) as Hs.
  apply (Rmult_le_reg_r (INR (length xs))); [exact Hn |].
  unfold Rdiv. rewrite Rmult_assoc, Rinv_l by lra. lra.
Qed.

Lemma map_nonempty {A B : Type} (f : A -> B) (xs : list A) : xs <> [] -> map f xs <> [].
Proof. destruct xs; [contradiction | discriminate]. Qed.

Lemma qualifies_pae (self : IPSAECalculator.t) (p : nat * nat) :
  qualifies self p = true -> pae_at self p <= pae_cutoff self.
Proof. unfold qualifies. intros H. apply andb_prop in H. apply Rleb_le. tauto. Qed.

Lemma qualifies_dist (self : IPSAECalculator.t) (p : nat * nat) :
  qualifies self p = true -> dist_at self p <= distance_cutoff self.
Proof. unfold qualifies. intros H. apply andb_prop in H. apply Rleb_le. tauto. Qed.

Lemma filter_qualifies_pae (self : IPSAECalculator.t) (pairs : list (nat * nat)) :
  Forall (fun x => x <= pae_cutoff self) (map (pae_at self) (filter (qualifies self) pairs)).
Proof.
  apply Forall_forall. intros x Hx. apply in_map_iff in Hx. destruct Hx as [p [<- Hp]].
  apply filter_In in Hp. apply qualifies_pae. tauto.
Qed.

Lemma filter_qualifies_dist (self : IPSAECalculator.t) (pairs : list (nat * nat)) :
  Forall (fun x => x <= distance_cutoff self)
    (map (dist_at self) (filter (qualifies self) pairs)).
Proof.
  apply Forall_forall. intros x Hx. apply in_map_iff in Hx. destruct Hx as [p [<- Hp]].
  apply filter_In in Hp. apply qualifies_dist. tauto.
Qed.

(** ** Chain-pair scores *)

(** C1.  Every chain pair that [calculate_chain_chain_scores] emits has a
    non-empty set of qualifying index pairs, and its derived values are:
    [ipsae_score = 1 - mean PAE / pae_cutoff],
    [pdockq_score = 1 / (1 + exp (-0.5 * (mean PAE - 20)))],
    [lis_score = number of qualifying pairs / (residues of chain1 * residues
    of chain2)], and [avg_pae], [avg_distance] are the arithmetic means (sum
    over count) of the PAE values and of the distances of the qualifying
    pairs. *)
Theorem C1_chain_pair_score_formulas (self : IPSAECalculator.t)
    (scores : list ChainChainScore.t) (sc : ChainChainScore.t) :
  calculate_chain_chain_scores self = Ok scores ->
  In sc scores ->
  let valid :=
    qualifying_pairs self (ChainChainScore.chain1 sc, ChainChainScore.chain2 sc) in
  let mean_pae := np_sum (map (pae_at self) valid) / INR (length valid) in
  let mean_distance := np_sum (map (dist_at self) valid) / INR (length valid) in
  valid <> []
  /\ ChainChainScore.valid_interactions sc = valid
  /\ ChainChainScore.ipsae_score sc = 1 - mean_pae / pae_cutoff self
  /\ ChainChainScore.pdockq_score sc = 1 / (1 + exp (- 0.5 * (mean_pae - 20)))
  /\ ChainChainScore.lis_score sc =
     INR (length valid)
     / INR (chain_size self (ChainChainScore.chain1 sc)
            * chain_size self (ChainChainScore.chain2 sc))
  /\ ChainChainScore.avg_pae sc = mean_pae
  /\ ChainChainScore.avg_distance sc = mean_distance.
Proof.
  intros Hrun Hin.
  apply chain_scores_inv in Hrun. destruct Hrun as [_ [_ ->]].
  apply chain_pair_entry_In in Hin. destruct Hin as [[c1 c2] [_ [Hne ->]]].
  unfold chain_pair_record; simpl.
  unfold np_mean. rewrite !length_map, !chain_indices_length.
  repeat split. exact Hne.
Qed.

(** C6.  In every emitted [ChainChainScore] and [ResidueScore],
    [num_interactions] is the length of the record's [valid_interactions],
    and [avg_pae], [avg_distance] are the arithmetic means of the record's
    own [pae_values] and [distances] (exactly, hence within 1e-9); the three
    lists have the same length. *)
Theorem C6_aggregates_consistent (self : IPSAECalculator.t) (r : IPSAEResults.t) :
  calculate self = Ok r ->
  (forall sc, In sc (IPSAEResults.chain_chain_scores r) ->
     ChainChainScore.num_interactions sc = length (ChainChainScore.valid_interactions sc)
     /\ length (ChainChainScore.pae_values sc) = length (ChainChainScore.valid_interactions sc)
     /\ length (ChainChainScore.distances sc) = length (ChainChainScore.valid_interactions sc)
     /\ ChainChainScore.avg_pae sc =
        np_sum (ChainChainScore.pae_values sc) / INR (length (ChainChainScore.pae_values sc))
     /\ ChainChainScore.avg_distance sc =
        np_sum (ChainChainScore.distances sc) / INR (length (ChainChainScore.distances sc))
     /\ Rabs (ChainChainScore.avg_pae sc - np_mean (ChainChainScore.pae_values sc))
        <= / 1000000000
     /\ Rabs (ChainChainScore.avg_distance sc - np_mean (ChainChainScore.distances sc))
        <= / 1000000000)
  /\ (forall rs, In rs (IPSAEResults.residue_scores r) ->
     ResidueScore.num_interactions rs = length (ResidueScore.valid_interactions rs)
     /\ length (ResidueScore.pae_values rs) = length (ResidueScore.valid_interactions rs)
     /\ length (ResidueScore.distances rs) = length (ResidueScore.valid_interactions rs)
     /\ ResidueScore.avg_pae rs =
        np_sum (ResidueScore.pae_values rs) / INR (length (ResidueScore.pae_values rs))
     /\ ResidueScore.avg_distance rs =
        np_sum (ResidueScore.distances rs) / INR (length (ResidueScore.distances rs))
     /\ Rabs (ResidueScore.avg_pae rs - np_mean (ResidueScore.pae_values rs))
        <= / 1000000000
     /\ Rabs (ResidueScore.avg_distance rs - np_mean (ResidueScore.distances rs))
        <= / 1000000000).
Proof.
  intros Hrun. apply calculate_inv in Hrun. destruct Hrun as [Hc [Hr _]].
  apply chain_scores_inv in Hc. destruct Hc as [_ [_ Hc]].
  apply residue_scores_inv in Hr. destruct Hr as [_ [_ Hr]].
  assert (Htol : Rabs 0 <= / 1000000000) by (rewrite Rabs_R0; lra).
  split.
  - intros sc Hin. rewrite Hc in Hin. apply chain_pair_entry_In in Hin.
    destruct Hin as [c [_ [_ ->]]]. unfold chain_pair_record; simpl.
    replace (np_mean _ - np_mean _) with 0 by lra.
    replace (np_mean _ - np_mean _) with 0 by lra.
    repeat split; try apply length_map; assumption.
  - intros rs Hin. rewrite Hr in Hin. apply residue_entry_In in Hin.
    destruct Hin as [ir [_ [_ ->]]]. unfold residue_record; simpl.
    replace (np_mean _ - np_mean _) with 0 by lra.
    replace (np_mean _ - np_mean _) with 0 by lra.
    repeat split; try apply length_map; assumption.
Qed.

(** ** Bounds *)

Lemma entry_nonneg (m : matrix) (i j : nat) :
  Forall (Forall (fun x => 0 <= x)) m -> 0 <= entry m i j.
Proof.
  intros Hm. unfold entry.
  destruct (nth_in_or_default i m []) as [Hrow | Hrow].
  - rewrite Forall_forall in Hm. specialize (Hm _ Hrow).
    destruct (nth_in_or_default j (nth i m []) 0) as [Hx | Hx].
    + rewrite Forall_forall in Hm. apply Hm. exact Hx.
    + rewrite Hx. lra.
  - rewrite Hrow. destruct j; simpl; lra.
Qed.

Lemma filter_length_bound {A : Type} (f : A -> bool) (l : list A) :
  (length (filter f l) <= length l)%nat.
Proof.
  induction l as [| x l IH]; simpl; [lia |]. destruct (f x); simpl; lia.
Qed.

Lemma ipsae_nonneg (avg cutoff : R) : 0 < cutoff -> avg <= cutoff -> 0 <= 1 - avg / cutoff.
Proof.
  intros Hc Havg.
  assert (avg / cutoff <= 1); [| lra].
  apply (Rmult_le_reg_r cutoff); [exact Hc |].
  unfold Rdiv. rewrite Rmult_assoc, Rinv_l by lra. lra.
Qed.

Lemma ipsae_le_1 (avg cutoff : R) : 0 < cutoff -> 0 <= avg -> 1 - avg / cutoff <= 1.
Proof.
  intros Hc Havg.
  assert (0 <= avg / cutoff); [| lra].
  apply Rmult_le_pos; [exact Havg |]. left. apply Rinv_0_lt_compat. exact Hc.
Qed.

Lemma mean_pae_nonneg (self : IPSAECalculator.t) (valid : list (nat * nat)) :
  valid <> [] ->
  Forall (Forall (fun x => 0 <= x)) (pae_matrix self) ->
  0 <= np_mean (map (pae_at self) valid).
Proof.
  intros Hne Hm. apply np_mean_ge; [apply map_nonempty; exact Hne |].
  apply Forall_forall. intros x Hx. apply in_map_iff in Hx. destruct Hx as [p [<- _]].
  apply entry_nonneg. exact Hm.
Qed.

(** C10 (as the code has it).  Under exact arithmetic, for every emitted
    [ChainChainScore] and [ResidueScore]: [avg_pae <= pae_cutoff] and
    [avg_distance <= distance_cutoff]; when [pae_cutoff] is positive,
    therefore [0 <= ipsae_score], and [ipsae_score <= 1] when in addition no
    entry of the PAE matrix is negative; and for every [ChainChainScore],
    [0 < lis_score <= 1]. *)
Theorem C10_score_bounds (self : IPSAECalculator.t) (r : IPSAEResults.t) :
  calculate self = Ok r ->
  (forall sc, In sc (IPSAEResults.chain_chain_scores r) ->
     ChainChainScore.avg_pae sc <= pae_cutoff self
     /\ ChainChainScore.avg_distance sc <= distance_cutoff self
     /\ (0 < pae_cutoff self -> 0 <= ChainChainScore.ipsae_score sc)
     /\ (0 < pae_cutoff self -> Forall (Forall (fun x => 0 <= x)) (pae_matrix self) ->
         ChainChainScore.ipsae_score sc <= 1)
     /\ 0 < ChainChainScore.lis_score sc <= 1)
  /\ (forall rs, In rs (IPSAEResults.residue_scores r) ->
     ResidueScore.avg_pae rs <= pae_cutoff self
     /\ ResidueScore.avg_distance rs <= distance_cutoff self
     /\ (0 < pae_cutoff self -> 0 <= ResidueScore.ipsae_score rs)
     /\ (0 < pae_cutoff self -> Forall (Forall (fun x => 0 <= x)) (pae_matrix self) ->
         ResidueScore.ipsae_score rs <= 1)).
Proof.
  intros Hrun. apply calculate_inv in Hrun. destruct Hrun as [Hc [Hr _]].
  apply chain_scores_inv in Hc. destruct Hc as [_ [_ Hc]].
  apply residue_scores_inv in Hr. destruct Hr as [_ [_ Hr]].
  split.
  - intros sc Hin. rewrite Hc in Hin. apply chain_pair_entry_In in Hin.
    destruct Hin as [c [_ [Hne ->]]]. unfold chain_pair_record; simpl.
    assert (Hpae : np_mean (map (pae_at self) (qualifying_pairs self c)) <= pae_cutoff self).
    { apply np_mean_le; [apply map_nonempty; exact Hne | apply filter_qualifies_pae]. }
    assert (Hdist : np_mean (map (dist_at self) (qualifying_pairs self c))
                    <= distance_cutoff self).
    { apply np_mean_le; [apply map_nonempty; exact Hne | apply filter_qualifies_dist]. }
    split; [exact Hpae |]. split; [exact Hdist |].
    split; [intros Hpos; apply ipsae_nonneg; assumption |].
    split; [intros Hpos Hm; apply ipsae_le_1;
            [exact Hpos | apply mean_pae_nonneg; assumption] |].
    pose proof (INR_length_pos _ Hne) as Hn.
    pose proof (filter_length_bound (qualifies self) (cross_pairs self c)) as Hle.
    fold (qualifying_pairs self c) in Hle.
    unfold cross_pairs in Hle. rewrite length_prod in Hle.
    apply le_INR in Hle.
    set (n := INR (length (qualifying_pairs self c))) in *.
    set (m := INR (length (chain_indices (residues_of self) (fst c))
                   * length (chain_indices (residues_of self) (snd c)))) in *.
    assert (Hm : 0 < m) by lra.
    split.
    + apply Rdiv_lt_0_compat; assumption.
    + apply (Rmult_le_reg_r m); [exact Hm |].
      unfold Rdiv. rewrite Rmult_assoc, Rinv_l by lra. lra.
  - intros rs Hin. rewrite Hr in Hin. apply residue_entry_In in Hin.
    destruct Hin as [ir [_ [Hne ->]]]. unfold residue_record; simpl.
    assert (Hpae : np_mean (map (pae_at self) (qualifying_partners self (fst ir)))
                   <= pae_cutoff self).
    { apply np_mean_le; [apply map_nonempty; exact Hne | apply filter_qualifies_pae]. }
    assert (Hdist : np_mean (map (dist_at self) (qualifying_partners self (fst ir)))
                    <= distance_cutoff self).
    { apply np_mean_le; [apply map_nonempty; exact Hne | apply filter_qualifies_dist]. }
    split; [exact Hpae |]. split; [exact Hdist |].
    split; [intros Hpos; apply ipsae_nonneg; assumption |].
    intros Hpos Hm. apply ipsae_le_1; [exact Hpos | apply mean_pae_nonneg; assumption].
Qed.

(** ** Raising the PAE cutoff *)

Lemma filter_mono {A : Type} (f g : A -> bool) (l : list A) :
  (forall x, f x = true -> g x = true) ->
  incl (filter f l) (filter g l) /\ (length (filter f l) <= length (filter g l))%nat.
Proof.
  intros Hfg. split.
  - intros x Hx. apply filter_In in Hx. apply filter_In. split; [tauto | apply Hfg; tauto].
  - induction l as [| x l IH]; simpl; [lia |].
    destruct (f x) eqn:Ef.
    + rewrite (Hfg x Ef). simpl. lia.
    + destruct (g x); simpl; lia.
Qed.

Lemma qualifies_mono (self : IPSAECalculator.t) (p2 : R) (q : nat * nat) :
  pae_cutoff self <= p2 ->
  qualifies self q = true -> qualifies (with_pae_cutoff self p2) q = true.
Proof.
  intros Hle H. unfold qualifies in *. apply andb_prop in H. destruct H as [Hp Hd].
  apply andb_true_intro. split; [| exact Hd].
  apply Rleb_le. apply Rleb_le in Hp. simpl.
  change (pae_at (with_pae_cutoff self p2) q) with (pae_at self q). lra.
Qed.

Lemma chain_scores_ok (self : IPSAECalculator.t) :
  coords_of self <> [] ->
  forallb (readable self) (chain_reads self) = true ->
  calculate_chain_chain_scores self =
  Ok (flat_map (chain_pair_entry self) (ordered_pairs (chain_labels self))).
Proof.
  intros Hne Hread. rewrite calculate_chain_chain_scores_spec.
  destruct (coords_of self); [contradiction |]. rewrite Hread. reflexivity.
Qed.

Lemma residue_scores_ok (self : IPSAECalculator.t) :
  coords_of self <> [] ->
  forallb (readable self) (residue_reads self) = true ->
  calculate_residue_scores self =
  Ok (flat_map (residue_entry self) (enumerate (residues_of self))).
Proof.
  intros Hne Hread. rewrite calculate_residue_scores_spec.
  destruct (coords_of self); [contradiction |]. rewrite Hread. reflexivity.
Qed.

(** C7.  With the dataset and [distance_cutoff] fixed and the PAE cutoff
    raised from [p1] to [p2 >= p1]: the run with [p2] succeeds when the run
    with [p1] does, every chain pair and every residue emitted with [p1] is
    emitted with [p2], its qualifying pairs with [p1] are among those with
    [p2], and its [num_interactions] does not decrease. *)
Theorem C7_pae_cutoff_monotone (self : IPSAECalculator.t) (p2 : R) (r1 : IPSAEResults.t) :
  pae_cutoff self <= p2 ->
  calculate self = Ok r1 ->
  exists r2,
    calculate (with_pae_cutoff self p2) = Ok r2
    /\ (forall sc1, In sc1 (IPSAEResults.chain_chain_scores r1) ->
        exists sc2, In sc2 (IPSAEResults.chain_chain_scores r2)
          /\ ChainChainScore.chain1 sc2 = ChainChainScore.chain1 sc1
          /\ ChainChainScore.chain2 sc2 = ChainChainScore.chain2 sc1
          /\ incl (ChainChainScore.valid_interactions sc1)
                  (ChainChainScore.valid_interactions sc2)
          /\ (ChainChainScore.num_interactions sc1
              <= ChainChainScore.num_interactions sc2)%nat)
    /\ (forall rs1, In rs1 (IPSAEResults.residue_scores r1) ->
        exists rs2, In rs2 (IPSAEResults.residue_scores r2)
          /\ ResidueScore.chain rs2 = ResidueScore.chain rs1
          /\ ResidueScore.residue_number rs2 = ResidueScore.residue_number rs1
          /\ ResidueScore.residue_name rs2 = ResidueScore.residue_name rs1
          /\ incl (ResidueScore.valid_interactions rs1)
                  (ResidueScore.valid_interactions rs2)
          /\ (ResidueScore.num_interactions rs1
              <= ResidueScore.num_interactions rs2)%nat).
Proof.
  intros Hle Hrun. apply calculate_inv in Hrun. destruct Hrun as [Hc [Hr _]].
  apply chain_scores_inv in Hc. destruct Hc as [Hne [Hcread Hc]].
  apply residue_scores_inv in Hr. destruct Hr as [_ [Hrread Hr]].
  set (self2 := with_pae_cutoff self p2).
  assert (Hc2 : calculate_chain_chain_scores self2 =
                Ok (flat_map (chain_pair_entry self2) (ordered_pairs (chain_labels self2))))
    by (apply chain_scores_ok; [exact Hne | exact Hcread]).
  assert (Hr2 : calculate_residue_scores self2 =
                Ok (flat_map (residue_entry self2) (enumerate (residues_of self2))))
    by (apply residue_scores_ok; [exact Hne | exact Hrread]).
  eexists. split.
  { unfold calculate. rewrite Hc2, Hr2. simpl. reflexivity. }
  simpl. split.
  - intros sc1 Hin. rewrite Hc in Hin. apply chain_pair_entry_In in Hin.
    destruct Hin as [c [Hcin [Hne1 ->]]].
    destruct (filter_mono (qualifies self) (qualifies self2) (cross_pairs self c)
                (fun q => qualifies_mono self p2 q Hle)) as [Hincl Hlen].
    exists (chain_pair_record self2 c). split.
    + apply chain_pair_entry_In. exists c. split; [exact Hcin |]. split; [| reflexivity].
      intros Hnil. destruct (qualifying_pairs self c) as [| q qs] eqn:E; [contradiction |].
      unfold qualifying_pairs in E. rewrite E in Hincl.
      change (cross_pairs self c) with (cross_pairs self2 c) in Hincl.
      fold (qualifying_pairs self2 c) in Hincl. rewrite Hnil in Hincl.
      exact (Hincl q (or_introl eq_refl)).
    + unfold chain_pair_record; simpl. repeat split; assumption.
  - intros rs1 Hin. rewrite Hr in Hin. apply residue_entry_In in Hin.
    destruct Hin as [ir [Hirin [Hne1 ->]]].
    destruct (filter_mono (qualifies self) (qualifies self2) (partner_pairs self (fst ir))
                (fun q => qualifies_mono self p2 q Hle)) as [Hincl Hlen].
    exists (residue_record self2 ir). split.
    + apply residue_entry_In. exists ir. split; [exact Hirin |]. split; [| reflexivity].
      intros Hnil.
      destruct (qualifying_partners self (fst ir)) as [| q qs] eqn:E; [contradiction |].
      unfold qualifying_partners in E. rewrite E in Hincl.
      change (partner_pairs self (fst ir)) with (partner_pairs self2 (fst ir)) in Hincl.
      fold (qualifying_partners self2 (fst ir)) in Hincl. rewrite Hnil in Hincl.
      exact (Hincl q (or_introl eq_refl)).
    + unfold residue_record; simpl. repeat split; assumption.
Qed.

(** ** Omission of empty chain pairs and residues *)

Lemma chain_pair_record_labels (self : IPSAECalculator.t) (c : string * string) :
  (ChainChainScore.chain1 (chain_pair_record self c),
   ChainChainScore.chain2 (chain_pair_record self c)) = c.
Proof. destruct c. reflexivity. Qed.

Lemma flat_map_entries_length {A B : Type} (valid : A -> list (nat * nat))
    (entry_of : A -> list B) (record : A -> B) (xs : list A) :
  (forall x, entry_of x = match valid x with [] => [] | _ :: _ => [record x] end) ->
  length (flat_map entry_of xs) = length (filter (fun x => nonempty (valid x)) xs).
Proof.
  intros Hentry. induction xs as [| x xs IH]; simpl; [reflexivity |].
  rewrite length_app, IH, Hentry. destruct (valid x); reflexivity.
Qed.

Lemma filter_none {A : Type} (f : A -> bool) (l : list A) :
  (forall x, In x l -> f x = false) -> filter f l = [].
Proof.
  induction l as [| x l IH]; intros H; simpl; [reflexivity |].
  rewrite (H x (or_introl eq_refl)). apply IH. intros y Hy. apply H. right. exact Hy.
Qed.

Lemma far_apart_no_pairs (self : IPSAECalculator.t) (c : string * string) :
  (forall i j, In i (chain_indices (residues_of self) (fst c)) ->
               In j (chain_indices (residues_of self) (snd c)) ->
               distance_cutoff self < distance_at (coords_of self) i j) ->
  qualifying_pairs self c = [].
Proof.
  intros Hfar. unfold qualifying_pairs, cross_pairs. apply filter_none.
  intros [i j] Hin. apply in_prod_iff in Hin. destruct Hin as [Hi Hj].
  unfold qualifies. apply andb_false_intro2. apply Rleb_false.
  unfold dist_at. simpl. apply Hfar; assumption.
Qed.

(** C4.  Every emitted entry has at least one interaction; a chain pair
    whose set of qualifying index pairs is empty has no [ChainChainScore]
    entry, in particular a chain pair whose cross distances all exceed
    [distance_cutoff], whatever the other pairs produce; a residue without
    qualifying partner has no [ResidueScore] entry; and there are exactly as
    many entries as chain pairs, and residues, with a non-empty qualifying
    set. *)
Theorem C4_omission_law (self : IPSAECalculator.t) (r : IPSAEResults.t) :
  calculate self = Ok r ->
  (forall sc, In sc (IPSAEResults.chain_chain_scores r) ->
     ChainChainScore.valid_interactions sc <> []
     /\ ChainChainScore.num_interactions sc <> 0%nat)
  /\ (forall rs, In rs (IPSAEResults.residue_scores r) ->
     ResidueScore.valid_interactions rs <> []
     /\ ResidueScore.num_interactions rs <> 0%nat)
  /\ (forall c1 c2, qualifying_pairs self (c1, c2) = [] ->
     forall sc, In sc (IPSAEResults.chain_chain_scores r) ->
       ~ (ChainChainScore.chain1 sc = c1 /\ ChainChainScore.chain2 sc = c2))
  /\ (forall c1 c2,
     (forall i j, In i (chain_indices (residues_of self) c1) ->
                  In j (chain_indices (residues_of self) c2) ->
                  distance_cutoff self < distance_at (coords_of self) i j) ->
     forall sc, In sc (IPSAEResults.chain_chain_scores r) ->
       ~ (ChainChainScore.chain1 sc = c1 /\ ChainChainScore.chain2 sc = c2))
  /\ (forall i, qualifying_partners self i = [] ->
     forall rs, In rs (IPSAEResults.residue_scores r) ->
       forall q, In q (ResidueScore.valid_interactions rs) -> fst q <> i)
  /\ length (IPSAEResults.chain_chain_scores r) =
     length (filter (fun c => nonempty (qualifying_pairs self c))
               (ordered_pairs (chain_labels self)))
  /\ length (IPSAEResults.residue_scores r) =
     length (filter (fun ir => nonempty (qualifying_partners self (fst ir)))
               (enumerate (residues_of self))).
Proof.
  intros Hrun. apply calculate_inv in Hrun. destruct Hrun as [Hc [Hr _]].
  apply chain_scores_inv in Hc. destruct Hc as [_ [_ Hc]].
  apply residue_scores_inv in Hr. destruct Hr as [_ [_ Hr]].
  assert (Hlen : forall (l : list (nat * nat)), l <> [] -> length l <> 0%nat)
    by (intros [| x l] H; [contradiction | discriminate]).
  assert (Hempty : forall c1 c2, qualifying_pairs self (c1, c2) = [] ->
            forall sc, In sc (IPSAEResults.chain_chain_scores r) ->
              ~ (ChainChainScore.chain1 sc = c1 /\ ChainChainScore.chain2 sc = c2)).
  { intros c1 c2 Hnil sc Hin [H1 H2]. rewrite Hc in Hin.
    apply chain_pair_entry_In in Hin. destruct Hin as [c [_ [Hne ->]]].
    pose proof (chain_pair_record_labels self c) as Hlab. rewrite H1, H2 in Hlab.
    subst c. exact (Hne Hnil). }
  split; [| split; [| split; [exact Hempty | split; [| split; [| split]]]]].
  - intros sc Hin. rewrite Hc in Hin. apply chain_pair_entry_In in Hin.
    destruct Hin as [c [_ [Hne ->]]]. unfold chain_pair_record; simpl.
    split; [exact Hne | apply Hlen; exact Hne].
  - intros rs Hin. rewrite Hr in Hin. apply residue_entry_In in Hin.
    destruct Hin as [ir [_ [Hne ->]]]. unfold residue_record; simpl.
    split; [exact Hne | apply Hlen; exact Hne].
  - intros c1 c2 Hfar. apply Hempty. apply (far_apart_no_pairs self (c1, c2)). exact Hfar.
  - intros i Hnil rs Hin q Hq Hfst. rewrite Hr in Hin. apply residue_entry_In in Hin.
    destruct Hin as [ir [_ [Hne ->]]]. unfold residue_record in Hq; simpl in Hq.
    assert (Hi : fst q = fst ir).
    { unfold qualifying_partners, partner_pairs in Hq. apply filter_In in Hq.
      destruct Hq as [Hq _]. apply in_map_iff in Hq. destruct Hq as [j [<- _]]. reflexivity. }
    rewrite <- Hfst, Hi in Hnil. exact (Hne Hnil).
  - rewrite Hc. apply (flat_map_entries_length (qualifying_pairs self)
                         (chain_pair_entry self) (chain_pair_record self)).
    intros c. reflexivity.
  - rewrite Hr. apply (flat_map_entries_length
                         (fun ir => qualifying_partners self (fst ir))
                         (residue_entry self) (residue_record self)).
    intros ir. reflexivity.
Qed.

(** ** The residue scan and the chain-pair enumeration *)



(** C2.  In a run of [calculate_chain_chain_scores] that returns [scores]:
    the distinct chain labels are taken in strictly ascending lexicographic
    order; the pair body is run once on every pair [(chain1, chain2)] of
    them with [chain1 < chain2], ordered by [chain1] and then by [chain2];
    for a pair the two inner loops collect exactly the index pairs [(i, j)],
    [i] a residue of [chain1] and [j] a residue of [chain2], with
    [pae_matrix[i, j] <= pae_cutoff] and [distances[i, j] <=
    distance_cutoff], where [distances[i, j]] is the Euclidean distance of
    the coordinates [i] and [j]; and [scores] lists, in the order of the
    pairs, the labels and the collected index pairs, PAE values and
    distances of every pair that collected something. *)
Theorem C2_chain_pair_enumeration (self : IPSAECalculator.t)
    (scores : list ChainChainScore.t) :
  calculate_chain_chain_scores self = Ok scores ->
  let labels := chain_labels self in
  let residues := residues_of self in
  let coordinates := coords_of self in
  let collected (c : string * string) : list (nat * nat) :=
    filter (fun p => Rleb (entry (pae_matrix self) (fst p) (snd p)) (pae_cutoff self)
                     && Rleb (distance_at coordinates (fst p) (snd p))
                          (distance_cutoff self))
      (list_prod (chain_indices residues (fst c)) (chain_indices residues (snd c))) in
  (StronglySorted str_lt labels
   /\ forall c, In c labels <-> In c (StructureData.chains (structure_data self)))
  /\ calculate_chain_chain_scores self =
     (distances <- cdist coordinates coordinates ;;
      for_each (ordered_pairs labels)
        (fun scores c => score_chain_pair self distances scores (fst c) (snd c)) [])
  /\ (NoDup (ordered_pairs labels)
      /\ StronglySorted pair_lt (ordered_pairs labels)
      /\ forall c1 c2, In (c1, c2) (ordered_pairs labels) <->
                       In c1 labels /\ In c2 labels /\ str_lt c1 c2)
  /\ (forall c k, In k (chain_indices residues c) <->
                  exists number name, nth_error residues k = Some (c, number, name))
  /\ (forall c i j, In (i, j) (collected c) <->
         In i (chain_indices residues (fst c)) /\ In j (chain_indices residues (snd c))
         /\ entry (pae_matrix self) i j <= pae_cutoff self
         /\ distance_at coordinates i j <= distance_cutoff self)
  /\ (forall distances, cdist coordinates coordinates = Ok distances ->
      (forall i j, (i < length coordinates)%nat -> (j < length coordinates)%nat ->
         getitem distances i j =
         Ok (euclidean (nth i coordinates origin) (nth j coordinates origin)))
      /\ forall c1 c2 acc,
         collect_chain_pair self distances
           (chain_indices residues c1) (chain_indices residues c2) = Ok acc ->
         acc = (collected (c1, c2),
                map (fun p => entry (pae_matrix self) (fst p) (snd p)) (collected (c1, c2)),
                map (fun p => distance_at coordinates (fst p) (snd p)) (collected (c1, c2))))
  /\ map (fun sc => (ChainChainScore.chain1 sc, ChainChainScore.chain2 sc,
                     ChainChainScore.valid_interactions sc,
                     ChainChainScore.pae_values sc, ChainChainScore.distances sc)) scores =
     flat_map (fun c =>
                 match collected c with
                 | [] => []
                 | _ :: _ =>
                     [(fst c, snd c, collected c,
                       map (fun p => entry (pae_matrix self) (fst p) (snd p)) (collected c),
                       map (fun p => distance_at coordinates (fst p) (snd p)) (collected c))]
                 end)
       (ordered_pairs labels).
Proof.
  intros Hrun labels residues coordinates collected.
  pose proof (chain_labels_sorted self) as Hsorted.
  split; [split; [exact Hsorted | apply chain_labels_In] |].
  split.
  { unfold calculate_chain_chain_scores.
    change (StructureData.coordinates (structure_data self)) with coordinates.
    change (sorted (py_set (StructureData.chains (structure_data self)))) with labels.
    destruct (cdist coordinates coordinates) as [distances |]; simpl; [| reflexivity].
    exact (for_each_ordered_pairs
             (fun scores c1 c2 => score_chain_pair self distances scores c1 c2)
             [] labels []). }
  split.
  { split; [apply ordered_pairs_NoDup; exact Hsorted |].
    split; [apply ordered_pairs_sorted; exact Hsorted |].
    intros c1 c2. apply ordered_pairs_In. exact Hsorted. }
  split; [intros c k; apply chain_indices_In |].
  split.
  { intros c i j. unfold collected. rewrite filter_In, in_prod_iff, andb_true_iff.
    simpl fst. simpl snd. rewrite !Rleb_le. tauto. }
  split.
  { intros distances Hd.
    assert (Hdm : distances = distance_matrix (coords_of self)).
    { fold coordinates. rewrite cdist_spec in Hd.
      destruct coordinates; [discriminate | inversion Hd; reflexivity]. }
    subst distances. split.
    - intros i j Hi Hj. rewrite getitem_distance_matrix.
      apply Nat.ltb_lt in Hi, Hj. fold coordinates. rewrite Hi, Hj. reflexivity.
    - intros c1 c2 acc Hacc.
      pose proof (collect_chain_pair_spec self (c1, c2)) as Hspec.
      simpl fst in Hspec. simpl snd in Hspec.
      fold residues in Hspec. rewrite Hacc in Hspec.
      destruct (forallb (readable self) (cross_pairs self (c1, c2))); [| discriminate].
      inversion Hspec. reflexivity. }
  apply chain_scores_inv in Hrun. destruct Hrun as [_ [_ ->]].
  fold labels. induction (ordered_pairs labels) as [| c cs IH]; [reflexivity |].
  cbn [flat_map]. rewrite map_app, IH. f_equal.
  unfold chain_pair_entry. change (collected c) with (qualifying_pairs self c).
  destruct (qualifying_pairs self c) as [| q qs] eqn:E; [reflexivity |].
  unfold chain_pair_record. rewrite E. reflexivity.
Qed.

(** ** Failure of a run *)

Lemma chain_indices_lt (rs : list residue) (c : string) (k : nat) :
  In k (chain_indices rs c) -> (k < length rs)%nat.
Proof.
  intros H. apply chain_indices_In in H. destruct H as [number [name H]].
  apply nth_error_Some. rewrite H. discriminate.
Qed.

Lemma readable_in_range (self : IPSAECalculator.t) (n i j : nat) :
  square n (pae_matrix self) -> length (coords_of self) = n ->
  (i < n)%nat -> (j < n)%nat -> readable self (i, j) = true.
Proof.
  intros [Hrows Hcols] Hcs Hi Hj. unfold readable. simpl.
  rewrite Hrows, Hcs.
  assert (Hrow : length (nth i (pae_matrix self) []) = n).
  { rewrite Forall_forall in Hcols. apply Hcols. apply nth_In. lia. }
  rewrite Hrow.
  apply Nat.ltb_lt in Hi, Hj. rewrite Hi, Hj. reflexivity.
Qed.

Lemma calculate_succeeds_iff (self : IPSAECalculator.t) :
  (exists r, calculate self = Ok r) <->
  coords_of self <> []
  /\ forallb (readable self) (chain_reads self ++ residue_reads self) = true.
Proof.
  rewrite forallb_app. split.
  - intros [r Hrun]. apply calculate_inv in Hrun. destruct Hrun as [Hc [Hr _]].
    apply chain_scores_inv in Hc. apply residue_scores_inv in Hr.
    destruct Hc as [Hne [Hc _]]. destruct Hr as [_ [Hr _]].
    split; [exact Hne |]. rewrite Hc, Hr. reflexivity.
  - intros [Hne Hread]. apply andb_prop in Hread. destruct Hread as [Hc Hr].
    eexists. unfold calculate.
    rewrite (chain_scores_ok self Hne Hc), (residue_scores_ok self Hne Hr). simpl.
    reflexivity.
Qed.

(** C5 (as the code has it).  The scorer makes no shape check of its own:
    a run returns a result exactly when the coordinate list is not empty
    and every matrix read of the two loops is inside the PAE matrix and the
    distance matrix.  In particular, with [n >= 1] residues, [n]
    coordinates and an [n] by [n] PAE matrix, [calculate] never fails. *)
Theorem C5_run_fails_only_on_bad_reads (self : IPSAECalculator.t) :
  ((exists r, calculate self = Ok r) <->
   coords_of self <> []
   /\ forallb (readable self) (chain_reads self ++ residue_reads self) = true)
  /\ forall n,
     (0 < n)%nat ->
     length (residues_of self) = n ->
     length (coords_of self) = n ->
     square n (pae_matrix self) ->
     exists r, calculate self = Ok r.
Proof.
  split; [apply calculate_succeeds_iff |].
  intros n Hn Hres Hcs Hsq. apply calculate_succeeds_iff. split.
  - intros Hnil. rewrite Hnil in Hcs. simpl in Hcs. lia.
  - apply forallb_forall. intros [i j] Hin. apply in_app_iff in Hin.
    apply (readable_in_range self n); try assumption.
    + destruct Hin as [Hin | Hin].
      * unfold chain_reads in Hin. apply in_flat_map in Hin. destruct Hin as [c [_ Hin]].
        apply in_prod_iff in Hin. destruct Hin as [Hi _].
        apply chain_indices_lt in Hi. lia.
      * unfold residue_reads in Hin. apply in_flat_map in Hin.
        destruct Hin as [[i' res] [Hir Hin]].
        apply enumerate_In in Hir.
        assert (Hi' : (i' < length (residues_of self))%nat)
          by (apply nth_error_Some; rewrite Hir; discriminate).
        unfold partner_pairs in Hin. apply in_map_iff in Hin.
        destruct Hin as [j' [Heq _]]. inversion Heq; subst. simpl in Hi'. lia.
    + destruct Hin as [Hin | Hin].
      * unfold chain_reads in Hin. apply in_flat_map in Hin. destruct Hin as [c [_ Hin]].
        apply in_prod_iff in Hin. destruct Hin as [_ Hj].
        apply chain_indices_lt in Hj. lia.
      * unfold residue_reads in Hin. apply in_flat_map in Hin.
        destruct Hin as [[i' res] [_ Hin]].
        unfold partner_pairs in Hin. apply in_map_iff in Hin.
        destruct Hin as [j' [Heq Hj']]. inversion Heq; subst.
        apply filter_In in Hj'. destruct Hj' as [Hj' _]. apply in_seq in Hj'. lia.
Qed.

(** ** The structure parsers *)

Lemma parse_atoms_spec (atoms : list Bio.Atom) (chains : list string)
    (residues : list residue) (coordinates : list coord) :
  fold_left parse_atom atoms (chains, residues, coordinates) =
  (chains, residues,
   coordinates
   ++ map Bio.get_coord (filter (fun a => String.eqb (Bio.atom_id a) "CA") atoms)).
Proof.
  revert coordinates. induction atoms as [| a atoms IH]; intros coordinates; simpl.
  - rewrite app_nil_r. reflexivity.
  - destruct (String.eqb (Bio.atom_id a) "CA"); simpl; rewrite IH; [| reflexivity].
    rewrite <- app_assoc. reflexivity.
Qed.

Lemma parse_residues_spec (chain : Bio.Chain) (rs : list Bio.Residue)
    (chains : list string) (residues : list residue) (coordinates : list coord) :
  fold_left (parse_residue chain) rs (chains, residues, coordinates) =
  (chains, residues ++ map (residue_tuple chain) rs, coordinates ++ flat_map ca_coords rs).
Proof.
  revert residues coordinates.
  induction rs as [| r rs IH]; intros residues coordinates; simpl.
  - rewrite !app_nil_r. reflexivity.
  - unfold parse_residue at 1. unfold residue_tuple at 1.
    destruct (Bio.residue_id r) as [[het number] icode]. simpl.
    rewrite parse_atoms_spec, IH. fold (ca_coords r).
    rewrite <- !app_assoc. reflexivity.
Qed.

Lemma parse_chains_spec (cs : list Bio.Chain)
    (chains : list string) (residues : list residue) (coordinates : list coord) :
  fold_left parse_chain cs (chains, residues, coordinates) =
  (chains ++ map Bio.chain_id cs,
   residues ++ flat_map chain_tuples cs,
   coordinates ++ flat_map chain_coords cs).
Proof.
  revert chains residues coordinates.
  induction cs as [| c cs IH]; intros chains residues coordinates; simpl.
  - rewrite !app_nil_r. reflexivity.
  - rewrite parse_residues_spec, IH. unfold chain_tuples, chain_coords.
    rewrite <- !app_assoc. reflexivity.
Qed.

Lemma parse_models_spec (structure : Bio.Structure)
    (chains : list string) (residues : list residue) (coordinates : list coord) :
  fold_left parse_model structure (chains, residues, coordinates) =
  (chains ++ map Bio.chain_id (all_chains structure),
   residues ++ flat_map chain_tuples (all_chains structure),
   coordinates ++ flat_map chain_coords (all_chains structure)).
Proof.
  revert chains residues coordinates. unfold all_chains.
  induction structure as [| m ms IH]; intros chains residues coordinates; simpl.
  - rewrite !app_nil_r. reflexivity.
  - change (parse_model (chains, residues, coordinates) m)
      with (fold_left parse_chain m (chains, residues, coordinates)).
    rewrite parse_chains_spec, IH.
    rewrite map_app, !flat_map_app, <- !app_assoc. reflexivity.
Qed.

Lemma parse_cif_spec (structure : Bio.Structure) :
  parse_cif structure =
  StructureData.mk (map Bio.chain_id (all_chains structure))
    (flat_map chain_tuples (all_chains structure))
    (flat_map chain_coords (all_chains structure)) None.
Proof. unfold parse_cif. rewrite parse_models_spec. reflexivity. Qed.

Lemma parse_pdb_cif (structure : Bio.Structure) : parse_pdb structure = parse_cif structure.
Proof. reflexivity. Qed.

Lemma flat_map_length_sum {A B : Type} (f : A -> list B) (xs : list A) :
  length (flat_map f xs) = list_sum (map (fun x => length (f x)) xs).
Proof.
  induction xs as [| x xs IH]; simpl; [reflexivity |]. rewrite length_app, IH. reflexivity.
Qed.

Lemma one_ca_per_residue (rs : list Bio.Residue) :
  Forall (fun r => ca_count r = 1%nat) rs -> length (flat_map ca_coords rs) = length rs.
Proof.
  induction 1 as [| r rs Hr _ IH]; simpl; [reflexivity |].
  rewrite length_app, IH. unfold ca_coords. rewrite length_map.
  unfold ca_count in Hr. rewrite Hr. reflexivity.
Qed.

(** C8 (as the code has it).  Every [StructureData] returned by
    [parse_cif] or [parse_pdb] has one residue entry per residue, in file
    order and labelled with its chain; [chains] has one label per chain of
    each model (not one per residue); and when every residue holds exactly
    one atom named [CA], [coordinates] has exactly one entry per residue. *)
Theorem C8_parser_dimensions (structure : Bio.Structure) (sd : StructureData.t) :
  sd = parse_cif structure \/ sd = parse_pdb structure ->
  StructureData.chains sd = map Bio.chain_id (all_chains structure)
  /\ StructureData.residues sd = flat_map chain_tuples (all_chains structure)
  /\ length (StructureData.chains sd) = length (all_chains structure)
  /\ length (StructureData.residues sd) = length (all_residues structure)
  /\ (Forall (fun r => ca_count r = 1%nat) (all_residues structure) ->
      length (StructureData.coordinates sd) = length (StructureData.residues sd)).
Proof.
  intros Hsd.
  assert (Hsd' : sd = parse_cif structure) by (destruct Hsd; assumption).
  rewrite Hsd', parse_cif_spec. simpl. clear Hsd Hsd'.
  assert (Hres : length (flat_map chain_tuples (all_chains structure))
                 = length (all_residues structure)).
  { unfold all_residues. induction (all_chains structure) as [| c cs IH]; [reflexivity |].
    simpl. rewrite !length_app, IH. unfold chain_tuples. rewrite length_map. reflexivity. }
  split; [reflexivity |]. split; [reflexivity |]. split; [apply length_map |].
  split; [exact Hres |].
  intros Hca. rewrite Hres. unfold all_residues in *. clear Hres. revert Hca.
  induction (all_chains structure) as [| c cs IH]; simpl; intros Hca; [reflexivity |].
  rewrite Forall_app in Hca. destruct Hca as [Hc Hcs].
  rewrite !length_app, (IH Hcs). f_equal.
  apply one_ca_per_residue. exact Hc.
Qed.

(** ** The interchange form *)

Lemma tolist_no_ndarray (a : ndarray) : no_ndarray (tolist a) = true.
Proof.
  destruct a as [v | m]; simpl.
  - induction v as [| x v IH]; simpl; [reflexivity | exact IH].
  - induction m as [| row m IH]; simpl; [reflexivity |]. rewrite IH, andb_true_r.
    induction row as [| x row IHrow]; simpl; [reflexivity | exact IHrow].
Qed.

(** [convert_numpy] leaves no array, whatever it is given. *)
Lemma convert_numpy_no_ndarray : forall obj, no_ndarray (convert_numpy obj) = true.
Proof.
  fix IH 1. intros [ | n | x | s | xs | xs | items | a | x]; simpl; try reflexivity.
  - induction xs as [| o xs IHxs]; simpl; [reflexivity |]. rewrite IH. exact IHxs.
  - induction xs as [| o xs IHxs]; simpl; [reflexivity |]. rewrite IH. exact IHxs.
  - induction items as [| [k o] items IHitems]; simpl; [reflexivity |].
    rewrite IH. exact IHitems.
  - apply tolist_no_ndarray.
Qed.

Lemma py_index_pairs_no_ndarray (ps : list (nat * nat)) :
  no_ndarray (py_index_pairs ps) = true.
Proof. unfold py_index_pairs. simpl. induction ps; simpl; [reflexivity | assumption]. Qed.

Lemma py_residues_no_ndarray (rs : list residue) : no_ndarray (py_residues rs) = true.
Proof.
  unfold py_residues. simpl.
  induction rs as [| [[c n] name] rs IH]; simpl; [reflexivity | assumption].
Qed.

Lemma py_strs_no_ndarray (xs : list string) : forallb no_ndarray (map PyStr xs) = true.
Proof. induction xs; simpl; [reflexivity | assumption]. Qed.

Lemma chain_chain_record_no_ndarray (score : ChainChainScore.t) :
  no_ndarray (chain_chain_record score) = true.
Proof.
  unfold chain_chain_record.
  cbn [no_ndarray forallb snd andb].
  rewrite py_index_pairs_no_ndarray, !convert_numpy_no_ndarray. reflexivity.
Qed.

Lemma residue_score_record_no_ndarray (score : ResidueScore.t) :
  no_ndarray (residue_score_record score) = true.
Proof.
  unfold residue_score_record.
  cbn [no_ndarray forallb snd andb].
  rewrite py_index_pairs_no_ndarray, !convert_numpy_no_ndarray. reflexivity.
Qed.

Lemma structure_record_no_ndarray (sd : StructureData.t) :
  no_ndarray (structure_record sd) = true.
Proof.
  unfold structure_record.
  cbn [no_ndarray forallb snd andb].
  rewrite py_strs_no_ndarray, py_residues_no_ndarray, convert_numpy_no_ndarray.
  destruct (StructureData.pae_matrix sd);
    [rewrite convert_numpy_no_ndarray |]; reflexivity.
Qed.

Lemma convert_coordinates (cs : list coord) :
  convert_numpy (py_coordinates cs) =
  PyList (map (fun '(x, y, z) => PyList [PyFloat x; PyFloat y; PyFloat z]) cs).
Proof.
  unfold py_coordinates. simpl. f_equal. rewrite map_map.
  apply map_ext. intros [[x y] z]. reflexivity.
Qed.

(** [convert_numpy] returns a list of NumPy scalars as it is. *)
Lemma convert_scalars (xs : list R) : convert_numpy (np_scalars xs) = np_scalars xs.
Proof.
  unfold np_scalars. simpl. f_equal. rewrite map_map. reflexivity.
Qed.

(** The keys of the mapping [save] serialises: [chain_chain_scores],
    [residue_scores] and [structure_data]; the first two hold one record
    per score with the eleven, respectively ten, named fields, the third the
    fields [chains], [residues], [coordinates] and [pae_matrix]; the
    coordinates and the PAE matrix are stored as nested lists of Python
    numbers, and no NumPy array is left in the mapping. *)
Lemma save_data_form (self : IPSAEResults.t) :
  let data := save_data self in
  keys data = ["chain_chain_scores"; "residue_scores"; "structure_data"]
  /\ (exists records,
        getkey data "chain_chain_scores" = Some (PyList records)
        /\ length records = length (IPSAEResults.chain_chain_scores self)
        /\ Forall (fun record =>
                     keys record =
                     ["chain1"; "chain2"; "ipsae_score"; "pdockq_score"; "lis_score";
                      "avg_pae"; "avg_distance"; "num_interactions";
                      "valid_interactions"; "pae_values"; "distances"]) records)
  /\ (exists records,
        getkey data "residue_scores" = Some (PyList records)
        /\ length records = length (IPSAEResults.residue_scores self)
        /\ Forall (fun record =>
                     keys record =
                     ["chain"; "residue_number"; "residue_name"; "ipsae_score";
                      "avg_pae"; "avg_distance"; "num_interactions";
                      "valid_interactions"; "pae_values"; "distances"]) records)
  /\ (exists record,
        getkey data "structure_data" = Some record
        /\ keys record = ["chains"; "residues"; "coordinates"; "pae_matrix"]
        /\ getkey record "coordinates" =
           Some (PyList (map (fun '(x, y, z) => PyList [PyFloat x; PyFloat y; PyFloat z])
                           (StructureData.coordinates (IPSAEResults.structure_data self))))
        /\ getkey record "pae_matrix" =
           Some (match StructureData.pae_matrix (IPSAEResults.structure_data self) with
                 | Some m => PyList (map (fun row => PyList (map PyFloat row)) m)
                 | None => PyNone
                 end))
  /\ no_ndarray data = true.
Proof.
  intros data. split; [reflexivity |].
  split.
  { exists (map chain_chain_record (IPSAEResults.chain_chain_scores self)).
    split; [reflexivity |]. split; [apply length_map |].
    apply Forall_forall. intros o Ho. apply in_map_iff in Ho.
    destruct Ho as [sc [<- _]]. reflexivity. }
  split.
  { exists (map residue_score_record (IPSAEResults.residue_scores self)).
    split; [reflexivity |]. split; [apply length_map |].
    apply Forall_forall. intros o Ho. apply in_map_iff in Ho.
    destruct Ho as [sc [<- _]]. reflexivity. }
  split.
  { exists (structure_record (IPSAEResults.structure_data self)).
    split; [reflexivity |]. split; [reflexivity |]. split.
    - unfold structure_record, getkey, lookup. simpl String.eqb. cbv iota.
      rewrite convert_coordinates. reflexivity.
    - unfold structure_record, getkey, lookup. simpl String.eqb. cbv iota.
      destruct (StructureData.pae_matrix (IPSAEResults.structure_data self)); reflexivity. }
  unfold data, save_data. cbn [no_ndarray forallb snd].
  rewrite structure_record_no_ndarray, !andb_true_r.
  apply andb_true_intro. split.
  - induction (IPSAEResults.chain_chain_scores self) as [| sc l IH]; simpl; [reflexivity |].
    rewrite IH, andb_true_r. apply chain_chain_record_no_ndarray.
  - induction (IPSAEResults.residue_scores self) as [| sc l IH]; simpl; [reflexivity |].
    rewrite IH, andb_true_r. apply residue_score_record_no_ndarray.
Qed.

(** The record of the structure holds no value of a NumPy type. *)
Lemma structure_record_numpy_free (sd : StructureData.t) :
  numpy_free (structure_record sd) = true.
Proof.
  unfold structure_record. rewrite convert_coordinates.
  cbn [numpy_free forallb snd].
  assert (H1 : forallb numpy_free (map PyStr (StructureData.chains sd)) = true).
  { induction (StructureData.chains sd); simpl; [reflexivity | assumption]. }
  assert (H2 : numpy_free (py_residues (StructureData.residues sd)) = true).
  { unfold py_residues. simpl.
    induction (StructureData.residues sd) as [| [[c n] name] rs IH]; simpl;
      [reflexivity | assumption]. }
  assert (H3 : forallb numpy_free
                 (map (fun '(x, y, z) => PyList [PyFloat x; PyFloat y; PyFloat z])
                    (StructureData.coordinates sd)) = true).
  { induction (StructureData.coordinates sd) as [| [[x y] z] cs IH]; simpl;
      [reflexivity | assumption]. }
  assert (H4 : forall m : matrix,
             forallb numpy_free (map (fun row => PyList (map PyFloat row)) m) = true).
  { induction m as [| row m IH]; simpl; [reflexivity |]. rewrite IH, andb_true_r.
    induction row as [| x row IHrow]; simpl; [reflexivity | exact IHrow]. }
  rewrite H1, H2, H3. simpl.
  destruct (StructureData.pae_matrix sd) as [m |]; simpl; [rewrite H4 |]; reflexivity.
Qed.

(** The mapping holds no value of a NumPy type only when it holds no score
    record: every record carries NumPy scalars. *)
Lemma save_data_numpy_free (self : IPSAEResults.t) :
  numpy_free (save_data self) = true <->
  IPSAEResults.chain_chain_scores self = [] /\ IPSAEResults.residue_scores self = [].
Proof.
  unfold save_data. cbn [numpy_free forallb snd].
  rewrite structure_record_numpy_free, !andb_true_r. split.
  - intros H. apply andb_prop in H. destruct H as [Hc Hr]. split.
    + destruct (IPSAEResults.chain_chain_scores self) as [| sc l]; [reflexivity |].
      simpl in Hc. discriminate Hc.
    + destruct (IPSAEResults.residue_scores self) as [| rs l]; [reflexivity |].
      simpl in Hr. discriminate Hr.
  - intros [-> ->]. reflexivity.
Qed.

(** * The example run *)

Lemma sqrt_le_bound (x c : R) : 0 <= c -> x <= c * c -> sqrt x <= c.
Proof.
  intros Hc Hx. rewrite <- (sqrt_square c Hc). apply sqrt_le_1_alt. exact Hx.
Qed.

Lemma sqrt_gt_bound (x c : R) : 0 <= c -> c * c < x -> c < sqrt x.
Proof.
  intros Hc Hx. rewrite <- (sqrt_square c Hc) at 1. apply sqrt_lt_1_alt.
  split; [nra | exact Hx].
Qed.

Lemma filter_all {A : Type} (f : A -> bool) (l : list A) :
  (forall x, In x l -> f x = true) -> filter f l = l.
Proof.
  induction l as [| x l IH]; intros H; simpl; [reflexivity |].
  rewrite (H x (or_introl eq_refl)). f_equal. apply IH. intros y Hy. apply H. right. exact Hy.
Qed.

(** Evaluation of [qualifies] at a concrete index pair. *)
Ltac qualifies_yes :=
  unfold qualifies, pae_at, dist_at, entry, distance_at, euclidean; simpl;
  apply andb_true_intro; split; apply Rleb_true; [lra | apply sqrt_le_bound; lra].

Ltac qualifies_too_far :=
  unfold qualifies, pae_at, dist_at, entry, distance_at, euclidean; simpl;
  apply andb_false_intro2; apply Rleb_false; apply sqrt_gt_bound; lra.

Ltac each_member H :=
  simpl in H; repeat (destruct H as [<- | H]; [| try contradiction]).

Lemma scenario_all_qualify (p : nat * nat) :
  (fst p < 5)%nat -> (snd p < 5)%nat -> fst p <> snd p -> qualifies (scenario 8) p = true.
Proof.
  destruct p as [i j]. simpl. intros Hi Hj Hne.
  do 5 (destruct i as [| i]; [do 5 (destruct j as [| j];
         [try (exfalso; apply Hne; reflexivity); qualifies_yes |]); exfalso; lia |]).
  exfalso; lia.
Qed.

Lemma scenario_qualifying_pairs : qualifying_pairs (scenario 8) ("A", "B") = scenario_pairs.
Proof.
  unfold qualifying_pairs.
  change (cross_pairs (scenario 8) ("A", "B")) with scenario_pairs.
  apply filter_all. intros p Hp. each_member Hp;
    apply scenario_all_qualify; simpl; lia.
Qed.

Lemma scenario_qualifying_partners (i : nat) :
  (i < 5)%nat -> qualifying_partners (scenario 8) i = partner_pairs (scenario 8) i.
Proof.
  intros Hi. unfold qualifying_partners. apply filter_all. intros p Hp.
  unfold partner_pairs in Hp. apply in_map_iff in Hp. destruct Hp as [j [<- Hj]].
  apply filter_In in Hj. destruct Hj as [Hj Hne]. apply in_seq in Hj.
  apply negb_true_iff, Nat.eqb_neq in Hne.
  apply scenario_all_qualify; simpl in *; [exact Hi | lia | exact Hne].
Qed.

Lemma mean_of_tens_6 : np_mean [10; 10; 10; 10; 10; 10] = 10.
Proof. unfold np_mean, np_sum. simpl. lra. Qed.

Lemma mean_of_tens_4 : np_mean [10; 10; 10; 10] = 10.
Proof. unfold np_mean, np_sum. simpl. lra. Qed.

Lemma scenario_chain_pair_record : chain_pair_record (scenario 8) ("A", "B") = scenario_AB.
Proof.
  unfold chain_pair_record. rewrite scenario_qualifying_pairs.
  change (map (pae_at (scenario 8)) scenario_pairs) with [10; 10; 10; 10; 10; 10].
  rewrite mean_of_tens_6. unfold scenario_AB. f_equal. simpl. lra.
Qed.

(** The first concrete scenario: all six cross pairs qualify; one record
    with six interactions, mean PAE 10, score [1 - 10/30] and contact
    fraction [6/6]. *)
Lemma scenario_chain_scores : calculate_chain_chain_scores (scenario 8) = Ok [scenario_AB].
Proof.
  rewrite chain_scores_ok; [| discriminate | reflexivity].
  change (ordered_pairs (chain_labels (scenario 8))) with [("A", "B")].
  simpl flat_map. unfold chain_pair_entry.
  rewrite scenario_qualifying_pairs. simpl. rewrite scenario_chain_pair_record. reflexivity.
Qed.

Lemma scenario_residue_entry (ir : nat * residue) :
  (fst ir < 5)%nat -> residue_entry (scenario 8) ir = [scenario_residue ir].
Proof.
  intros Hi. unfold residue_entry, residue_record, scenario_residue.
  rewrite (scenario_qualifying_partners _ Hi).
  destruct ir as [i res]. simpl in Hi. simpl fst. simpl snd.
  do 5 (destruct i as [| i];
        [change (map (pae_at (scenario 8)) (partner_pairs (scenario 8) _))
           with [10; 10; 10; 10];
         rewrite mean_of_tens_4; reflexivity |]).
  exfalso; lia.
Qed.

Lemma scenario_residue_scores :
  calculate_residue_scores (scenario 8) =
  Ok (map scenario_residue (enumerate (residues_of (scenario 8)))).
Proof.
  rewrite residue_scores_ok; [| discriminate | reflexivity]. f_equal.
  change (enumerate (residues_of (scenario 8)))
    with [(0%nat, ("A", 1%Z, "ALA")); (1%nat, ("A", 2%Z, "GLY")); (2%nat, ("A", 3%Z, "SER"));
          (3%nat, ("B", 1%Z, "LEU")); (4%nat, ("B", 2%Z, "VAL"))].
  simpl flat_map. rewrite !scenario_residue_entry by (simpl; lia). reflexivity.
Qed.

Lemma scenario_calculate : calculate (scenario 8) = Ok scenario_results.
Proof.
  unfold calculate. rewrite scenario_chain_scores, scenario_residue_scores. reflexivity.
Qed.

(** The second concrete scenario: with distance cutoff 4 no cross pair
    qualifies and no chain-pair record is emitted. *)
Lemma scenario_cutoff_4 : calculate_chain_chain_scores (scenario 4) = Ok [].
Proof.
  rewrite chain_scores_ok; [| discriminate | reflexivity].
  change (ordered_pairs (chain_labels (scenario 4))) with [("A", "B")].
  simpl flat_map. unfold chain_pair_entry, qualifying_pairs.
  change (cross_pairs (scenario 4) ("A", "B")) with scenario_pairs.
  rewrite filter_none; [reflexivity |].
  intros p Hp. each_member Hp; qualifies_too_far.
Qed.

(** The third concrete scenario: three chains.  The pair (A, B) keeps one
    of its four index pairs (one is dropped for its PAE, two for their
    distance), the pair (A, C) keeps both, the pair (B, C) keeps none; the
    last residue has no partner. *)
Ltac qualifies_high_pae :=
  unfold qualifies, pae_at, entry; simpl;
  apply andb_false_intro1; apply Rleb_false; lra.

Ltac settle_qualifies :=
  repeat match goal with
         | |- context [qualifies ?s ?p] =>
             first [ replace (qualifies s p) with true by (symmetry; qualifies_yes)
                   | replace (qualifies s p) with false
                       by (symmetry; first [qualifies_too_far | qualifies_high_pae]) ]
         end.

Lemma three_chains_labels : chain_labels three_chains = ["A"; "B"; "C"].
Proof. reflexivity. Qed.

Lemma three_chains_AB : qualifying_pairs three_chains ("A", "B") = [(2, 3)]%nat.
Proof.
  unfold qualifying_pairs.
  change (cross_pairs three_chains ("A", "B")) with [(1, 3); (1, 4); (2, 3); (2, 4)]%nat.
  cbn [filter]. settle_qualifies. reflexivity.
Qed.

Lemma three_chains_AC : qualifying_pairs three_chains ("A", "C") = [(1, 0); (2, 0)]%nat.
Proof.
  unfold qualifying_pairs.
  change (cross_pairs three_chains ("A", "C")) with [(1, 0); (2, 0)]%nat.
  cbn [filter]. settle_qualifies. reflexivity.
Qed.

Lemma three_chains_BC : qualifying_pairs three_chains ("B", "C") = [].
Proof.
  unfold qualifying_pairs.
  change (cross_pairs three_chains ("B", "C")) with [(3, 0); (4, 0)]%nat.
  cbn [filter]. settle_qualifies. reflexivity.
Qed.

Lemma three_chains_partners :
  qualifying_partners three_chains 0 = [(0, 1); (0, 2)]%nat
  /\ qualifying_partners three_chains 1 = [(1, 0); (1, 2)]%nat
  /\ qualifying_partners three_chains 2 = [(2, 0); (2, 1); (2, 3)]%nat
  /\ qualifying_partners three_chains 3 = [(3, 1); (3, 2)]%nat
  /\ qualifying_partners three_chains 4 = [].
Proof.
  unfold qualifying_partners.
  change (partner_pairs three_chains 0) with [(0, 1); (0, 2); (0, 3); (0, 4)]%nat.
  change (partner_pairs three_chains 1) with [(1, 0); (1, 2); (1, 3); (1, 4)]%nat.
  change (partner_pairs three_chains 2) with [(2, 0); (2, 1); (2, 3); (2, 4)]%nat.
  change (partner_pairs three_chains 3) with [(3, 0); (3, 1); (3, 2); (3, 4)]%nat.
  change (partner_pairs three_chains 4) with [(4, 0); (4, 1); (4, 2); (4, 3)]%nat.
  cbn [filter]. settle_qualifies. repeat split; reflexivity.
Qed.

Lemma three_chains_run : exists r, calculate three_chains = Ok r.
Proof. apply calculate_succeeds_iff. split; [discriminate | reflexivity]. Qed.

Lemma three_chains_collected :
  flat_map (fun c =>
              match qualifying_pairs three_chains c with
              | [] => []
              | _ :: _ =>
                  [(fst c, snd c, qualifying_pairs three_chains c,
                    map (pae_at three_chains) (qualifying_pairs three_chains c),
                    map (dist_at three_chains) (qualifying_pairs three_chains c))]
              end)
    [("A", "B"); ("A", "C"); ("B", "C")] =
  [("A", "B", [(2, 3)]%nat, [10], map (dist_at three_chains) [(2, 3)]%nat);
   ("A", "C", [(1, 0); (2, 0)]%nat, [10; 10], map (dist_at three_chains) [(1, 0); (2, 0)]%nat)].
Proof.
  cbn [flat_map]. rewrite three_chains_AB, three_chains_AC, three_chains_BC. reflexivity.
Qed.

Lemma three_chains_far_apart (i j : nat) :
  In i (chain_indices (residues_of three_chains) "B") ->
  In j (chain_indices (residues_of three_chains) "C") ->
  distance_cutoff three_chains < distance_at (coords_of three_chains) i j.
Proof.
  intros Hi Hj. each_member Hi; each_member Hj;
    unfold distance_at, euclidean; simpl; apply sqrt_gt_bound; lra.
Qed.

(** The fourth concrete scenario: a negative PAE cutoff.  The one index
    pair qualifies, with PAE -2 below the cutoff -1. *)
Lemma negative_cutoff_AB : qualifying_pairs negative_cutoff ("A", "B") = [(0, 1)]%nat.
Proof.
  unfold qualifying_pairs.
  change (cross_pairs negative_cutoff ("A", "B")) with [(0, 1)]%nat.
  cbn [filter]. settle_qualifies. reflexivity.
Qed.

Lemma negative_cutoff_scores :
  calculate_chain_chain_scores negative_cutoff =
  Ok [chain_pair_record negative_cutoff ("A", "B")].
Proof.
  rewrite chain_scores_ok; [| discriminate | reflexivity].
  change (ordered_pairs (chain_labels negative_cutoff)) with [("A", "B")].
  cbn [flat_map]. unfold chain_pair_entry. rewrite negative_cutoff_AB. reflexivity.
Qed.

(** * The statements on the example inputs *)

Lemma scenario_pae_nonneg : Forall (Forall (fun x => 0 <= x)) (pae_matrix (scenario 8)).
Proof. simpl. repeat (constructor; [repeat (constructor; [lra |]); constructor |]). constructor. Qed.

Lemma scenario_pae_square : square 5 (pae_matrix (scenario 8)).
Proof. split; [reflexivity |]. simpl. repeat (constructor; [reflexivity |]). constructor. Qed.

(** C1 on the example: the record of the pair (A, B). *)
Lemma C1_witness :
  calculate_chain_chain_scores (scenario 8) = Ok [scenario_AB]
  /\ In scenario_AB [scenario_AB]
  /\ ChainChainScore.valid_interactions scenario_AB = qualifying_pairs (scenario 8) ("A", "B")
  /\ ChainChainScore.ipsae_score scenario_AB =
     1 - (np_sum (map (pae_at (scenario 8)) (qualifying_pairs (scenario 8) ("A", "B")))
          / INR (length (qualifying_pairs (scenario 8) ("A", "B")))) / 30
  /\ ChainChainScore.lis_score scenario_AB =
     INR (length (qualifying_pairs (scenario 8) ("A", "B")))
     / INR (chain_size (scenario 8) "A" * chain_size (scenario 8) "B").
Proof.
  split; [exact scenario_chain_scores |]. split; [left; reflexivity |].
  pose proof (C1_chain_pair_score_formulas (scenario 8) [scenario_AB] scenario_AB
                scenario_chain_scores (or_introl eq_refl)) as H.
  cbv zeta in H. destruct H as [_ [Hv [Hi [_ [Hl _]]]]].
  split; [exact Hv |]. split; [exact Hi | exact Hl].
Defined.


(** C2 on three chains listed in the order C, A, B: the pairs are visited
    as (A, B), (A, C), (B, C); the pair (A, B) collects the index pair
    (2, 3) only, the pair (A, C) the index pairs (1, 0) and (2, 0), first
    index in chain A; the pair (B, C) collects nothing. *)
Lemma C2_witness :
  exists scores,
    calculate_chain_chain_scores three_chains = Ok scores
    /\ ordered_pairs (chain_labels three_chains) = [("A", "B"); ("A", "C"); ("B", "C")]
    /\ map (fun sc => (ChainChainScore.chain1 sc, ChainChainScore.chain2 sc,
                       ChainChainScore.valid_interactions sc,
                       ChainChainScore.pae_values sc, ChainChainScore.distances sc)) scores =
       [("A", "B", [(2, 3)]%nat, [10], map (dist_at three_chains) [(2, 3)]%nat);
        ("A", "C", [(1, 0); (2, 0)]%nat, [10; 10],
         map (dist_at three_chains) [(1, 0); (2, 0)]%nat)].
Proof.
  assert (Hrun : calculate_chain_chain_scores three_chains =
                 Ok (flat_map (chain_pair_entry three_chains)
                       (ordered_pairs (chain_labels three_chains))))
    by (apply chain_scores_ok; [discriminate | reflexivity]).
  eexists. split; [exact Hrun |]. split; [reflexivity |].
  pose proof (C2_chain_pair_enumeration three_chains _ Hrun) as H. cbv zeta in H.
  destruct H as [_ [_ [_ [_ [_ [_ Hout]]]]]].
  etransitivity; [exact Hout | exact three_chains_collected].
Defined.

(** C4 on the three chains: the residues of B and C are all further apart
    than the cutoff, so the pair (B, C) has no record although (A, B) and
    (A, C) have one; the last residue has no qualifying partner and no
    record; two of three pairs and four of five residues are reported. *)
Lemma C4_witness :
  exists r,
    calculate three_chains = Ok r
    /\ (forall i j, In i (chain_indices (residues_of three_chains) "B") ->
                    In j (chain_indices (residues_of three_chains) "C") ->
                    distance_cutoff three_chains < distance_at (coords_of three_chains) i j)
    /\ qualifying_pairs three_chains ("B", "C") = []
    /\ qualifying_partners three_chains 4 = []
    /\ (forall sc, In sc (IPSAEResults.chain_chain_scores r) ->
          ~ (ChainChainScore.chain1 sc = "B" /\ ChainChainScore.chain2 sc = "C"))
    /\ (forall rs, In rs (IPSAEResults.residue_scores r) ->
          forall q, In q (ResidueScore.valid_interactions rs) -> fst q <> 4%nat)
    /\ (forall sc, In sc (IPSAEResults.chain_chain_scores r) ->
          ChainChainScore.num_interactions sc <> 0%nat)
    /\ length (IPSAEResults.chain_chain_scores r) = 2%nat
    /\ length (IPSAEResults.residue_scores r) = 4%nat.
Proof.
  destruct three_chains_run as [r Hr]. exists r.
  destruct three_chains_partners as [P0 [P1 [P2 [P3 P4]]]].
  destruct (C4_omission_law three_chains r Hr) as [Hc [_ [_ [Hfar [Hres [Hnc Hnr]]]]]].
  split; [exact Hr |]. split; [exact three_chains_far_apart |].
  split; [exact three_chains_BC |]. split; [exact P4 |].
  split; [exact (Hfar "B" "C" three_chains_far_apart) |].
  split; [exact (Hres 4%nat P4) |].
  split; [intros sc Hin; exact (proj2 (Hc sc Hin)) |].
  split.
  - rewrite Hnc.
    change (ordered_pairs (chain_labels three_chains))
      with [("A", "B"); ("A", "C"); ("B", "C")].
    cbn [filter]. rewrite three_chains_AB, three_chains_AC, three_chains_BC. reflexivity.
  - rewrite Hnr.
    change (enumerate (residues_of three_chains))
      with [(0%nat, ("C", 1%Z, "GLY")); (1%nat, ("A", 1%Z, "ALA"));
            (2%nat, ("A", 2%Z, "SER")); (3%nat, ("B", 1%Z, "LEU"));
            (4%nat, ("B", 2%Z, "VAL"))].
    cbn [filter fst]. rewrite P0, P1, P2, P3, P4. reflexivity.
Defined.

(** C5 on the example: five residues, five coordinates, a 5 by 5 matrix. *)
Lemma C5_witness :
  (0 < 5)%nat
  /\ length (residues_of (scenario 8)) = 5%nat
  /\ length (coords_of (scenario 8)) = 5%nat
  /\ square 5 (pae_matrix (scenario 8))
  /\ exists r, calculate (scenario 8) = Ok r.
Proof.
  split; [lia |]. split; [reflexivity |]. split; [reflexivity |].
  split; [exact scenario_pae_square |].
  apply (proj2 (C5_run_fails_only_on_bad_reads (scenario 8)) 5%nat);
    [lia | reflexivity | reflexivity | exact scenario_pae_square].
Defined.

(** Runs that do raise: an empty structure stops in [cdist], a residue
    without coordinate stops at the first read of its distance. *)
Lemma empty_structure_raises :
  shapes_agree empty_calculator /\ calculate empty_calculator = Raise ValueError.
Proof.
  split; [| reflexivity]. split; [reflexivity |]. split; [reflexivity | constructor].
Qed.

Lemma missing_coordinate_raises : calculate missing_coordinate = Raise IndexError.
Proof.
  unfold calculate. rewrite calculate_chain_chain_scores_spec. reflexivity.
Qed.

(** C5, the claim as stated, fails: the PAE matrix has six rows and columns
    for five residues and five coordinates, and the run returns a result. *)
Lemma C5_counterexample :
  ~ shapes_agree oversized /\ exists r, calculate oversized = Ok r.
Proof.
  split.
  - intros [_ [Hrows _]]. discriminate Hrows.
  - apply calculate_succeeds_iff. split; [discriminate | reflexivity].
Qed.

(** C6 on the example. *)
Lemma C6_witness :
  calculate (scenario 8) = Ok scenario_results
  /\ ChainChainScore.num_interactions scenario_AB =
     length (ChainChainScore.valid_interactions scenario_AB)
  /\ ChainChainScore.avg_pae scenario_AB =
     np_sum (ChainChainScore.pae_values scenario_AB)
     / INR (length (ChainChainScore.pae_values scenario_AB)).
Proof.
  split; [exact scenario_calculate |].
  destruct (C6_aggregates_consistent (scenario 8) scenario_results scenario_calculate)
    as [Hc _].
  destruct (Hc scenario_AB (or_introl eq_refl)) as [Hn [_ [_ [Ha _]]]].
  split; [exact Hn | exact Ha].
Defined.

(** C7 on the example: the PAE cutoff raised from 30 to 40. *)
Lemma C7_witness :
  pae_cutoff (scenario 8) <= 40
  /\ calculate (scenario 8) = Ok scenario_results
  /\ exists r2,
       calculate (with_pae_cutoff (scenario 8) 40) = Ok r2
       /\ exists sc2, In sc2 (IPSAEResults.chain_chain_scores r2)
            /\ ChainChainScore.chain1 sc2 = "A" /\ ChainChainScore.chain2 sc2 = "B"
            /\ (6 <= ChainChainScore.num_interactions sc2)%nat.
Proof.
  assert (Hle : pae_cutoff (scenario 8) <= 40) by (simpl; lra).
  split; [exact Hle |]. split; [exact scenario_calculate |].
  destruct (C7_pae_cutoff_monotone (scenario 8) 40 scenario_results Hle scenario_calculate)
    as [r2 [Hrun [Hc _]]].
  exists r2. split; [exact Hrun |].
  destruct (Hc scenario_AB (or_introl eq_refl)) as [sc2 [Hin [H1 [H2 [_ Hn]]]]].
  exists sc2. repeat split; assumption.
Defined.

(** C8 on the example: two residues with one alpha carbon each. *)
Lemma C8_witness :
  Forall (fun r => ca_count r = 1%nat) (all_residues two_residue_chain)
  /\ length (StructureData.chains (parse_cif two_residue_chain)) = 1%nat
  /\ length (StructureData.residues (parse_cif two_residue_chain)) = 2%nat
  /\ length (StructureData.coordinates (parse_cif two_residue_chain)) =
     length (StructureData.residues (parse_cif two_residue_chain))
  /\ length (StructureData.residues (parse_pdb chain_with_water)) = 2%nat.
Proof.
  assert (Hca : Forall (fun r => ca_count r = 1%nat) (all_residues two_residue_chain))
    by (repeat constructor).
  split; [exact Hca |].
  destruct (C8_parser_dimensions two_residue_chain (parse_cif two_residue_chain)
              (or_introl eq_refl)) as [_ [_ [Hch [Hres Hco]]]].
  destruct (C8_parser_dimensions chain_with_water (parse_pdb chain_with_water)
              (or_intror eq_refl)) as [_ [_ [_ [Hres' _]]]].
  split; [exact Hch |]. split; [exact Hres |]. split; [exact (Hco Hca) | exact Hres'].
Defined.

(** C8, the claim as stated, fails twice.  One chain of two residues gives
    one chain label for two residues: [chains] is not one label per
    residue.  A chain of a glycine and a water molecule gives two residues
    and one coordinate: there is not one coordinate per residue. *)
Lemma C8_counterexample :
  (length (StructureData.chains (parse_cif two_residue_chain)) = 1%nat
   /\ length (StructureData.residues (parse_cif two_residue_chain)) = 2%nat
   /\ length (StructureData.chains (parse_pdb two_residue_chain))
      <> length (StructureData.residues (parse_pdb two_residue_chain)))
  /\ (length (StructureData.residues (parse_cif chain_with_water)) = 2%nat
      /\ length (StructureData.coordinates (parse_cif chain_with_water)) = 1%nat
      /\ length (StructureData.residues (parse_pdb chain_with_water))
         <> length (StructureData.coordinates (parse_pdb chain_with_water))).
Proof.
  split.
  - split; [reflexivity |]. split; [reflexivity |]. intros H. discriminate H.
  - split; [reflexivity |]. split; [reflexivity |]. intros H. discriminate H.
Qed.

(** C9: the NumPy scalars stay.  The mapping [save] hands to [json.dump]
    has the keys [chain_chain_scores], [residue_scores] and
    [structure_data]; the arrays of [structure_data] become nested lists of
    Python numbers, the record of the structure holds no value of a NumPy
    type, and no array is left anywhere.  But every score record keeps NumPy
    scalars: under [ipsae_score], [pdockq_score], [avg_pae] and
    [avg_distance], and as the elements of [pae_values] and [distances],
    which [convert_numpy] returns as they are.  So the mapping is free of
    NumPy types only when it holds no score record; for the run on the
    example it is not. *)
Theorem C9_numpy_scalars_remain :
  (forall self : IPSAEResults.t,
     let data := save_data self in
     keys data = ["chain_chain_scores"; "residue_scores"; "structure_data"]
     /\ (exists records,
           getkey data "chain_chain_scores" = Some (PyList records)
           /\ Forall2 (fun sc record =>
                         keys record =
                         ["chain1"; "chain2"; "ipsae_score"; "pdockq_score"; "lis_score";
                          "avg_pae"; "avg_distance"; "num_interactions";
                          "valid_interactions"; "pae_values"; "distances"]
                         /\ numpy_fields record =
                            ["ipsae_score"; "pdockq_score"; "avg_pae"; "avg_distance"]
                         /\ getkey record "pae_values" =
                            Some (PyList (map PyNpScalar (ChainChainScore.pae_values sc)))
                         /\ getkey record "distances" =
                            Some (PyList (map PyNpScalar (ChainChainScore.distances sc))))
                (IPSAEResults.chain_chain_scores self) records)
     /\ (exists records,
           getkey data "residue_scores" = Some (PyList records)
           /\ Forall2 (fun rs record =>
                         keys record =
                         ["chain"; "residue_number"; "residue_name"; "ipsae_score";
                          "avg_pae"; "avg_distance"; "num_interactions";
                          "valid_interactions"; "pae_values"; "distances"]
                         /\ numpy_fields record = ["ipsae_score"; "avg_pae"; "avg_distance"]
                         /\ getkey record "pae_values" =
                            Some (PyList (map PyNpScalar (ResidueScore.pae_values rs)))
                         /\ getkey record "distances" =
                            Some (PyList (map PyNpScalar (ResidueScore.distances rs))))
                (IPSAEResults.residue_scores self) records)
     /\ (exists record,
           getkey data "structure_data" = Some record
           /\ keys record = ["chains"; "residues"; "coordinates"; "pae_matrix"]
           /\ getkey record "coordinates" =
              Some (PyList (map (fun '(x, y, z) => PyList [PyFloat x; PyFloat y; PyFloat z])
                              (StructureData.coordinates (IPSAEResults.structure_data self))))
           /\ getkey record "pae_matrix" =
              Some (match StructureData.pae_matrix (IPSAEResults.structure_data self) with
                    | Some m => PyList (map (fun row => PyList (map PyFloat row)) m)
                    | None => PyNone
                    end)
           /\ numpy_free record = true)
     /\ no_ndarray data = true
     /\ (numpy_free data = true <->
         IPSAEResults.chain_chain_scores self = []
         /\ IPSAEResults.residue_scores self = []))
  /\ (calculate (scenario 8) = Ok scenario_results
      /\ numpy_free (save_data scenario_results) = false
      /\ exists record rest,
           getkey (save_data scenario_results) "chain_chain_scores"
             = Some (PyList (record :: rest))
           /\ getkey record "avg_pae" = Some (PyNpScalar 10)
           /\ getkey record "pae_values" =
              Some (PyList [PyNpScalar 10; PyNpScalar 10; PyNpScalar 10;
                            PyNpScalar 10; PyNpScalar 10; PyNpScalar 10])).
Proof.
  split.
  - intros self data.
    destruct (save_data_form self) as [Hkeys [_ [_ [Hsd Hnd]]]].
    split; [exact Hkeys |].
    split.
    { exists (map chain_chain_record (IPSAEResults.chain_chain_scores self)).
      split; [reflexivity |].
      induction (IPSAEResults.chain_chain_scores self) as [| sc l IH]; simpl;
        constructor; [| exact IH].
      split; [reflexivity |]. split; [reflexivity |].
      split; unfold chain_chain_record, getkey, lookup; simpl String.eqb; cbv iota;
        rewrite convert_scalars; reflexivity. }
    split.
    { exists (map residue_score_record (IPSAEResults.residue_scores self)).
      split; [reflexivity |].
      induction (IPSAEResults.residue_scores self) as [| rs l IH]; simpl;
        constructor; [| exact IH].
      split; [reflexivity |]. split; [reflexivity |].
      split; unfold residue_score_record, getkey, lookup; simpl String.eqb; cbv iota;
        rewrite convert_scalars; reflexivity. }
    split.
    { destruct Hsd as [record [H1 [H2 [H3 H4]]]]. exists record.
      split; [exact H1 |]. split; [exact H2 |]. split; [exact H3 |]. split; [exact H4 |].
      unfold data, save_data in H1. simpl in H1. inversion H1.
      apply structure_record_numpy_free. }
    split; [exact Hnd | apply save_data_numpy_free].
  - split; [exact scenario_calculate |]. split; [reflexivity |].
    eexists. eexists. split; [reflexivity |]. split; reflexivity.
Qed.

(** C10 on the example. *)
Lemma C10_witness :
  calculate (scenario 8) = Ok scenario_results
  /\ 0 < pae_cutoff (scenario 8)
  /\ Forall (Forall (fun x => 0 <= x)) (pae_matrix (scenario 8))
  /\ ChainChainScore.avg_pae scenario_AB <= 30
  /\ 0 <= ChainChainScore.ipsae_score scenario_AB <= 1
  /\ 0 < ChainChainScore.lis_score scenario_AB <= 1.
Proof.
  assert (Hpos : 0 < pae_cutoff (scenario 8)) by (simpl; lra).
  split; [exact scenario_calculate |]. split; [exact Hpos |].
  split; [exact scenario_pae_nonneg |].
  destruct (C10_score_bounds (scenario 8) scenario_results scenario_calculate) as [Hc _].
  destruct (Hc scenario_AB (or_introl eq_refl)) as [Hp [_ [H0 [H1 Hl]]]].
  split; [exact Hp |].
  split; [split; [exact (H0 Hpos) | exact (H1 Hpos scenario_pae_nonneg)] | exact Hl].
Defined.

(** C10, the claim as stated, fails: with the PAE cutoff -1 and a PAE of
    -2 the one record has [avg_pae = -2 <= pae_cutoff] and the score
    [1 - (-2) / (-1) = -1], below 0. *)
Lemma C10_counterexample :
  exists r sc,
    calculate negative_cutoff = Ok r
    /\ In sc (IPSAEResults.chain_chain_scores r)
    /\ ChainChainScore.avg_pae sc <= pae_cutoff negative_cutoff
    /\ ChainChainScore.ipsae_score sc = -1
    /\ ChainChainScore.ipsae_score sc < 0.
Proof.
  assert (Hrun : exists r, calculate negative_cutoff = Ok r)
    by (apply calculate_succeeds_iff; split; [discriminate | reflexivity]).
  destruct Hrun as [r Hr]. exists r, (chain_pair_record negative_cutoff ("A", "B")).
  split; [exact Hr |].
  apply calculate_inv in Hr. destruct Hr as [Hc _].
  rewrite negative_cutoff_scores in Hc. inversion Hc as [Hscores].
  split; [left; reflexivity |].
  unfold chain_pair_record. rewrite negative_cutoff_AB.
  cbn [ChainChainScore.avg_pae ChainChainScore.ipsae_score].
  change (map (pae_at negative_cutoff) [(0, 1)]%nat) with [-2].
  change (pae_cutoff negative_cutoff) with (-1).
  assert (Hmean : np_mean [-2] = -2) by (unfold np_mean, np_sum; simpl; lra).
  rewrite Hmean. split; [lra |]. split; lra.
Qed.

(** * Further properties of the scorer *)

Lemma qualifies_mono_both (self : IPSAECalculator.t) (p2 d2 : R) (q : nat * nat) :
  pae_cutoff self <= p2 -> distance_cutoff self <= d2 ->
  qualifies self q = true -> qualifies (with_cutoffs self p2 d2) q = true.
Proof.
  intros Hp Hd H. unfold qualifies in *. apply andb_prop in H. destruct H as [H1 H2].
  apply Rleb_le in H1, H2. apply andb_true_intro.
  change (pae_at (with_cutoffs self p2 d2) q) with (pae_at self q).
  change (dist_at (with_cutoffs self p2 d2) q) with (dist_at self q).
  split; apply Rleb_le; simpl; lra.
Qed.

(** X1.  Raising [distance_cutoff], alone or together with [pae_cutoff],
    keeps a successful run successful, keeps every emitted chain pair and
    residue, only adds interactions to them and never lowers
    [num_interactions]. *)
Theorem X1_cutoffs_monotone (self : IPSAECalculator.t) (p2 d2 : R) (r1 : IPSAEResults.t) :
  pae_cutoff self <= p2 ->
  distance_cutoff self <= d2 ->
  calculate self = Ok r1 ->
  exists r2,
    calculate (with_cutoffs self p2 d2) = Ok r2
    /\ (forall sc1, In sc1 (IPSAEResults.chain_chain_scores r1) ->
        exists sc2, In sc2 (IPSAEResults.chain_chain_scores r2)
          /\ labels_of sc2 = labels_of sc1
          /\ incl (ChainChainScore.valid_interactions sc1)
                  (ChainChainScore.valid_interactions sc2)
          /\ (ChainChainScore.num_interactions sc1
              <= ChainChainScore.num_interactions sc2)%nat)
    /\ (forall rs1, In rs1 (IPSAEResults.residue_scores r1) ->
        exists rs2, In rs2 (IPSAEResults.residue_scores r2)
          /\ ResidueScore.chain rs2 = ResidueScore.chain rs1
          /\ ResidueScore.residue_number rs2 = ResidueScore.residue_number rs1
          /\ ResidueScore.residue_name rs2 = ResidueScore.residue_name rs1
          /\ incl (ResidueScore.valid_interactions rs1)
                  (ResidueScore.valid_interactions rs2)
          /\ (ResidueScore.num_interactions rs1
              <= ResidueScore.num_interactions rs2)%nat).
Proof.
  intros Hp Hd Hrun. apply calculate_inv in Hrun. destruct Hrun as [Hc [Hr _]].
  apply chain_scores_inv in Hc. destruct Hc as [Hne [Hcread Hc]].
  apply residue_scores_inv in Hr. destruct Hr as [_ [Hrread Hr]].
  set (self2 := with_cutoffs self p2 d2).
  assert (Hc2 : calculate_chain_chain_scores self2 =
                Ok (flat_map (chain_pair_entry self2) (ordered_pairs (chain_labels self2))))
    by (apply chain_scores_ok; [exact Hne | exact Hcread]).
  assert (Hr2 : calculate_residue_scores self2 =
                Ok (flat_map (residue_entry self2) (enumerate (residues_of self2))))
    by (apply residue_scores_ok; [exact Hne | exact Hrread]).
  assert (Hmono : forall l : list (nat * nat),
            incl (filter (qualifies self) l) (filter (qualifies self2) l)
            /\ (length (filter (qualifies self) l)
                <= length (filter (qualifies self2) l))%nat).
  { intros l. apply filter_mono. intros q. apply qualifies_mono_both; assumption. }
  assert (Hkeep : forall l : list (nat * nat),
            filter (qualifies self) l <> [] -> filter (qualifies self2) l <> []).
  { intros l Hl Hnil. destruct (Hmono l) as [Hincl _]. rewrite Hnil in Hincl.
    destruct (filter (qualifies self) l) as [| q qs]; [apply Hl; reflexivity |].
    exact (Hincl q (or_introl eq_refl)). }
  eexists. split.
  { unfold calculate. rewrite Hc2, Hr2. simpl. reflexivity. }
  simpl. split.
  - intros sc1 Hin. rewrite Hc in Hin. apply chain_pair_entry_In in Hin.
    destruct Hin as [c [Hcin [Hne1 ->]]].
    destruct (Hmono (cross_pairs self c)) as [Hincl Hlen].
    exists (chain_pair_record self2 c). split.
    + apply chain_pair_entry_In. exists c. split; [exact Hcin |]. split; [| reflexivity].
      apply (Hkeep (cross_pairs self c)). exact Hne1.
    + unfold labels_of, chain_pair_record; simpl. repeat split; assumption.
  - intros rs1 Hin. rewrite Hr in Hin. apply residue_entry_In in Hin.
    destruct Hin as [ir [Hirin [Hne1 ->]]].
    destruct (Hmono (partner_pairs self (fst ir))) as [Hincl Hlen].
    exists (residue_record self2 ir). split.
    + apply residue_entry_In. exists ir. split; [exact Hirin |]. split; [| reflexivity].
      apply (Hkeep (partner_pairs self (fst ir))). exact Hne1.
    + unfold residue_record; simpl. repeat split; assumption.
Qed.

(** ** Order and shape of the chain-pair records *)

Lemma StronglySorted_filter {A : Type} (lt : A -> A -> Prop) (f : A -> bool) (l : list A) :
  StronglySorted lt l -> StronglySorted lt (filter f l).
Proof.
  induction 1 as [| x l Hs IH Hall]; simpl; [constructor |].
  destruct (f x); [| exact IH]. constructor; [exact IH |].
  apply Forall_forall. intros y Hy. apply filter_In in Hy.
  rewrite Forall_forall in Hall. apply Hall. tauto.
Qed.

Lemma chain_entries_labels (self : IPSAECalculator.t) (pairs : list (string * string)) :
  map labels_of (flat_map (chain_pair_entry self) pairs) =
  filter (fun c => nonempty (qualifying_pairs self c)) pairs.
Proof.
  induction pairs as [| c pairs IH]; simpl; [reflexivity |].
  rewrite map_app, IH. unfold chain_pair_entry.
  destruct (qualifying_pairs self c) eqn:E; simpl; [reflexivity |].
  f_equal. destruct c. reflexivity.
Qed.

Lemma chain_indices_NoDup (rs : list residue) (c : string) : NoDup (chain_indices rs c).
Proof.
  unfold chain_indices, enumerate.
  assert (G : forall s, NoDup (map fst (filter (fun '(_, (c', _, _)) => String.eqb c' c)
                                         (combine (seq s (length rs)) rs)))
                        /\ forall k, In k (map fst (filter (fun '(_, (c', _, _)) => String.eqb c' c)
                                                     (combine (seq s (length rs)) rs)))
                                     -> (s <= k)%nat).
  { induction rs as [| [[c' number] name] rs IH]; intros s; simpl.
    - split; [constructor | intros k []].
    - destruct (IH (S s)) as [Hnd Hge]. destruct (String.eqb c' c); simpl.
      + split.
        * constructor; [| exact Hnd]. intros Hin. apply Hge in Hin. lia.
        * intros k [<- | Hk]; [lia | apply Hge in Hk; lia].
      + split; [exact Hnd |]. intros k Hk. apply Hge in Hk. lia. }
  apply G.
Qed.

Lemma list_prod_NoDup {A B : Type} (xs : list A) (ys : list B) :
  NoDup xs -> NoDup ys -> NoDup (list_prod xs ys).
Proof.
  intros Hx Hy. induction Hx as [| x xs Hnin Hx IH]; simpl; [constructor |].
  apply NoDup_app.
  - clear IH. induction Hy as [| y ys Hyn Hy IHy]; simpl; constructor; [| exact IHy].
    intros Hin. apply in_map_iff in Hin. destruct Hin as [y' [Heq Hy']].
    inversion Heq. subst y'. exact (Hyn Hy').
  - exact IH.
  - intros p Hp Hq. apply in_map_iff in Hp. destruct Hp as [y [<- _]].
    apply in_prod_iff in Hq. apply Hnin. tauto.
Qed.

(** X2.  The chain-pair records come out in strictly ascending order of
    [(chain1, chain2)], so no pair of labels is reported twice or in both
    directions; [chain1 < chain2] and both labels occur in [chains]; the
    interaction list of a record has no repeated index pair, and each pair
    [(i, j)] joins a residue of [chain1] with a residue of [chain2]. *)
Theorem X2_chain_records_ordered (self : IPSAECalculator.t)
    (scores : list ChainChainScore.t) :
  calculate_chain_chain_scores self = Ok scores ->
  StronglySorted pair_lt (map labels_of scores)
  /\ NoDup (map labels_of scores)
  /\ forall sc, In sc scores ->
       str_lt (ChainChainScore.chain1 sc) (ChainChainScore.chain2 sc)
       /\ In (ChainChainScore.chain1 sc) (StructureData.chains (structure_data self))
       /\ In (ChainChainScore.chain2 sc) (StructureData.chains (structure_data self))
       /\ NoDup (ChainChainScore.valid_interactions sc)
       /\ forall i j, In (i, j) (ChainChainScore.valid_interactions sc) ->
            (exists number name,
               nth_error (residues_of self) i = Some (ChainChainScore.chain1 sc, number, name))
            /\ (exists number name,
               nth_error (residues_of self) j = Some (ChainChainScore.chain2 sc, number, name))
            /\ i <> j.
Proof.
  intros Hrun. apply chain_scores_inv in Hrun. destruct Hrun as [_ [_ ->]].
  pose proof (chain_labels_sorted self) as Hsorted.
  assert (Hs : StronglySorted pair_lt
                 (map labels_of (flat_map (chain_pair_entry self)
                                   (ordered_pairs (chain_labels self))))).
  { rewrite chain_entries_labels. apply StronglySorted_filter.
    apply ordered_pairs_sorted. exact Hsorted. }
  split; [exact Hs |].
  split; [apply (StronglySorted_NoDup pair_lt); [exact pair_lt_irrefl | exact Hs] |].
  intros sc Hin. apply chain_pair_entry_In in Hin. destruct Hin as [[c1 c2] [Hc [_ ->]]].
  apply (ordered_pairs_In _ c1 c2 Hsorted) in Hc. destruct Hc as [H1 [H2 Hlt]].
  unfold chain_pair_record; simpl.
  split; [exact Hlt |].
  split; [apply chain_labels_In; exact H1 |].
  split; [apply chain_labels_In; exact H2 |].
  split.
  - unfold qualifying_pairs, cross_pairs. apply NoDup_filter.
    apply list_prod_NoDup; apply chain_indices_NoDup.
  - intros i j Hij. unfold qualifying_pairs, cross_pairs in Hij.
    apply filter_In in Hij. destruct Hij as [Hij _].
    apply in_prod_iff in Hij. simpl in Hij. destruct Hij as [Hi Hj].
    apply chain_indices_In in Hi, Hj.
    split; [exact Hi |]. split; [exact Hj |].
    intros ->. destruct Hi as [n1 [m1 Hi]]. destruct Hj as [n2 [m2 Hj]].
    rewrite Hi in Hj. inversion Hj. subst c2. exact (str_lt_irrefl _ Hlt).
Qed.

(** ** Ranges of the stored values *)

Lemma euclidean_nonneg (u v : coord) : 0 <= euclidean u v.
Proof. destruct u as [[ux uy] uz], v as [[vx vy] vz]. simpl. apply sqrt_pos. Qed.

Lemma euclidean_sym (u v : coord) : euclidean u v = euclidean v u.
Proof.
  destruct u as [[ux uy] uz], v as [[vx vy] vz]. simpl. f_equal. ring.
Qed.

Lemma sigmoid_range (x : R) : 0 < 1 / (1 + exp x) < 1.
Proof.
  pose proof (exp_pos x) as He. split.
  - apply Rdiv_lt_0_compat; lra.
  - apply (Rmult_lt_reg_r (1 + exp x)); [lra |].
    unfold Rdiv. rewrite Rmult_assoc, Rinv_l by lra. lra.
Qed.

Lemma sigmoid_increasing (a b : R) :
  a <= b -> 1 / (1 + exp (- 0.5 * (a - 20))) <= 1 / (1 + exp (- 0.5 * (b - 20))).
Proof.
  intros Hab.
  pose proof (exp_pos (- 0.5 * (a - 20))) as Ha.
  pose proof (exp_pos (- 0.5 * (b - 20))) as Hb.
  assert (Hexp : exp (- 0.5 * (b - 20)) <= exp (- 0.5 * (a - 20))).
  { destruct (Req_dec a b) as [-> | Hne]; [lra |]. left. apply exp_increasing. lra. }
  unfold Rdiv. rewrite !Rmult_1_l. apply Rinv_le_contravar; lra.
Qed.

Lemma sigmoid_half (a : R) : 1 / 2 <= 1 / (1 + exp (- 0.5 * (a - 20))) <-> 20 <= a.
Proof.
  pose proof (exp_pos (- 0.5 * (a - 20))) as He.
  assert (Hexp : exp (- 0.5 * (a - 20)) <= 1 <-> 20 <= a).
  { rewrite <- exp_0. split.
    - intros H. destruct (Rle_or_lt 20 a) as [Hle | Hlt]; [exact Hle |].
      assert (Hgt : exp 0 < exp (- 0.5 * (a - 20))) by (apply exp_increasing; lra).
      lra.
    - intros H. destruct (Req_dec a 20) as [-> | Hne].
      + replace (- 0.5 * (20 - 20)) with 0 by lra. lra.
      + left. apply exp_increasing. lra. }
  rewrite <- Hexp. unfold Rdiv. rewrite !Rmult_1_l.
  assert (Hinv : / (1 + exp (- 0.5 * (a - 20))) * (1 + exp (- 0.5 * (a - 20))) = 1)
    by (apply Rinv_l; lra).
  split.
  - intros H. nra.
  - intros H. apply Rinv_le_contravar; lra.
Qed.

(** X3.  The docking-quality proxy of every emitted chain pair lies
    between 0 and 1; it is at least 1/2 exactly when the mean PAE of the
    pair is at least 20; and among the records of a run it does not
    decrease when the mean PAE increases: the proxy rewards a larger
    predicted error. *)
Theorem X3_pdockq_range (self : IPSAECalculator.t) (scores : list ChainChainScore.t)
    (sc : ChainChainScore.t) :
  calculate_chain_chain_scores self = Ok scores ->
  In sc scores ->
  0 <= ChainChainScore.pdockq_score sc <= 1
  /\ (1 / 2 <= ChainChainScore.pdockq_score sc <-> 20 <= ChainChainScore.avg_pae sc)
  /\ forall sc', In sc' scores ->
       ChainChainScore.avg_pae sc <= ChainChainScore.avg_pae sc' ->
       ChainChainScore.pdockq_score sc <= ChainChainScore.pdockq_score sc'.
Proof.
  intros Hrun Hin. apply chain_scores_inv in Hrun. destruct Hrun as [_ [_ ->]].
  apply chain_pair_entry_In in Hin. destruct Hin as [c [_ [Hne ->]]].
  unfold chain_pair_record; simpl.
  split.
  { pose proof (sigmoid_range
                  (- 0.5 * (np_mean (map (pae_at self) (qualifying_pairs self c)) - 20)))
      as H. lra. }
  split; [apply sigmoid_half |].
  intros sc' Hin' Hle. apply chain_pair_entry_In in Hin'.
  destruct Hin' as [c' [_ [_ ->]]]. unfold chain_pair_record in *; simpl in *.
  apply sigmoid_increasing. exact Hle.
Qed.

Lemma dist_at_nonneg (self : IPSAECalculator.t) (p : nat * nat) : 0 <= dist_at self p.
Proof. unfold dist_at, distance_at. apply euclidean_nonneg. Qed.

Lemma filter_qualifies_stored (self : IPSAECalculator.t) (pairs : list (nat * nat)) :
  Forall (fun x => x <= pae_cutoff self) (map (pae_at self) (filter (qualifies self) pairs))
  /\ Forall (fun x => 0 <= x <= distance_cutoff self)
       (map (dist_at self) (filter (qualifies self) pairs)).
Proof.
  split; [apply filter_qualifies_pae |].
  apply Forall_forall. intros x Hx. apply in_map_iff in Hx. destruct Hx as [p [<- Hp]].
  apply filter_In in Hp. split; [apply dist_at_nonneg | apply qualifies_dist; tauto].
Qed.

(** X4.  In every emitted record each stored PAE value is at most
    [pae_cutoff], each stored distance lies between 0 and
    [distance_cutoff], and the mean distance is not negative. *)
Theorem X4_stored_values_in_range (self : IPSAECalculator.t) (r : IPSAEResults.t) :
  calculate self = Ok r ->
  (forall sc, In sc (IPSAEResults.chain_chain_scores r) ->
     Forall (fun x => x <= pae_cutoff self) (ChainChainScore.pae_values sc)
     /\ Forall (fun x => 0 <= x <= distance_cutoff self) (ChainChainScore.distances sc)
     /\ 0 <= ChainChainScore.avg_distance sc)
  /\ (forall rs, In rs (IPSAEResults.residue_scores r) ->
     Forall (fun x => x <= pae_cutoff self) (ResidueScore.pae_values rs)
     /\ Forall (fun x => 0 <= x <= distance_cutoff self) (ResidueScore.distances rs)
     /\ 0 <= ResidueScore.avg_distance rs).
Proof.
  intros Hrun. apply calculate_inv in Hrun. destruct Hrun as [Hc [Hr _]].
  apply chain_scores_inv in Hc. destruct Hc as [_ [_ Hc]].
  apply residue_scores_inv in Hr. destruct Hr as [_ [_ Hr]].
  assert (Hmean : forall l : list (nat * nat), l <> [] -> 0 <= np_mean (map (dist_at self) l)).
  { intros l Hl. apply np_mean_ge; [apply map_nonempty; exact Hl |].
    apply Forall_forall. intros x Hx. apply in_map_iff in Hx. destruct Hx as [p [<- _]].
    apply dist_at_nonneg. }
  split.
  - intros sc Hin. rewrite Hc in Hin. apply chain_pair_entry_In in Hin.
    destruct Hin as [c [_ [Hne ->]]]. unfold chain_pair_record; simpl.
    destruct (filter_qualifies_stored self (cross_pairs self c)) as [H1 H2].
    split; [exact H1 |]. split; [exact H2 | apply Hmean; exact Hne].
  - intros rs Hin. rewrite Hr in Hin. apply residue_entry_In in Hin.
    destruct Hin as [ir [_ [Hne ->]]]. unfold residue_record; simpl.
    destruct (filter_qualifies_stored self (partner_pairs self (fst ir))) as [H1 H2].
    split; [exact H1 |]. split; [exact H2 | apply Hmean; exact Hne].
Qed.

Lemma flat_map_nil {A B : Type} (f : A -> list B) (l : list A) :
  (forall x, In x l -> f x = []) -> flat_map f l = [].
Proof.
  induction l as [| x l IH]; intros H; simpl; [reflexivity |].
  rewrite (H x (or_introl eq_refl)). apply IH. intros y Hy. apply H. right. exact Hy.
Qed.

(** X5.  With a negative distance cutoff a successful run reports nothing:
    no chain pair and no residue. *)
Theorem X5_negative_distance_cutoff (self : IPSAECalculator.t) (r : IPSAEResults.t) :
  distance_cutoff self < 0 ->
  calculate self = Ok r ->
  IPSAEResults.chain_chain_scores r = [] /\ IPSAEResults.residue_scores r = [].
Proof.
  intros Hneg Hrun. apply calculate_inv in Hrun. destruct Hrun as [Hc [Hr _]].
  apply chain_scores_inv in Hc. destruct Hc as [_ [_ Hc]].
  apply residue_scores_inv in Hr. destruct Hr as [_ [_ Hr]].
  assert (Hnone : forall l : list (nat * nat), filter (qualifies self) l = []).
  { intros l. apply filter_none. intros p _. unfold qualifies.
    apply andb_false_intro2. apply Rleb_false.
    pose proof (dist_at_nonneg self p). lra. }
  rewrite Hc, Hr. split; apply flat_map_nil.
  - intros c _. unfold chain_pair_entry, qualifying_pairs. rewrite Hnone. reflexivity.
  - intros ir _. unfold residue_entry, qualifying_partners. rewrite Hnone. reflexivity.
Qed.

(** ** The two outputs of one run *)

Lemma readable_bounds (self : IPSAECalculator.t) (l : list (nat * nat)) (i j : nat) :
  forallb (readable self) l = true -> In (i, j) l ->
  (i < length (coords_of self))%nat /\ (j < length (coords_of self))%nat.
Proof.
  intros Hall Hin. rewrite forallb_forall in Hall. specialize (Hall _ Hin).
  unfold readable in Hall. simpl in Hall.
  apply andb_prop in Hall. destruct Hall as [_ Hall].
  apply andb_prop in Hall. destruct Hall as [Hi Hj].
  apply Nat.ltb_lt in Hi, Hj. split; assumption.
Qed.

Lemma partner_pairs_In (self : IPSAECalculator.t) (i j : nat) :
  In (i, j) (partner_pairs self i) <-> (j < length (coords_of self))%nat /\ i <> j.
Proof.
  unfold partner_pairs. rewrite in_map_iff. split.
  - intros [j' [Heq Hj]]. inversion Heq. subst j'. apply filter_In in Hj.
    destruct Hj as [Hj Hne]. apply in_seq in Hj.
    apply negb_true_iff, Nat.eqb_neq in Hne. split; [lia | exact Hne].
  - intros [Hj Hne]. exists j. split; [reflexivity |]. apply filter_In. split.
    + apply in_seq. lia.
    + apply negb_true_iff, Nat.eqb_neq. exact Hne.
Qed.

Lemma residue_interaction_In (self : IPSAECalculator.t) (i j : nat) (res : residue) :
  nth_error (residues_of self) i = Some res ->
  (j < length (coords_of self))%nat -> i <> j ->
  qualifies self (i, j) = true ->
  In (residue_record self (i, res))
     (flat_map (residue_entry self) (enumerate (residues_of self)))
  /\ In (i, j) (ResidueScore.valid_interactions (residue_record self (i, res))).
Proof.
  intros Hres Hj Hne Hq.
  assert (Hin : In (i, j) (qualifying_partners self i)).
  { unfold qualifying_partners. apply filter_In. split; [| exact Hq].
    apply partner_pairs_In. split; assumption. }
  split; [| exact Hin].
  apply residue_entry_In. exists (i, res). split; [apply enumerate_In; exact Hres |].
  split; [| reflexivity]. simpl. intros Hnil. rewrite Hnil in Hin. exact Hin.
Qed.

(** X6.  Within one run the residue records contain the chain-pair
    records: every interaction [(i, j)] of an emitted chain pair is also an
    interaction of the record of residue [i], which is emitted and carries
    the label [chain1]. *)
Theorem X6_chain_interactions_in_residue_records (self : IPSAECalculator.t)
    (r : IPSAEResults.t) (sc : ChainChainScore.t) (i j : nat) :
  calculate self = Ok r ->
  In sc (IPSAEResults.chain_chain_scores r) ->
  In (i, j) (ChainChainScore.valid_interactions sc) ->
  exists rs,
    In rs (IPSAEResults.residue_scores r)
    /\ ResidueScore.chain rs = ChainChainScore.chain1 sc
    /\ In (i, j) (ResidueScore.valid_interactions rs).
Proof.
  intros Hrun Hsc Hij. apply calculate_inv in Hrun. destruct Hrun as [Hc [Hr _]].
  apply chain_scores_inv in Hc. destruct Hc as [_ [Hread Hc]].
  apply residue_scores_inv in Hr. destruct Hr as [_ [_ Hr]].
  pose proof (chain_labels_sorted self) as Hsorted.
  rewrite Hc in Hsc. apply chain_pair_entry_In in Hsc.
  destruct Hsc as [[c1 c2] [Hcin [_ ->]]]. unfold chain_pair_record in Hij; simpl in Hij.
  unfold qualifying_pairs in Hij. apply filter_In in Hij. destruct Hij as [Hcross Hq].
  assert (Hb : (j < length (coords_of self))%nat).
  { apply (readable_bounds self (chain_reads self) i j Hread).
    unfold chain_reads. apply in_flat_map. exists (c1, c2). split; assumption. }
  unfold cross_pairs in Hcross. apply in_prod_iff in Hcross. simpl in Hcross.
  destruct Hcross as [Hi Hj]. apply chain_indices_In in Hi, Hj.
  destruct Hi as [n1 [m1 Hi]]. destruct Hj as [n2 [m2 Hj]].
  apply (ordered_pairs_In _ c1 c2 Hsorted) in Hcin. destruct Hcin as [_ [_ Hlt]].
  assert (Hne : i <> j).
  { intros ->. rewrite Hi in Hj. inversion Hj. subst c2. exact (str_lt_irrefl _ Hlt). }
  destruct (residue_interaction_In self i j _ Hi Hb Hne Hq) as [Hin Hval].
  exists (residue_record self (i, (c1, n1, m1))). rewrite Hr.
  split; [exact Hin |]. split; [reflexivity | exact Hval].
Qed.

(** X7.  When the PAE matrix is symmetric and there are as many
    coordinates as residues, the residue records are symmetric: if [j] is a
    partner of [i], then residue [j] has a record and [i] is one of its
    partners. *)
Theorem X7_symmetric_pae_symmetric_partners (self : IPSAECalculator.t)
    (r : IPSAEResults.t) (rs : ResidueScore.t) (i j : nat) :
  symmetric (pae_matrix self) ->
  length (coords_of self) = length (residues_of self) ->
  calculate self = Ok r ->
  In rs (IPSAEResults.residue_scores r) ->
  In (i, j) (ResidueScore.valid_interactions rs) ->
  exists rs',
    In rs' (IPSAEResults.residue_scores r)
    /\ In (j, i) (ResidueScore.valid_interactions rs').
Proof.
  intros Hsym Hlen Hrun Hrs Hij. apply calculate_inv in Hrun. destruct Hrun as [_ [Hr _]].
  apply residue_scores_inv in Hr. destruct Hr as [_ [_ Hr]].
  rewrite Hr in Hrs. apply residue_entry_In in Hrs.
  destruct Hrs as [[i' res] [Hir [_ ->]]]. unfold residue_record in Hij; simpl in Hij.
  unfold qualifying_partners in Hij. apply filter_In in Hij. destruct Hij as [Hpart Hq].
  assert (Hi' : i' = i).
  { unfold partner_pairs in Hpart. apply in_map_iff in Hpart.
    destruct Hpart as [j' [Heq _]]. inversion Heq. reflexivity. }
  subst i'. apply partner_pairs_In in Hpart. destruct Hpart as [Hj Hne].
  apply enumerate_In in Hir.
  assert (Hi : (i < length (coords_of self))%nat).
  { rewrite Hlen. apply nth_error_Some. rewrite Hir. discriminate. }
  destruct (nth_error (residues_of self) j) as [res' |] eqn:Hres';
    [| apply nth_error_None in Hres'; lia].
  assert (Hq' : qualifies self (j, i) = true).
  { unfold qualifies, pae_at, dist_at, distance_at in *. simpl in *.
    rewrite (Hsym j i), (euclidean_sym (nth j (coords_of self) origin)). exact Hq. }
  destruct (residue_interaction_In self j i res' Hres' Hi (fun H => Hne (eq_sym H)) Hq')
    as [Hin Hval].
  exists (residue_record self (j, res')). rewrite Hr. split; assumption.
Qed.

(** ** Edge cases of a run *)

Lemma no_members_nil {A : Type} (l : list A) : (forall x, ~ In x l) -> l = [].
Proof. destruct l as [| x l]; [reflexivity |]. intros H. destruct (H x). left. reflexivity. Qed.

(** X8.  A structure whose [chains] list holds a single distinct label has
    no chain pair: with at least one coordinate,
    [calculate_chain_chain_scores] returns the empty list without reading
    the PAE matrix, whatever its shape. *)
Theorem X8_single_chain_no_pairs (self : IPSAECalculator.t) :
  coords_of self <> [] ->
  (forall c1 c2, In c1 (StructureData.chains (structure_data self)) ->
                 In c2 (StructureData.chains (structure_data self)) -> c1 = c2) ->
  chain_reads self = [] /\ calculate_chain_chain_scores self = Ok [].
Proof.
  intros Hne Hone.
  assert (Hpairs : ordered_pairs (chain_labels self) = []).
  { apply no_members_nil. intros [c1 c2] Hin.
    apply (ordered_pairs_In _ c1 c2 (chain_labels_sorted self)) in Hin.
    destruct Hin as [H1 [H2 Hlt]]. apply chain_labels_In in H1, H2.
    rewrite (Hone c1 c2 H1 H2) in Hlt. exact (str_lt_irrefl _ Hlt). }
  assert (Hreads : chain_reads self = []) by (unfold chain_reads; rewrite Hpairs; reflexivity).
  split; [exact Hreads |].
  rewrite (chain_scores_ok self Hne); [rewrite Hpairs; reflexivity |].
  rewrite Hreads. reflexivity.
Qed.

Lemma missing_coordinates_raise (self : IPSAECalculator.t) :
  (length (coords_of self) < length (residues_of self))%nat ->
  calculate self =
  Raise (match coords_of self with [] => ValueError | _ :: _ => IndexError end).
Proof.
  intros Hlt. unfold calculate.
  rewrite calculate_chain_chain_scores_spec, calculate_residue_scores_spec.
  destruct (coords_of self) as [| c0 cs] eqn:Hcs; [reflexivity |].
  destruct (forallb (readable self) (chain_reads self)); simpl; [| reflexivity].
  destruct (forallb (readable self) (residue_reads self)) eqn:Hread; [| reflexivity].
  exfalso. set (n := length (coords_of self)).
  assert (Hn : n = S (length cs)) by (unfold n; rewrite Hcs; reflexivity).
  destruct (nth_error (residues_of self) n) as [res |] eqn:Hres;
    [| apply nth_error_None in Hres; unfold n in Hres; rewrite Hcs in *; simpl in *; lia].
  assert (Hin : In (n, 0%nat) (residue_reads self)).
  { unfold residue_reads. apply in_flat_map. exists (n, res).
    split; [apply enumerate_In; exact Hres |]. simpl.
    apply partner_pairs_In. fold n. lia. }
  destruct (readable_bounds self _ n 0%nat Hread Hin) as [Hbad _]. fold n in Hbad. lia.
Qed.

(** X9.  With fewer coordinates than residues every run fails, whatever the
    PAE matrix and the cutoffs: with [ValueError] when there is no
    coordinate at all, with [IndexError] otherwise. *)
Theorem X9_fewer_coordinates_always_raises (self : IPSAECalculator.t) :
  (length (coords_of self) < length (residues_of self))%nat ->
  calculate self =
  Raise (match coords_of self with [] => ValueError | _ :: _ => IndexError end).
Proof. exact (missing_coordinates_raise self). Qed.

(** ** What a run reads of the PAE matrix *)

Lemma chain_reads_off_diagonal (self : IPSAECalculator.t) (c : string * string) (p : nat * nat) :
  In c (ordered_pairs (chain_labels self)) -> In p (cross_pairs self c) -> fst p <> snd p.
Proof.
  destruct c as [c1 c2], p as [i j]. intros Hc Hp.
  apply (ordered_pairs_In _ c1 c2 (chain_labels_sorted self)) in Hc.
  destruct Hc as [_ [_ Hlt]].
  unfold cross_pairs in Hp. apply in_prod_iff in Hp. simpl in *. destruct Hp as [Hi Hj].
  apply chain_indices_In in Hi, Hj.
  destruct Hi as [n1 [m1 Hi]]. destruct Hj as [n2 [m2 Hj]].
  intros ->. rewrite Hi in Hj. inversion Hj. subst c2. exact (str_lt_irrefl _ Hlt).
Qed.

Lemma partner_pairs_off_diagonal (self : IPSAECalculator.t) (i : nat) (p : nat * nat) :
  In p (partner_pairs self i) -> fst p <> snd p.
Proof.
  intros Hp. unfold partner_pairs in Hp. apply in_map_iff in Hp.
  destruct Hp as [j [<- Hj]]. apply filter_In in Hj. destruct Hj as [_ Hne].
  apply negb_true_iff, Nat.eqb_neq in Hne. exact Hne.
Qed.

Lemma forallb_pointwise {A : Type} (f g : A -> bool) (l : list A) :
  (forall x, In x l -> f x = g x) -> forallb f l = forallb g l.
Proof.
  induction l as [| x l IH]; intros H; simpl; [reflexivity |].
  rewrite (H x (or_introl eq_refl)), IH; [reflexivity |].
  intros y Hy. apply H. right. exact Hy.
Qed.

Lemma flat_map_pointwise {A B : Type} (f g : A -> list B) (l : list A) :
  (forall x, In x l -> f x = g x) -> flat_map f l = flat_map g l.
Proof.
  induction l as [| x l IH]; intros H; simpl; [reflexivity |].
  rewrite (H x (or_introl eq_refl)), IH; [reflexivity |].
  intros y Hy. apply H. right. exact Hy.
Qed.

Section OffDiagonal.
Variable self : IPSAECalculator.t.
Variable m' : matrix.
Hypothesis Hsame : same_off_diagonal (pae_matrix self) m'.

Let self' : IPSAECalculator.t := with_pae_matrix self m'.

Lemma readable_same (p : nat * nat) : readable self' p = readable self p.
Proof.
  destruct Hsame as [Hrows [Hcols _]]. unfold readable. simpl.
  change (coords_of self') with (coords_of self). rewrite Hrows, (Hcols (fst p)).
  reflexivity.
Qed.

Lemma qualifies_same (p : nat * nat) : fst p <> snd p -> qualifies self' p = qualifies self p.
Proof.
  intros Hne. destruct Hsame as [_ [_ Hent]]. unfold qualifies, pae_at. simpl.
  change (dist_at self' p) with (dist_at self p). rewrite (Hent _ _ Hne). reflexivity.
Qed.

Lemma pae_at_same (p : nat * nat) : fst p <> snd p -> pae_at self' p = pae_at self p.
Proof.
  intros Hne. destruct Hsame as [_ [_ Hent]]. unfold pae_at. simpl.
  rewrite (Hent _ _ Hne). reflexivity.
Qed.

Lemma filter_off_diagonal (l : list (nat * nat)) :
  (forall p, In p l -> fst p <> snd p) ->
  filter (qualifies self') l = filter (qualifies self) l
  /\ map (pae_at self') (filter (qualifies self) l) = map (pae_at self) (filter (qualifies self) l).
Proof.
  intros Hl. split.
  - apply filter_ext_in. intros p Hp. apply qualifies_same. apply Hl. exact Hp.
  - apply map_ext_in. intros p Hp. apply filter_In in Hp. apply pae_at_same. apply Hl. tauto.
Qed.

Lemma chain_pair_entry_same (c : string * string) :
  In c (ordered_pairs (chain_labels self)) ->
  chain_pair_entry self' c = chain_pair_entry self c.
Proof.
  intros Hc.
  destruct (filter_off_diagonal (cross_pairs self c)
              (fun p Hp => chain_reads_off_diagonal self c p Hc Hp)) as [Hf Hm].
  unfold chain_pair_entry, chain_pair_record, qualifying_pairs.
  change (cross_pairs self' c) with (cross_pairs self c).
  change (residues_of self') with (residues_of self).
  change (dist_at self') with (dist_at self).
  change (pae_cutoff self') with (pae_cutoff self).
  rewrite Hf, Hm. reflexivity.
Qed.

Lemma residue_entry_same (ir : nat * residue) :
  residue_entry self' ir = residue_entry self ir.
Proof.
  destruct (filter_off_diagonal (partner_pairs self (fst ir))
              (partner_pairs_off_diagonal self (fst ir))) as [Hf Hm].
  unfold residue_entry, residue_record, qualifying_partners.
  change (partner_pairs self' (fst ir)) with (partner_pairs self (fst ir)).
  change (dist_at self') with (dist_at self).
  change (pae_cutoff self') with (pae_cutoff self).
  rewrite Hf, Hm. reflexivity.
Qed.

Lemma calculate_off_diagonal : calculate self' = calculate self.
Proof.
  unfold calculate.
  rewrite !calculate_chain_chain_scores_spec, !calculate_residue_scores_spec.
  change (coords_of self') with (coords_of self).
  change (chain_reads self') with (chain_reads self).
  change (residue_reads self') with (residue_reads self).
  change (chain_labels self') with (chain_labels self).
  change (residues_of self') with (residues_of self).
  change (structure_data self') with (structure_data self).
  rewrite !(forallb_pointwise (readable self') (readable self)) by (intros p _; apply readable_same).
  rewrite (flat_map_pointwise (residue_entry self') (residue_entry self))
    by (intros ir _; apply residue_entry_same).
  rewrite (flat_map_pointwise (chain_pair_entry self') (chain_pair_entry self))
    by (intros c Hc; apply chain_pair_entry_same; exact Hc).
  reflexivity.
Qed.
End OffDiagonal.

(** X10.  A run never looks at the diagonal of the PAE matrix: loaded with
    two PAE matrices of the same shape that agree off the diagonal, the
    same structure gives the same records, or the same exception. *)
Theorem X10_pae_diagonal_unused (pc dc : R) (parsed : StructureData.t) (m m' : matrix) :
  same_off_diagonal m m' ->
  scores_of (calculate (load_data pc dc parsed m')) =
  scores_of (calculate (load_data pc dc parsed m)).
Proof.
  intros Hsame.
  pose proof (calculate_off_diagonal (load_data pc dc parsed m) m' Hsame) as H.
  rewrite <- H. unfold calculate.
  rewrite !calculate_chain_chain_scores_spec, !calculate_residue_scores_spec.
  change (coords_of (with_pae_matrix (load_data pc dc parsed m) m'))
    with (coords_of (load_data pc dc parsed m')).
  destruct (coords_of (load_data pc dc parsed m')); [reflexivity |].
  change (forallb (readable (with_pae_matrix (load_data pc dc parsed m) m'))
            (chain_reads (with_pae_matrix (load_data pc dc parsed m) m')))
    with (forallb (readable (load_data pc dc parsed m')) (chain_reads (load_data pc dc parsed m'))).
  destruct (forallb (readable (load_data pc dc parsed m')) (chain_reads (load_data pc dc parsed m')));
    [| reflexivity].
  change (forallb (readable (with_pae_matrix (load_data pc dc parsed m) m'))
            (residue_reads (with_pae_matrix (load_data pc dc parsed m) m')))
    with (forallb (readable (load_data pc dc parsed m')) (residue_reads (load_data pc dc parsed m'))).
  destruct (forallb (readable (load_data pc dc parsed m')) (residue_reads (load_data pc dc parsed m')));
    reflexivity.
Qed.

(** * Further properties of the structure parsers *)

Lemma ca_coords_length (r : Bio.Residue) : length (ca_coords r) = ca_count r.
Proof. unfold ca_coords, ca_count. apply length_map. Qed.

Lemma parsed_lengths (structure : Bio.Structure) :
  length (StructureData.residues (parse_cif structure)) = length (all_residues structure)
  /\ length (StructureData.coordinates (parse_cif structure)) =
     list_sum (map ca_count (all_residues structure)).
Proof.
  rewrite parse_cif_spec. simpl. unfold all_residues.
  induction (all_chains structure) as [| c cs [IH1 IH2]]; simpl; [split; reflexivity |].
  rewrite !length_app, map_app, list_sum_app, IH1, IH2.
  unfold chain_tuples, chain_coords. rewrite length_map. split; [reflexivity |].
  f_equal. rewrite flat_map_length_sum. f_equal. apply map_ext. apply ca_coords_length.
Qed.

Lemma list_sum_at_most_one {A : Type} (f : A -> nat) (l : list A) :
  Forall (fun x => (f x <= 1)%nat) l ->
  (list_sum (map f l) <= length l)%nat
  /\ ((list_sum (map f l) < length l)%nat <-> Exists (fun x => f x = 0%nat) l).
Proof.
  induction 1 as [| x l Hx Hl [IH1 [IH2 IH3]]]; simpl.
  - split; [lia |]. split; [lia | intros H; inversion H].
  - split; [lia |]. split.
    + intros Hlt. destruct (Nat.eq_dec (f x) 0) as [H0 | H0].
      * apply Exists_cons_hd. exact H0.
      * apply Exists_cons_tl. apply IH2. lia.
    + intros Hex. inversion Hex as [? ? H0 | ? ? Hex']; subst.
      * lia.
      * apply IH3 in Hex'. lia.
Qed.

(** X11.  [coordinates] holds one entry per atom named [CA], so its length
    is the number of such atoms over all residues; with at most one [CA]
    per residue it is never longer than [residues], and it is shorter
    exactly when some residue (a water, a ligand) has no [CA] atom. *)
Theorem X11_coordinates_count_ca_atoms (structure : Bio.Structure) (sd : StructureData.t) :
  sd = parse_cif structure \/ sd = parse_pdb structure ->
  length (StructureData.coordinates sd) = list_sum (map ca_count (all_residues structure))
  /\ length (StructureData.residues sd) = length (all_residues structure)
  /\ (Forall (fun r => (ca_count r <= 1)%nat) (all_residues structure) ->
      (length (StructureData.coordinates sd) <= length (StructureData.residues sd))%nat
      /\ ((length (StructureData.coordinates sd) < length (StructureData.residues sd))%nat
          <-> Exists (fun r => ca_count r = 0%nat) (all_residues structure))).
Proof.
  intros Hsd. assert (Hsd' : sd = parse_cif structure) by (destruct Hsd; assumption).
  subst sd. destruct (parsed_lengths structure) as [Hres Hco].
  split; [exact Hco |]. split; [exact Hres |].
  intros Hone. rewrite Hres, Hco. apply list_sum_at_most_one. exact Hone.
Qed.

(** X12.  The parsers keep the models of a file apart in nothing: the data
    of a structure with several models is the concatenation, list by list,
    of the data of its models, so every further model repeats the chains
    and the residues. *)
Theorem X12_models_are_concatenated (s1 s2 : Bio.Structure) :
  StructureData.chains (parse_cif (s1 ++ s2)) =
    StructureData.chains (parse_cif s1) ++ StructureData.chains (parse_cif s2)
  /\ StructureData.residues (parse_cif (s1 ++ s2)) =
    StructureData.residues (parse_cif s1) ++ StructureData.residues (parse_cif s2)
  /\ StructureData.coordinates (parse_cif (s1 ++ s2)) =
    StructureData.coordinates (parse_cif s1) ++ StructureData.coordinates (parse_cif s2)
  /\ parse_pdb (s1 ++ s2) = parse_cif (s1 ++ s2).
Proof.
  rewrite !parse_cif_spec. simpl. unfold all_chains.
  rewrite concat_app, map_app, !flat_map_app. repeat split.
Qed.

Lemma chain_tuples_labels (cs : list Bio.Chain) (r : residue) :
  In r (flat_map chain_tuples cs) -> In (label_of r) (map Bio.chain_id cs).
Proof.
  intros Hin. apply in_flat_map in Hin. destruct Hin as [c [Hc Hr]].
  unfold chain_tuples in Hr. apply in_map_iff in Hr. destruct Hr as [res [<- _]].
  apply in_map_iff. exists c. split; [reflexivity | exact Hc].
Qed.

(** X13.  Parser and scorer fit together on the chain labels: in a
    calculator loaded from a parsed structure every residue index belongs
    to the index list of exactly one of the labels the chain loop
    enumerates, the label of its own chain. *)
Theorem X13_parsed_residues_partitioned (pc dc : R) (structure : Bio.Structure)
    (pae : matrix) (k : nat) :
  let self := load_data pc dc (parse_pdb structure) pae in
  (k < length (residues_of self))%nat ->
  exists c,
    In c (chain_labels self)
    /\ In k (chain_indices (residues_of self) c)
    /\ forall c', In k (chain_indices (residues_of self) c') -> c' = c.
Proof.
  intros self Hk.
  destruct (nth_error (residues_of self) k) as [[[c number] name] |] eqn:Hres;
    [| apply nth_error_None in Hres; lia].
  exists c. split; [| split].
  - apply chain_labels_In. apply nth_error_In in Hres. revert Hres.
    unfold self, residues_of, load_data. simpl.
    change (parse_pdb structure) with (parse_cif structure).
    rewrite parse_cif_spec. simpl. intros Hres.
    exact (chain_tuples_labels _ _ Hres).
  - apply chain_indices_In. exists number, name. exact Hres.
  - intros c' Hc'. apply chain_indices_In in Hc'. destruct Hc' as [n' [m' Hc']].
    rewrite Hres in Hc'. inversion Hc'. reflexivity.
Qed.

Lemma matching_shapes_succeed (self : IPSAECalculator.t) (n : nat) :
  (0 < n)%nat -> length (residues_of self) = n -> length (coords_of self) = n ->
  square n (pae_matrix self) -> exists r, calculate self = Ok r.
Proof.
  intros Hn Hres Hcs Hsq. apply calculate_succeeds_iff. split.
  - intros Hnil. rewrite Hnil in Hcs. simpl in Hcs. lia.
  - apply forallb_forall. intros [i j] Hin. apply in_app_iff in Hin.
    assert (Hij : (i < n)%nat /\ (j < n)%nat).
    { destruct Hin as [Hin | Hin].
      - unfold chain_reads in Hin. apply in_flat_map in Hin. destruct Hin as [c [_ Hin]].
        apply in_prod_iff in Hin. destruct Hin as [Hi Hj].
        apply chain_indices_lt in Hi, Hj. lia.
      - unfold residue_reads in Hin. apply in_flat_map in Hin.
        destruct Hin as [[i' res] [Hir Hin]]. apply enumerate_In in Hir.
        assert (Hi' : (i' < length (residues_of self))%nat)
          by (apply nth_error_Some; rewrite Hir; discriminate).
        simpl in Hin. unfold partner_pairs in Hin. apply in_map_iff in Hin.
        destruct Hin as [j' [Heq Hj']]. inversion Heq; subst.
        apply filter_In in Hj'. destruct Hj' as [Hj' _]. apply in_seq in Hj'. lia. }
    apply (readable_in_range self n); tauto.
Qed.

(** X14.  Parsing and scoring together: for a parsed structure with [n >= 1]
    residues, none with two [CA] atoms, and an [n] by [n] PAE matrix, the
    run returns a result exactly when every residue has its [CA] atom; one
    residue without (a water, a ligand) makes every run fail. *)
Theorem X14_scorable_iff_every_residue_has_ca (pc dc : R) (structure : Bio.Structure)
    (pae : matrix) :
  all_residues structure <> [] ->
  Forall (fun r => (ca_count r <= 1)%nat) (all_residues structure) ->
  square (length (all_residues structure)) pae ->
  ((exists r, calculate (load_data pc dc (parse_pdb structure) pae) = Ok r)
   <-> Forall (fun r => ca_count r = 1%nat) (all_residues structure)).
Proof.
  intros Hne Hone Hsq. set (self := load_data pc dc (parse_pdb structure) pae).
  destruct (parsed_lengths structure) as [Hres Hco].
  change (parse_cif structure) with (parse_pdb structure) in Hres, Hco.
  change (StructureData.residues (parse_pdb structure)) with (residues_of self) in Hres.
  change (StructureData.coordinates (parse_pdb structure)) with (coords_of self) in Hco.
  destruct (list_sum_at_most_one ca_count _ Hone) as [Hle Hlt].
  split.
  - intros [r Hrun]. apply Forall_forall. intros res Hin.
    rewrite Forall_forall in Hone. specialize (Hone res Hin).
    destruct (Nat.eq_dec (ca_count res) 0) as [H0 | H0]; [| lia].
    exfalso.
    assert (Hex : Exists (fun r => ca_count r = 0%nat) (all_residues structure))
      by (apply Exists_exists; exists res; split; assumption).
    apply Hlt in Hex. rewrite <- Hco, <- Hres in Hex.
    rewrite (missing_coordinates_raise self Hex) in Hrun. discriminate.
  - intros Hall. apply (matching_shapes_succeed self (length (all_residues structure))).
    + destruct (all_residues structure); [contradiction | simpl; lia].
    + exact Hres.
    + rewrite Hco. clear -Hall. induction Hall as [| x l Hx _ IH]; simpl; [reflexivity | lia].
    + exact Hsq.
Qed.

(** * Properties of the PAE parsers *)

Lemma chunks_spec (c r : nat) (v : list R) :
  length v = (r * c)%nat ->
  length (chunks c r v) = r
  /\ Forall (fun row => length row = c) (chunks c r v)
  /\ concat (chunks c r v) = v.
Proof.
  revert v. induction r as [| r IH]; intros v Hlen; simpl in *.
  - destruct v; [repeat split; constructor | discriminate].
  - destruct (IH (skipn c v)) as [H1 [H2 H3]]; [rewrite length_skipn; lia |].
    split; [rewrite H1; reflexivity |]. split.
    + constructor; [rewrite length_firstn; lia | exact H2].
    + rewrite H3. apply firstn_skipn.
Qed.

Lemma chunks_entry (c r : nat) (v : list R) (i j : nat) :
  length v = (r * c)%nat -> (i < r)%nat -> (j < c)%nat ->
  entry (chunks c r v) i j = nth (i * c + j) v 0.
Proof.
  unfold entry. revert v i. induction r as [| r IH]; intros v i Hlen Hi Hj; [lia |].
  simpl. destruct i as [| i].
  - simpl. rewrite <- (firstn_skipn c v) at 2.
    rewrite app_nth1; [reflexivity | rewrite length_firstn; simpl in Hlen; lia].
  - rewrite IH; [| rewrite length_skipn; simpl in Hlen; lia | lia | exact Hj].
    rewrite <- (firstn_skipn c v) at 2.
    assert (Hf : length (firstn c v) = c) by (rewrite length_firstn; simpl in Hlen; lia).
    rewrite app_nth2; [| rewrite Hf; simpl; lia].
    rewrite Hf. f_equal. simpl. lia.
Qed.

(** X15.  A flat PAE list of [n * n] numbers is read as the [n] by [n]
    matrix filled row by row: entry [(i, j)] is element [i * n + j] of the
    list, and the rows put end to end give the list back. *)
Theorem X15_flat_pae_round_trip (data : list (string * json_array)) (xs : list R) (n : nat) :
  first_present possible_keys data = Some (Flat xs) ->
  length xs = (n * n)%nat ->
  exists m,
    parse_json data = Py.Ok m
    /\ square n m
    /\ concat m = xs
    /\ forall i j, (i < n)%nat -> (j < n)%nat -> entry m i j = nth (i * n + j) xs 0.
Proof.
  intros Hkey Hlen. exists (chunks n n xs).
  destruct (chunks_spec n n xs Hlen) as [H1 [H2 H3]].
  split; [| split; [split; assumption | split; [exact H3 |]]].
  - unfold parse_json. rewrite Hkey. simpl. rewrite Hlen, Nat.sqrt_square.
    unfold reshape. rewrite Hlen, Nat.eqb_refl. reflexivity.
  - intros i j Hi Hj. apply chunks_entry; assumption.
Qed.

Lemma chunks_concat (c : nat) (m : matrix) :
  Forall (fun row => length row = c) m -> chunks c (length m) (concat m) = m.
Proof.
  induction 1 as [| row m Hrow _ IH]; [reflexivity |].
  cbn [length concat chunks].
  rewrite firstn_app, skipn_app, <- Hrow, firstn_all, skipn_all, Nat.sub_diag.
  cbn [firstn skipn app]. rewrite app_nil_r. f_equal. rewrite Hrow. exact IH.
Qed.

Lemma concat_length (c : nat) (m : matrix) :
  Forall (fun row => length row = c) m -> length (concat m) = (length m * c)%nat.
Proof.
  induction 1 as [| row m Hrow _ IH]; [reflexivity |].
  cbn [length concat]. rewrite length_app, Hrow, IH. reflexivity.
Qed.

(** X16.  The two layouts of a PAE document agree: for an [n] by [n]
    matrix, [parse_json] returns that matrix whether the document holds it
    as a list of rows or as the flat list of its rows put end to end. *)
Theorem X16_flat_and_nested_agree (nested flat : list (string * json_array))
    (m : matrix) (n : nat) :
  square n m ->
  first_present possible_keys nested = Some (Rows m) ->
  first_present possible_keys flat = Some (Flat (concat m)) ->
  parse_json nested = Py.Ok m /\ parse_json flat = Py.Ok m.
Proof.
  intros [Hrows Hcols] Hnested Hflat. unfold parse_json. rewrite Hnested, Hflat. split.
  - destruct m as [| row rows]; [reflexivity |].
    cbn [np_array]. inversion Hcols as [| ? ? Hrow Hrest]; subst.
    assert (Hall : forallb (fun row' => Nat.eqb (length row') (length row)) rows = true).
    { apply forallb_forall. intros row' Hin. apply Nat.eqb_eq.
      rewrite Forall_forall in Hrest. rewrite (Hrest row' Hin). exact (eq_sym Hrow). }
    rewrite Hall. reflexivity.
  - cbn [np_array Py.bind ensure_2d].
    rewrite (concat_length n m Hcols), Hrows, Nat.sqrt_square.
    unfold reshape. rewrite (concat_length n m Hcols), Hrows, Nat.eqb_refl.
    rewrite <- Hrows at 2. rewrite (chunks_concat n m Hcols). reflexivity.
Qed.

(** X17.  [parse_json] tries the keys in the order [pae_matrix],
    [predicted_aligned_error], [pae]: the first one present decides, and
    what the document holds under the later ones, or under any other key,
    is not looked at.  [parse_npz] returns for an array under [pae_matrix]
    what [parse_json] returns for the same values. *)
Theorem X17_pae_key_priority (data : list (string * json_array)) (v : json_array) :
  (dict_get "pae_matrix" data = Some v
   \/ (dict_get "pae_matrix" data = None
       /\ (dict_get "predicted_aligned_error" data = Some v
           \/ (dict_get "predicted_aligned_error" data = None
               /\ dict_get "pae" data = Some v)))) ->
  parse_json data = parse_json [("pae_matrix", v)]
  /\ forall a archive,
       np_array v = Py.Ok a ->
       dict_get "pae_matrix" archive = Some a ->
       parse_npz archive = parse_json data.
Proof.
  intros H.
  assert (Hfirst : first_present possible_keys data = Some v).
  { unfold possible_keys, first_present.
    destruct H as [H1 | [H1 [H2 | [H2 H3]]]].
    - rewrite H1. reflexivity.
    - rewrite H1, H2. reflexivity.
    - rewrite H1, H2, H3. reflexivity. }
  split.
  - unfold parse_json. rewrite Hfirst. reflexivity.
  - intros a archive Ha Hn. unfold parse_npz, parse_json. rewrite Hfirst, Hn, Ha. reflexivity.
Qed.

Lemma ensure_2d_rectangular (a : ndarray) (m : matrix) :
  (forall rows, a = Array2 rows -> rectangular rows) ->
  ensure_2d a = Py.Ok m -> rectangular m.
Proof.
  intros Hrows. destruct a as [v | rows]; simpl.
  - unfold reshape.
    destruct (Nat.eqb_spec (length v) (Nat.sqrt (length v) * Nat.sqrt (length v)))
      as [Heq | Hne]; [| discriminate].
    intros H. inversion H. exists (Nat.sqrt (length v)).
    apply (chunks_spec _ _ _ Heq).
  - intros H. inversion H. subst. apply Hrows. reflexivity.
Qed.

(** X18.  Whatever [parse_json] returns is rectangular (all rows have the
    same length); a list of rows is returned unchanged, without any check
    that there are as many rows as columns. *)
Theorem X18_parse_json_result_shape (data : list (string * json_array)) (m : matrix) :
  parse_json data = Py.Ok m ->
  rectangular m
  /\ (forall row rows, first_present possible_keys data = Some (Rows (row :: rows)) ->
        m = row :: rows).
Proof.
  unfold parse_json. destruct (first_present possible_keys data) as [v |]; [| discriminate].
  destruct v as [xs | [| row rows]]; simpl.
  - intros H. split; [| discriminate].
    apply (ensure_2d_rectangular (Array1 xs)); [discriminate | exact H].
  - intros H. split; [| discriminate].
    apply (ensure_2d_rectangular (Array1 [])); [discriminate | exact H].
  - destruct (forallb (fun row' => Nat.eqb (length row') (length row)) rows) eqn:Hrect;
      simpl; [| discriminate].
    intros H. inversion H. subst m. split.
    + exists (length row). constructor; [reflexivity |].
      apply Forall_forall. intros row' Hin. rewrite forallb_forall in Hrect.
      apply Nat.eqb_eq. apply Hrect. exact Hin.
    + intros row0 rows0 Heq. inversion Heq. reflexivity.
Qed.

(** * Properties of the loading of files *)

Lemma rpartition_no_dot (t : string) : no_dot t = true -> rpartition_dot t = None.
Proof.
  induction t as [| a t IH]; simpl; [reflexivity |].
  intros H. apply andb_prop in H. destruct H as [Ha Ht].
  rewrite (IH Ht). apply negb_true_iff in Ha. rewrite Ha. reflexivity.
Qed.

Lemma rpartition_append (h t : string) :
  no_dot t = true -> rpartition_dot (h ++ String "." t) = Some (h, t).
Proof.
  intros Ht. induction h as [| a h IH]; simpl.
  - rewrite (rpartition_no_dot t Ht). reflexivity.
  - rewrite IH. reflexivity.
Qed.

Lemma rpartition_none (s : string) : rpartition_dot s = None -> no_dot s = true.
Proof.
  induction s as [| a s IH]; simpl; [reflexivity |].
  destruct (rpartition_dot s) as [[h t] |]; [discriminate |].
  destruct (Ascii.eqb a "."); [discriminate |]. intros _. simpl. apply IH. reflexivity.
Qed.

Lemma rpartition_inv (s h t : string) :
  rpartition_dot s = Some (h, t) -> s = (h ++ String "." t)%string /\ no_dot t = true.
Proof.
  revert h t. induction s as [| a s IH]; simpl; intros h t H; [discriminate |].
  destruct (rpartition_dot s) as [[h' t'] |] eqn:E.
  - inversion H; subst. destruct (IH h' t eq_refl) as [-> Ht]. split; [reflexivity | exact Ht].
  - apply rpartition_none in E.
    destruct (Ascii.eqb_spec a "."); [| discriminate]. inversion H; subst.
    split; [reflexivity | exact E].
Qed.

Lemma suffix_stem_append (h t : string) :
  no_dot t = true -> h <> "" -> t <> "" ->
  suffix (h ++ String "." t) = String "." t /\ stem (h ++ String "." t) = h.
Proof.
  intros Ht Hh Hne. unfold suffix, stem. rewrite (rpartition_append h t Ht).
  destruct h; [contradiction |]. destruct t; [contradiction |]. split; reflexivity.
Qed.

Lemma suffix_cases (name : string) :
  suffix name = ""
  \/ exists h t, name = (h ++ String "." t)%string /\ no_dot t = true
                 /\ h <> "" /\ t <> "" /\ suffix name = String "." t /\ stem name = h.
Proof.
  unfold suffix, stem. destruct (rpartition_dot name) as [[h t] |] eqn:E; [| left; reflexivity].
  destruct (rpartition_inv _ _ _ E) as [Hname Ht].
  destruct h as [| a h]; [left; reflexivity |].
  destruct t as [| b t]; [left; reflexivity |].
  right. exists (String a h), (String b t). simpl. repeat split; try assumption; discriminate.
Qed.

Lemma lower_cons_dot (e : string) (x : string) :
  String.eqb (lower (String "." e)) (String "." x) = String.eqb (lower e) x.
Proof. reflexivity. Qed.

(** X19.  The structure file is chosen by its extension, whatever the
    letter case: a name [h.e] (with [h] and [e] non-empty, [e] without dot)
    is parsed as mmCIF when [e] lower-cased is [cif], as PDB when it is
    [pdb], and is refused with [ValueError] otherwise; a name without such
    an extension is refused. *)
Theorem X19_structure_format_by_extension (name : string) :
  (forall h e, name = (h ++ String "." e)%string -> no_dot e = true -> h <> "" -> e <> "" ->
     structure_format_of name =
     if String.eqb (lower e) "cif" then Py.Ok CIF
     else if String.eqb (lower e) "pdb" then Py.Ok PDB
     else Py.Raise Py.ValueError)
  /\ (suffix name = "" -> structure_format_of name = Py.Raise Py.ValueError)
  /\ (forall format, structure_format_of name = Py.Ok format ->
        exists h e, name = (h ++ String "." e)%string /\ h <> ""
                    /\ lower e = match format with CIF => "cif" | PDB => "pdb" end).
Proof.
  split; [| split].
  - intros h e -> He Hh Hne. unfold structure_format_of.
    destruct (suffix_stem_append h e He Hh Hne) as [-> _].
    rewrite !lower_cons_dot. reflexivity.
  - intros H. unfold structure_format_of. rewrite H. reflexivity.
  - intros format H. unfold structure_format_of in H.
    destruct (suffix_cases name) as [Hs | [h [t [Hname [_ [Hh [_ [Hs _]]]]]]]].
    + rewrite Hs in H. discriminate.
    + rewrite Hs, !lower_cons_dot in H. exists h, t. split; [exact Hname |].
      split; [exact Hh |].
      destruct (String.eqb_spec (lower t) "cif") as [Hc | Hc].
      * inversion H. exact Hc.
      * destruct (String.eqb_spec (lower t) "pdb") as [Hp | Hp]; [| discriminate].
        inversion H. exact Hp.
Qed.

(** X20.  The PAE file is chosen by its extension, whatever the letter
    case ([json] or [npz]); under a final [gz] the text after the last dot
    of the rest of the name decides, and when that rest has no dot the
    whole rest is taken for the extension: [x.json.gz] and [json.gz] are
    both read as JSON, [x.gz] is refused. *)
Theorem X20_pae_format_by_extension (h e : string) :
  no_dot e = true -> h <> "" -> e <> "" ->
  pae_format_of (h ++ String "." e) =
  if String.eqb (lower e) "gz"
  then format_of_extension (lower (last_segment h))
  else format_of_extension (lower e).
Proof.
  intros He Hh Hne. unfold pae_format_of.
  destruct (suffix_stem_append h e He Hh Hne) as [-> ->].
  rewrite lower_cons_dot.
  destruct (String.eqb (lower e) "gz"); unfold format_of_extension.
  - reflexivity.
  - rewrite !lower_cons_dot. reflexivity.
Qed.

(** ** Shape errors that a run does signal *)

(** X21.  A PAE matrix with fewer rows than there are residues is
    rejected: with at least two coordinates every such run raises
    [IndexError], whatever the cutoffs. *)
Theorem X21_short_pae_matrix_raises (self : IPSAECalculator.t) :
  (length (pae_matrix self) < length (residues_of self))%nat ->
  (2 <= length (coords_of self))%nat ->
  calculate self = Raise IndexError.
Proof.
  intros Hrows Hcs. unfold calculate.
  rewrite calculate_chain_chain_scores_spec, calculate_residue_scores_spec.
  assert (Hcs' := Hcs).
  destruct (coords_of self) as [| c0 cs] eqn:Hcoords in Hcs' |- *; [simpl in Hcs'; lia |].
  clear Hcs'.
  destruct (forallb (readable self) (chain_reads self)); simpl; [| reflexivity].
  destruct (forallb (readable self) (residue_reads self)) eqn:Hread; [| reflexivity].
  exfalso. set (i := length (pae_matrix self)).
  destruct (nth_error (residues_of self) i) as [res |] eqn:Hres;
    [| apply nth_error_None in Hres; unfold i in Hres; lia].
  set (j := if Nat.eqb i 0 then 1%nat else 0%nat).
  assert (Hj : (j < length (coords_of self))%nat /\ i <> j).
  { unfold j. destruct (Nat.eqb_spec i 0); lia. }
  assert (Hin : In (i, j) (residue_reads self)).
  { unfold residue_reads. apply in_flat_map. exists (i, res).
    split; [apply enumerate_In; exact Hres |]. simpl. apply partner_pairs_In. exact Hj. }
  rewrite forallb_forall in Hread. specialize (Hread _ Hin).
  unfold readable in Hread. simpl in Hread. fold i in Hread.
  rewrite Nat.ltb_irrefl in Hread. discriminate.
Qed.

(** * From the files to the result *)

(** X22.  The whole path on well-formed files: a PDB file whose [n >= 1]
    residues have one [CA] atom each and a JSON file holding the PAE values
    as a flat list of [n * n] numbers are loaded and scored without error;
    the result carries the [n] by [n] matrix whose rows, end to end, are
    the list of the file. *)
Theorem X22_run_on_matching_files (files : Files) (pae_file structure_file : string)
    (pc dc : R) (s : Bio.Structure) (data : list (string * json_array)) (xs : list R) :
  structure_format_of structure_file = Py.Ok PDB ->
  pdb_structure files structure_file = Py.Ok s ->
  pae_format_of pae_file = Py.Ok JSON ->
  json_document files pae_file = Py.Ok data ->
  first_present possible_keys data = Some (Flat xs) ->
  all_residues s <> [] ->
  Forall (fun r => ca_count r = 1%nat) (all_residues s) ->
  length xs = (length (all_residues s) * length (all_residues s))%nat ->
  exists r m,
    run files pae_file structure_file pc dc = Py.Ok r
    /\ StructureData.pae_matrix (IPSAEResults.structure_data r) = Some m
    /\ square (length (all_residues s)) m
    /\ concat m = xs
    /\ StructureData.residues (IPSAEResults.structure_data r) =
       StructureData.residues (parse_pdb s).
Proof.
  intros Hsf Hs Hpf Hd Hkey Hne Hca Hlen.
  assert (Hpos : (0 < length (all_residues s))%nat).
  { destruct (all_residues s); [exfalso; apply Hne; reflexivity | simpl; lia]. }
  assert (Hcount : list_sum (map ca_count (all_residues s)) = length (all_residues s)).
  { clear -Hca. induction Hca as [| x l Hx _ IH]; simpl; [reflexivity | lia]. }
  set (n := length (all_residues s)) in *.
  destruct (chunks_spec n n xs Hlen) as [H1 [H2 H3]].
  assert (Hparse : parse_json data = Py.Ok (chunks n n xs)).
  { unfold parse_json. rewrite Hkey. simpl. rewrite Hlen, Nat.sqrt_square.
    unfold reshape. rewrite Hlen, Nat.eqb_refl. reflexivity. }
  set (self := load_data pc dc (parse_pdb s) (chunks n n xs)).
  destruct (parsed_lengths s) as [Hres Hco].
  assert (Hrun : exists r, calculate self = Ok r).
  { apply (matching_shapes_succeed self n).
    - exact Hpos.
    - exact Hres.
    - change (coords_of self) with (StructureData.coordinates (parse_cif s)).
      rewrite Hco. exact Hcount.
    - split; assumption. }
  destruct Hrun as [r Hr]. exists r, (chunks n n xs).
  split.
  - assert (Hload : load_files files pae_file structure_file pc dc = Py.Ok self).
    { unfold load_files. rewrite Hsf. simpl. rewrite Hs. simpl. rewrite Hpf. simpl.
      rewrite Hd. simpl. rewrite Hparse. reflexivity. }
    unfold run, init. rewrite Hload. simpl. rewrite Hr. reflexivity.
  - apply calculate_inv in Hr. destruct Hr as [_ [_ Hsd]]. rewrite Hsd.
    split; [reflexivity |]. split; [split; assumption |]. split; [exact H3 | reflexivity].
Qed.

(** * Properties of the file scanner *)

Lemma rpartition_prefix (p s : string) :
  no_dot p = true ->
  rpartition_dot (p ++ s) =
  match rpartition_dot s with
  | Some (h, t) => Some ((p ++ h)%string, t)
  | None => None
  end.
Proof.
  intros Hp. induction p as [| a p IH]; simpl in *.
  - destruct (rpartition_dot s) as [[h t] |]; reflexivity.
  - apply andb_prop in Hp. destruct Hp as [Ha Hp]. rewrite (IH Hp).
    destruct (rpartition_dot s) as [[h t] |]; [reflexivity |].
    apply negb_true_iff in Ha. rewrite Ha. reflexivity.
Qed.

Lemma strip_gz_prefix (p s : string) :
  no_dot p = true ->
  strip_gz (p ++ s) =
  match strip_gz s with
  | Some rest => Some (p ++ rest)%string
  | None => None
  end.
Proof.
  intros Hp. induction p as [| a p IH].
  - simpl. destruct (strip_gz s); reflexivity.
  - simpl in Hp. apply andb_prop in Hp. destruct Hp as [Ha Hp].
    apply negb_true_iff in Ha.
    change (strip_gz (String a p ++ s))
      with (if String.eqb (String a (p ++ s)) ".gz" then Some EmptyString
            else match strip_gz (p ++ s) with
                 | Some rest => Some (String a rest)
                 | None => None
                 end).
    change (String.eqb (String a (p ++ s)) ".gz")
      with (Ascii.eqb a "." && String.eqb (p ++ s) "gz")%bool.
    rewrite Ha, (IH Hp). simpl. destruct (strip_gz s); reflexivity.
Qed.

Lemma split_prefix (p s : string) :
  no_underscore p = true -> split "_" (p ++ String "_" s) = p :: split "_" s.
Proof.
  intros Hp. induction p as [| a p IH]; simpl in *; [reflexivity |].
  apply andb_prop in Hp. destruct Hp as [Ha Hp]. apply negb_true_iff in Ha.
  rewrite Ha, (IH Hp). reflexivity.
Qed.

Lemma split_no_underscore (p : string) : no_underscore p = true -> split "_" p = [p].
Proof.
  induction p as [| a p IH]; simpl; [reflexivity |].
  intros Hp. apply andb_prop in Hp. destruct Hp as [Ha Hp]. apply negb_true_iff in Ha.
  rewrite Ha, (IH Hp). reflexivity.
Qed.

Lemma no_dot_app (p q : string) : no_dot (p ++ q) = no_dot p && no_dot q.
Proof.
  induction p as [| a p IH]; simpl; [reflexivity |]. rewrite IH, andb_assoc. reflexivity.
Qed.

Lemma append_assoc (p q r : string) : ((p ++ q) ++ r)%string = (p ++ (q ++ r))%string.
Proof. induction p as [| a p IH]; simpl; [reflexivity | rewrite IH; reflexivity]. Qed.

(** X23.  The key of a file is the text of its name before the first
    underscore (when that text has no dot): whatever follows the first
    underscore, directory included, plays no part, so all the files of one
    directory tree whose names start alike share one key. *)
Theorem X23_file_key_is_first_part (dir a rest : string) :
  no_underscore a = true ->
  no_dot a = true ->
  _get_file_key (mkPath dir (a ++ String "_" rest)) = a.
Proof.
  intros Hu Hd. unfold _get_file_key. simpl name.
  set (p := (a ++ "_")%string).
  assert (Hp : no_dot p = true) by (unfold p; rewrite no_dot_app, Hd; reflexivity).
  assert (Hname : forall r, (a ++ String "_" r)%string = (p ++ r)%string).
  { intros r. unfold p. rewrite append_assoc. reflexivity. }
  assert (Hstem : exists r, stem (a ++ String "_" rest) = (p ++ r)%string).
  { unfold stem. rewrite Hname, (rpartition_prefix p rest Hp).
    destruct (rpartition_dot rest) as [[h t] |]; [| exists rest; reflexivity].
    destruct (negb (is_empty (p ++ h)) && negb (is_empty t));
      [exists h | exists rest]; reflexivity. }
  destruct Hstem as [r ->]. rewrite (strip_gz_prefix p r Hp).
  destruct (strip_gz r) as [r' |]; rewrite <- Hname, (split_prefix a _ Hu); reflexivity.
Qed.

(** ** The scan *)

Section ScanFacts.
Variable rglob : string -> list Path.

Lemma dict_get_app {V : Type} (key : string) (d : list (string * V)) (k : string) (v : V) :
  dict_get key (d ++ [(k, v)]) =
  match dict_get key d with
  | Some x => Some x
  | None => if String.eqb key k then Some v else None
  end.
Proof.
  induction d as [| [k' v'] d IH]; simpl; [reflexivity |].
  destruct (String.eqb key k'); [reflexivity | exact IH].
Qed.

Lemma store_get (files : list (string * Path)) (ps : list Path) (key : string) :
  dict_get key (fold_left store ps files) =
  match dict_get key files with
  | Some p => Some p
  | None => find (has_key key) ps
  end.
Proof.
  revert files. induction ps as [| p ps IH]; intros files; simpl.
  - destruct (dict_get key files); reflexivity.
  - rewrite IH. unfold store, has_key.
    destruct (dict_get (_get_file_key p) files) as [q |] eqn:Hq.
    + destruct (dict_get key files) eqn:Hk; [reflexivity |].
      destruct (String.eqb_spec key (_get_file_key p)) as [-> | Hne]; [| reflexivity].
      rewrite Hq in Hk. discriminate.
    + rewrite dict_get_app. destruct (dict_get key files); [reflexivity |].
      destruct (String.eqb key (_get_file_key p)); reflexivity.
Qed.

Lemma find_append {A : Type} (f : A -> bool) (l l' : list A) :
  find f (l ++ l') = match find f l with Some x => Some x | None => find f l' end.
Proof.
  induction l as [| x l IH]; simpl; [reflexivity |]. destruct (f x); [reflexivity | exact IH].
Qed.

Lemma scan_get_from (files : list (string * Path)) (patterns : list string) (key : string) :
  dict_get key
    (fold_left (fun files pattern => fold_left store (rglob pattern) files) patterns files) =
  match dict_get key files with
  | Some p => Some p
  | None => find (has_key key) (flat_map rglob patterns)
  end.
Proof.
  revert files. induction patterns as [| pat patterns IH]; intros files; simpl.
  - destruct (dict_get key files); reflexivity.
  - rewrite IH, store_get. destruct (dict_get key files); [reflexivity |].
    rewrite find_append. destruct (find (has_key key) (rglob pat)); reflexivity.
Qed.

Lemma store_keys (files : list (string * Path)) (p : Path) :
  NoDup (map fst files) -> NoDup (map fst (store files p)).
Proof.
  intros Hnd. unfold store. destruct (dict_get (_get_file_key p) files) eqn:E; [exact Hnd |].
  rewrite map_app. simpl. apply NoDup_app; [exact Hnd | constructor; [intros [] | constructor] |].
  intros k Hin [<- | []]. apply in_map_iff in Hin. destruct Hin as [[k' v] [Hk Hin]].
  simpl in Hk. subst k'. clear -E Hin.
  induction files as [| [k' v'] files IH]; simpl in *; [contradiction |].
  destruct (String.eqb_spec (_get_file_key p) k'); [discriminate |].
  destruct Hin as [Heq | Hin]; [inversion Heq; congruence | exact (IH E Hin)].
Qed.

Lemma scan_keys (patterns : list string) : NoDup (map fst (scan rglob patterns)).
Proof.
  unfold scan.
  assert (G : forall files, NoDup (map fst files) ->
            NoDup (map fst (fold_left (fun files pattern =>
                                         fold_left store (rglob pattern) files)
                              patterns files))).
  { induction patterns as [| pat patterns IH]; intros files Hnd; simpl; [exact Hnd |].
    apply IH. clear IH. revert files Hnd.
    induction (rglob pat) as [| p ps IHp]; intros files Hnd; simpl; [exact Hnd |].
    apply IHp. apply store_keys. exact Hnd. }
  apply G. constructor.
Qed.

(** X24.  Scanning keeps, for every key, the first file found with that
    key, in the order of the patterns and of the directory walk; later
    files with the same key are dropped.  No key is stored twice. *)
Theorem X24_scan_keeps_first_file (patterns : list string) (key : string) :
  dict_get key (scan rglob patterns) =
    find (fun p => String.eqb key (_get_file_key p)) (flat_map rglob patterns)
  /\ NoDup (map fst (scan rglob patterns)).
Proof.
  split; [| apply scan_keys]. unfold scan. rewrite scan_get_from. reflexivity.
Qed.

End ScanFacts.

(** ** Model information and matches *)

Lemma split_join (parts : list string) :
  parts <> [] -> Forall (fun p => no_underscore p = true) parts ->
  split "_" (join_underscore parts) = parts.
Proof.
  intros Hne Hall. induction Hall as [| p parts Hp Hall IH]; [contradiction |].
  destruct parts as [| q parts].
  - simpl. apply split_no_underscore. exact Hp.
  - change (join_underscore (p :: q :: parts))
      with (p ++ String "_" (join_underscore (q :: parts)))%string.
    rewrite (split_prefix p _ Hp), IH; [reflexivity | discriminate].
Qed.

Lemma index_of_app (x : string) (pre rest : list string) :
  Forall (fun p => p <> x) pre ->
  index_of x (pre ++ rest) =
  match index_of x rest with
  | Some i => Some (length pre + i)%nat
  | None => None
  end.
Proof.
  induction 1 as [| p pre Hp _ IH]; simpl.
  - destruct (index_of x rest); reflexivity.
  - destruct (String.eqb_spec p x); [contradiction |]. rewrite IH.
    destruct (index_of x rest); reflexivity.
Qed.

Lemma nth_error_after (pre rest : list string) (k : nat) :
  nth_error (pre ++ rest) (length pre + k) = nth_error rest k.
Proof.
  rewrite nth_error_app2 by lia. f_equal. lia.
Qed.

(** X25.  For a name built of the parts [pre_model_N_seed_T] (no part of
    [pre] being [model] or [seed]) the model information is the first part
    of the name, the number [N], and as seed the whole last part [T], the
    file extension included; when [N] is not a number, or when the name has
    no [seed] part at all, there is no model information. *)
Theorem X25_model_info_of_name (py_int : string -> option Z)
    (pre : list string) (num tail : string) :
  pre <> [] ->
  Forall (fun p => no_underscore p = true /\ p <> "model" /\ p <> "seed") pre ->
  no_underscore num = true -> num <> "seed" ->
  no_underscore tail = true -> tail <> "seed" ->
  _extract_model_info py_int (join_underscore (pre ++ ["model"; num; "seed"; tail])) =
    match py_int num with
    | Some n => Some (hd EmptyString pre, tail, n)
    | None => None
    end
  /\ _extract_model_info py_int (join_underscore (pre ++ ["model"; tail])) = None.
Proof.
  intros Hne Hpre Hnum Hns Htail Hts.
  assert (Hu : Forall (fun p => no_underscore p = true) pre)
    by (eapply Forall_impl; [| exact Hpre]; simpl; tauto).
  assert (Hm : Forall (fun p => p <> "model") pre)
    by (eapply Forall_impl; [| exact Hpre]; simpl; tauto).
  assert (Hs : Forall (fun p => p <> "seed") pre)
    by (eapply Forall_impl; [| exact Hpre]; simpl; tauto).
  assert (Hhd : forall rest, nth_error (pre ++ rest) 0 = Some (hd EmptyString pre))
    by (intros rest; destruct pre; [contradiction | reflexivity]).
  assert (Hnum_seed : String.eqb num "seed" = false) by (apply String.eqb_neq; exact Hns).
  assert (Htail_seed : String.eqb tail "seed" = false) by (apply String.eqb_neq; exact Hts).
  assert (Hmodel : forall rest, index_of "model" (pre ++ "model" :: rest) = Some (length pre)).
  { intros rest. rewrite (index_of_app "model" pre _ Hm). simpl. f_equal. lia. }
  assert (Hnext : forall rest k, nth_error (pre ++ rest) (length pre + k) = nth_error rest k)
    by (intros rest k; apply nth_error_after).
  assert (Hparts : forall rest, Forall (fun p => no_underscore p = true) rest ->
            split "_" (join_underscore (pre ++ rest)) = pre ++ rest).
  { intros rest Hrest. apply split_join.
    - destruct pre; [contradiction | discriminate].
    - apply Forall_app. split; assumption. }
  split.
  - unfold _extract_model_info.
    rewrite Hparts by (repeat constructor; assumption).
    assert (Hseed : index_of "seed" (pre ++ ["model"; num; "seed"; tail])
                    = Some (length pre + 2)%nat).
    { rewrite (index_of_app "seed" pre _ Hs). simpl. rewrite Hnum_seed. reflexivity. }
    rewrite Hmodel, Hnext, Hseed, Hhd. cbv beta iota.
    rewrite <- Nat.add_assoc, Hnext.
    change (nth_error ["model"; num; "seed"; tail] 1) with (Some num).
    change (nth_error ["model"; num; "seed"; tail] (2 + 1)) with (Some tail).
    cbv beta iota. destruct (py_int num) as [n |]; reflexivity.
  - unfold _extract_model_info.
    rewrite Hparts by (repeat constructor; assumption).
    assert (Hseed : index_of "seed" (pre ++ ["model"; tail]) = None).
    { rewrite (index_of_app "seed" pre _ Hs). simpl. rewrite Htail_seed. reflexivity. }
    rewrite Hmodel, Hnext, Hseed.
    change (nth_error ["model"; tail] 1) with (Some tail).
    cbv beta iota. destruct (py_int tail) as [n |]; reflexivity.
Qed.

Section Matches.
Variable py_int : string -> option Z.
Variable rglob : string -> list Path.

Lemma scan_entry (patterns : list string) (key : string) (p : Path) :
  dict_get key (scan rglob patterns) = Some p ->
  _get_file_key p = key /\ In p (flat_map rglob patterns).
Proof.
  intros H. unfold scan in H. rewrite scan_get_from in H. simpl in H.
  apply find_some in H. destruct H as [Hin Hk]. unfold has_key in Hk.
  apply String.eqb_eq in Hk. split; [symmetry; exact Hk | exact Hin].
Qed.

Lemma flat_map_at_most_one {A B : Type} (f : B -> A) (g : A -> list B) (l : list A) :
  NoDup l ->
  (forall k m, In m (g k) -> f m = k) ->
  (forall k, (length (g k) <= 1)%nat) ->
  NoDup (map f (flat_map g l)) /\ (length (flat_map g l) <= length l)%nat.
Proof.
  intros Hnd Hf Hone. induction Hnd as [| k l Hnin Hnd [IH1 IH2]]; simpl.
  - split; [constructor | lia].
  - rewrite map_app, length_app. specialize (Hone k). split; [| lia].
    destruct (g k) as [| m [| m' ms]] eqn:E; simpl in *; [exact IH1 | | lia].
    constructor; [| exact IH1].
    intros Hin. apply in_map_iff in Hin. destruct Hin as [m0 [Hm0 Hin]].
    apply in_flat_map in Hin. destruct Hin as [k' [Hk' Hin]].
    apply Hf in Hin. rewrite Hm0 in Hin.
    assert (Hk : f m = k) by (apply Hf; rewrite E; left; reflexivity).
    rewrite Hk in Hin. subst k'. contradiction.
Qed.

(** X26.  Every pair returned by [find_matches] joins the structure file
    and the PAE file stored under one key, both with that key; the
    structure file's name yields the model information the pair carries;
    the pair is marked valid; and no key gives two pairs, so there are at
    most as many pairs as stored structure files. *)
Theorem X26_matches_share_their_key (structure_patterns pae_patterns : option (list string)) :
  let self := FileScanner_init rglob structure_patterns pae_patterns in
  (forall m, In m (find_matches py_int self) ->
     dict_get (key_of_match m) (structure_files self) = Some (FileMatch.structure_file m)
     /\ dict_get (key_of_match m) (pae_files self) = Some (FileMatch.pae_file m)
     /\ _get_file_key (FileMatch.pae_file m) = _get_file_key (FileMatch.structure_file m)
     /\ _extract_model_info py_int (name (FileMatch.structure_file m)) =
        Some (FileMatch.model_name m, FileMatch.seed m, FileMatch.model_number m)
     /\ FileMatch.is_valid m = true)
  /\ NoDup (map key_of_match (find_matches py_int self))
  /\ (length (find_matches py_int self) <= length (structure_files self))%nat.
Proof.
  intros self.
  assert (Hone : forall key m, In m (match_of py_int self key) ->
            dict_get key (structure_files self) = Some (FileMatch.structure_file m)
            /\ dict_get key (pae_files self) = Some (FileMatch.pae_file m)
            /\ _get_file_key (FileMatch.structure_file m) = key
            /\ _get_file_key (FileMatch.pae_file m) = key
            /\ _extract_model_info py_int (name (FileMatch.structure_file m)) =
               Some (FileMatch.model_name m, FileMatch.seed m, FileMatch.model_number m)
            /\ FileMatch.is_valid m = true).
  { intros key m Hin. unfold match_of in Hin.
    destruct (dict_get key (structure_files self)) as [s |] eqn:Hs; [| destruct Hin].
    destruct (dict_get key (pae_files self)) as [p |] eqn:Hp; [| destruct Hin].
    destruct (_extract_model_info py_int (name s)) as [[[mn sd] n] |] eqn:Hinfo;
      [| destruct Hin].
    destruct Hin as [<- | []]. simpl.
    apply scan_entry in Hs, Hp. repeat split; tauto. }
  assert (Hlen : forall key, (length (match_of py_int self key) <= 1)%nat).
  { intros key. unfold match_of.
    destruct (dict_get key (structure_files self)); [| simpl; lia].
    destruct (dict_get key (pae_files self)); [| simpl; lia].
    destruct (_extract_model_info py_int (name p)) as [[[mn sd] n] |]; simpl; lia. }
  assert (Hkeys : NoDup (common_keys self)).
  { unfold common_keys. apply NoDup_filter. apply scan_keys. }
  destruct (flat_map_at_most_one key_of_match (match_of py_int self) (common_keys self) Hkeys)
    as [Hnd Hcount]; [intros k m Hin; apply (Hone k m Hin) | exact Hlen |].
  split; [| split; [exact Hnd |]].
  - intros m Hin. unfold find_matches in Hin. apply in_flat_map in Hin.
    destruct Hin as [key [_ Hin]]. destruct (Hone key m Hin) as [H1 [H2 [H3 [H4 [H5 H6]]]]].
    unfold key_of_match. rewrite H3.
    split; [exact H1 |]. split; [exact H2 |]. split; [exact H4 |]. split; assumption.
  - unfold find_matches. eapply Nat.le_trans; [exact Hcount |].
    unfold common_keys. rewrite <- (length_map fst (structure_files self)).
    apply filter_length_le.
Qed.

End Matches.

(** * [convert_numpy] *)





(** * The further statements on the example inputs *)

Lemma scenario_pae_symmetric : symmetric (pae_matrix (scenario 8)).
Proof.
  intros i j. unfold entry. simpl.
  do 6 (destruct i as [| i]; simpl; [do 6 (destruct j as [| j]; simpl; try reflexivity) |]);
    do 6 (destruct j as [| j]; simpl; try reflexivity).
Qed.

Lemma other_diagonal_same : same_off_diagonal scenario_pae other_diagonal.
Proof.
  split; [reflexivity |]. split.
  - intros i. do 6 (destruct i as [| i]; [reflexivity |]). reflexivity.
  - intros i j Hne. unfold entry.
    do 6 (destruct i as [| i]; simpl;
          [do 6 (destruct j as [| j]; simpl;
                 try reflexivity; try (exfalso; apply Hne; reflexivity)) |]);
      do 6 (destruct j as [| j]; simpl; try reflexivity).
Qed.

(** X1 on the example: cutoffs raised from 30 and 8 to 40 and 9. *)
Lemma X1_witness :
  pae_cutoff (scenario 8) <= 40 /\ distance_cutoff (scenario 8) <= 9
  /\ calculate (scenario 8) = Ok scenario_results
  /\ exists r2, calculate (with_cutoffs (scenario 8) 40 9) = Ok r2
       /\ exists sc2, In sc2 (IPSAEResults.chain_chain_scores r2)
            /\ labels_of sc2 = ("A", "B")
            /\ (6 <= ChainChainScore.num_interactions sc2)%nat.
Proof.
  assert (Hp : pae_cutoff (scenario 8) <= 40) by (simpl; lra).
  assert (Hd : distance_cutoff (scenario 8) <= 9) by (simpl; lra).
  split; [exact Hp |]. split; [exact Hd |]. split; [exact scenario_calculate |].
  destruct (X1_cutoffs_monotone (scenario 8) 40 9 scenario_results Hp Hd scenario_calculate)
    as [r2 [Hrun [Hc _]]].
  exists r2. split; [exact Hrun |].
  destruct (Hc scenario_AB (or_introl eq_refl)) as [sc2 [Hin [Hl [_ Hn]]]].
  exists sc2. split; [exact Hin |]. split; [exact Hl | exact Hn].
Defined.

(** X2 on the example. *)
Lemma X2_witness :
  calculate_chain_chain_scores (scenario 8) = Ok [scenario_AB]
  /\ StronglySorted pair_lt (map labels_of [scenario_AB])
  /\ str_lt (ChainChainScore.chain1 scenario_AB) (ChainChainScore.chain2 scenario_AB)
  /\ NoDup (ChainChainScore.valid_interactions scenario_AB).
Proof.
  split; [exact scenario_chain_scores |].
  destruct (X2_chain_records_ordered (scenario 8) [scenario_AB] scenario_chain_scores)
    as [Hs [_ Hall]].
  split; [exact Hs |].
  destruct (Hall scenario_AB (or_introl eq_refl)) as [Hlt [_ [_ [Hnd _]]]].
  split; [exact Hlt | exact Hnd].
Defined.

(** X3 on the example: the mean PAE is 10, the proxy is below 1/2. *)
Lemma X3_witness :
  calculate_chain_chain_scores (scenario 8) = Ok [scenario_AB]
  /\ In scenario_AB [scenario_AB]
  /\ 0 <= ChainChainScore.pdockq_score scenario_AB <= 1
  /\ ~ 1 / 2 <= ChainChainScore.pdockq_score scenario_AB.
Proof.
  split; [exact scenario_chain_scores |]. split; [left; reflexivity |].
  destruct (X3_pdockq_range (scenario 8) [scenario_AB] scenario_AB
              scenario_chain_scores (or_introl eq_refl)) as [H1 [H2 _]].
  split; [exact H1 |].
  intros H. apply H2 in H. simpl in H. lra.
Defined.

(** X4 on the example. *)
Lemma X4_witness :
  calculate (scenario 8) = Ok scenario_results
  /\ Forall (fun x => 0 <= x <= 8) (ChainChainScore.distances scenario_AB)
  /\ 0 <= ChainChainScore.avg_distance scenario_AB.
Proof.
  split; [exact scenario_calculate |].
  destruct (X4_stored_values_in_range (scenario 8) scenario_results scenario_calculate)
    as [Hc _].
  destruct (Hc scenario_AB (or_introl eq_refl)) as [_ [Hd Ha]].
  split; [exact Hd | exact Ha].
Defined.

(** X5 on the example with distance cutoff -1. *)
Lemma X5_witness :
  distance_cutoff (scenario (-1)) < 0
  /\ exists r, calculate (scenario (-1)) = Ok r
       /\ IPSAEResults.chain_chain_scores r = [] /\ IPSAEResults.residue_scores r = [].
Proof.
  assert (Hneg : distance_cutoff (scenario (-1)) < 0) by (simpl; lra).
  split; [exact Hneg |].
  assert (Hrun : exists r, calculate (scenario (-1)) = Ok r).
  { apply calculate_succeeds_iff. split; [discriminate | reflexivity]. }
  destruct Hrun as [r Hr]. exists r. split; [exact Hr |].
  exact (X5_negative_distance_cutoff (scenario (-1)) r Hneg Hr).
Defined.

(** X6 on the example: the interaction (0, 3) of the pair (A, B). *)
Lemma X6_witness :
  calculate (scenario 8) = Ok scenario_results
  /\ In scenario_AB (IPSAEResults.chain_chain_scores scenario_results)
  /\ In (0%nat, 3%nat) (ChainChainScore.valid_interactions scenario_AB)
  /\ exists rs, In rs (IPSAEResults.residue_scores scenario_results)
       /\ ResidueScore.chain rs = "A"
       /\ In (0%nat, 3%nat) (ResidueScore.valid_interactions rs).
Proof.
  assert (Hsc : In scenario_AB (IPSAEResults.chain_chain_scores scenario_results))
    by (left; reflexivity).
  assert (Hij : In (0%nat, 3%nat) (ChainChainScore.valid_interactions scenario_AB))
    by (left; reflexivity).
  split; [exact scenario_calculate |]. split; [exact Hsc |]. split; [exact Hij |].
  exact (X6_chain_interactions_in_residue_records (scenario 8) scenario_results
           scenario_AB 0 3 scenario_calculate Hsc Hij).
Defined.

(** X7 on the example: residue 3 is a partner of residue 0, and back. *)
Lemma X7_witness :
  symmetric (pae_matrix (scenario 8))
  /\ length (coords_of (scenario 8)) = length (residues_of (scenario 8))
  /\ calculate (scenario 8) = Ok scenario_results
  /\ exists rs', In rs' (IPSAEResults.residue_scores scenario_results)
       /\ In (3%nat, 0%nat) (ResidueScore.valid_interactions rs').
Proof.
  split; [exact scenario_pae_symmetric |]. split; [reflexivity |].
  split; [exact scenario_calculate |].
  apply (X7_symmetric_pae_symmetric_partners (scenario 8) scenario_results
           (scenario_residue (0%nat, ("A", 1%Z, "ALA"))) 0 3
           scenario_pae_symmetric eq_refl scenario_calculate).
  - left. reflexivity.
  - right. right. left. reflexivity.
Defined.

(** X8 on a structure with one chain. *)
Lemma X8_witness :
  coords_of single_chain <> []
  /\ chain_reads single_chain = []
  /\ calculate_chain_chain_scores single_chain = Ok [].
Proof.
  assert (Hne : coords_of single_chain <> []) by discriminate.
  split; [exact Hne |].
  apply (X8_single_chain_no_pairs single_chain Hne).
  intros c1 c2 [<- | []] [<- | []]. reflexivity.
Defined.

(** X9 on two residues with one coordinate. *)
Lemma X9_witness :
  (length (coords_of missing_coordinate) < length (residues_of missing_coordinate))%nat
  /\ calculate missing_coordinate = Raise IndexError.
Proof.
  assert (H : (length (coords_of missing_coordinate)
               < length (residues_of missing_coordinate))%nat) by (simpl; lia).
  split; [exact H |]. exact (X9_fewer_coordinates_always_raises missing_coordinate H).
Defined.

(** X10 on the example: the diagonal replaced by 99. *)
Lemma X10_witness :
  same_off_diagonal scenario_pae other_diagonal
  /\ scores_of (calculate (load_data 30 8 scenario_structure other_diagonal)) =
     scores_of (calculate (load_data 30 8 scenario_structure scenario_pae)).
Proof.
  split; [exact other_diagonal_same |].
  exact (X10_pae_diagonal_unused 30 8 scenario_structure scenario_pae other_diagonal
           other_diagonal_same).
Defined.

(** X11 on the chain of two residues. *)
Lemma X11_witness :
  Forall (fun r => (ca_count r <= 1)%nat) (all_residues two_residue_chain)
  /\ length (StructureData.coordinates (parse_pdb two_residue_chain)) = 2%nat
  /\ (length (StructureData.coordinates (parse_pdb two_residue_chain))
      <= length (StructureData.residues (parse_pdb two_residue_chain)))%nat.
Proof.
  assert (Hone : Forall (fun r => (ca_count r <= 1)%nat) (all_residues two_residue_chain))
    by (repeat constructor).
  split; [exact Hone |].
  destruct (X11_coordinates_count_ca_atoms two_residue_chain (parse_pdb two_residue_chain)
              (or_intror eq_refl)) as [Hco [_ Hle]].
  split; [exact Hco | exact (proj1 (Hle Hone))].
Defined.

(** X13 on the chain of two residues: residue 1 belongs to chain A. *)
Lemma X13_witness :
  (1 < length (residues_of (load_data 30 8 (parse_pdb two_residue_chain) two_by_two)))%nat
  /\ exists c,
       In c (chain_labels (load_data 30 8 (parse_pdb two_residue_chain) two_by_two))
       /\ In 1%nat (chain_indices
                      (residues_of (load_data 30 8 (parse_pdb two_residue_chain) two_by_two)) c).
Proof.
  assert (H : (1 < length (residues_of (load_data 30 8 (parse_pdb two_residue_chain) two_by_two)))%nat) by (simpl; lia).
  split; [exact H |].
  destruct (X13_parsed_residues_partitioned 30 8 two_residue_chain two_by_two 1 H)
    as [c [H1 [H2 _]]].
  exists c. split; [exact H1 | exact H2].
Defined.

(** X14 on the chain of two residues with a 2 by 2 PAE matrix. *)
Lemma X14_witness :
  all_residues two_residue_chain <> []
  /\ Forall (fun r => (ca_count r <= 1)%nat) (all_residues two_residue_chain)
  /\ square (length (all_residues two_residue_chain)) two_by_two
  /\ exists r, calculate (load_data 30 8 (parse_pdb two_residue_chain) two_by_two) = Ok r.
Proof.
  assert (Hne : all_residues two_residue_chain <> []) by discriminate.
  assert (Hone : Forall (fun r => (ca_count r <= 1)%nat) (all_residues two_residue_chain))
    by (repeat constructor).
  assert (Hsq : square (length (all_residues two_residue_chain)) two_by_two)
    by (split; [reflexivity | repeat constructor]).
  split; [exact Hne |]. split; [exact Hone |]. split; [exact Hsq |].
  apply (X14_scorable_iff_every_residue_has_ca 30 8 two_residue_chain _ Hne Hone Hsq).
  repeat constructor.
Defined.

(** X15 on a flat list of four values. *)
Lemma X15_witness :
  first_present possible_keys flat_document = Some (Flat [0; 10; 12; 0])
  /\ length [0; 10; 12; 0] = (2 * 2)%nat
  /\ exists m, parse_json flat_document = Py.Ok m /\ concat m = [0; 10; 12; 0]
               /\ entry m 1 0 = 12.
Proof.
  split; [reflexivity |]. split; [reflexivity |].
  destruct (X15_flat_pae_round_trip flat_document [0; 10; 12; 0] 2 eq_refl eq_refl)
    as [m [Hm [_ [Hc He]]]].
  exists m. split; [exact Hm |]. split; [exact Hc |].
  rewrite (He 1%nat 0%nat) by lia. reflexivity.
Defined.

(** X16 on a 2 by 2 matrix. *)
Lemma X16_witness :
  square 2 [[0; 10]; [12; 0]]
  /\ parse_json nested_document = Py.Ok [[0; 10]; [12; 0]]
  /\ parse_json flat_document = Py.Ok [[0; 10]; [12; 0]].
Proof.
  assert (Hsq : square 2 [[0; 10]; [12; 0]])
    by (split; [reflexivity | repeat constructor]).
  split; [exact Hsq |].
  exact (X16_flat_and_nested_agree nested_document flat_document [[0; 10]; [12; 0]] 2
           Hsq eq_refl eq_refl).
Defined.

(** X17 on a document holding the matrix under [predicted_aligned_error]. *)
Lemma X17_witness :
  dict_get "pae_matrix" rows_document = None
  /\ dict_get "predicted_aligned_error" rows_document = Some (Rows [[0; 1; 2]; [3; 4; 5]])
  /\ parse_json rows_document = parse_json [("pae_matrix", Rows [[0; 1; 2]; [3; 4; 5]])].
Proof.
  split; [reflexivity |]. split; [reflexivity |].
  apply (X17_pae_key_priority rows_document (Rows [[0; 1; 2]; [3; 4; 5]])).
  right. split; [reflexivity |]. left. reflexivity.
Defined.

(** X18 on a document of two rows of three values. *)
Lemma X18_witness :
  parse_json rows_document = Py.Ok [[0; 1; 2]; [3; 4; 5]]
  /\ rectangular [[0; 1; 2]; [3; 4; 5]].
Proof.
  assert (H : parse_json rows_document = Py.Ok [[0; 1; 2]; [3; 4; 5]]) by reflexivity.
  split; [exact H |].
  exact (proj1 (X18_parse_json_result_shape rows_document _ H)).
Defined.

(** X20 on [scores.json.gz] and on [json.gz]. *)
Lemma X20_witness :
  pae_format_of "scores.json.gz" = Py.Ok JSON /\ pae_format_of "json.gz" = Py.Ok JSON.
Proof.
  split.
  - exact (X20_pae_format_by_extension "scores.json" "gz" eq_refl
             ltac:(discriminate) ltac:(discriminate)).
  - exact (X20_pae_format_by_extension "json" "gz" eq_refl
             ltac:(discriminate) ltac:(discriminate)).
Defined.

(** X21 on five residues with a 2 by 2 PAE matrix. *)
Lemma X21_witness :
  (length (pae_matrix short_pae) < length (residues_of short_pae))%nat
  /\ (2 <= length (coords_of short_pae))%nat
  /\ calculate short_pae = Raise IndexError.
Proof.
  assert (H1 : (length (pae_matrix short_pae) < length (residues_of short_pae))%nat)
    by (simpl; lia).
  assert (H2 : (2 <= length (coords_of short_pae))%nat) by (simpl; lia).
  split; [exact H1 |]. split; [exact H2 |].
  exact (X21_short_pae_matrix_raises short_pae H1 H2).
Defined.

(** X22 on the example directory. *)
Lemma X22_witness :
  structure_format_of "model.pdb" = Py.Ok PDB
  /\ pae_format_of "scores.json" = Py.Ok JSON
  /\ exists r m,
       run example_files "scores.json" "model.pdb" 30 8 = Py.Ok r
       /\ StructureData.pae_matrix (IPSAEResults.structure_data r) = Some m
       /\ concat m = [0; 10; 12; 0].
Proof.
  split; [reflexivity |]. split; [reflexivity |].
  destruct (X22_run_on_matching_files example_files "scores.json" "model.pdb" 30 8
              two_residue_chain flat_document [0; 10; 12; 0]
              eq_refl eq_refl eq_refl eq_refl eq_refl
              ltac:(discriminate) ltac:(repeat constructor) eq_refl)
    as [r [m [Hrun [Hm [_ [Hc _]]]]]].
  exists r, m. split; [exact Hrun |]. split; [exact Hm | exact Hc].
Defined.

(** X23 on an AlphaFold file name. *)
Lemma X23_witness :
  no_underscore "RAF1" = true /\ no_dot "RAF1" = true
  /\ _get_file_key
       (mkPath "run1" "RAF1_KSR1_unrelaxed_alphafold2_multimer_v3_model_1_seed_000.pdb")
     = "RAF1".
Proof.
  split; [reflexivity |]. split; [reflexivity |].
  exact (X23_file_key_is_first_part "run1" "RAF1"
           "KSR1_unrelaxed_alphafold2_multimer_v3_model_1_seed_000.pdb" eq_refl eq_refl).
Defined.

(** X25 on an AlphaFold file name: the seed is [000.pdb]. *)
Lemma X25_witness :
  _extract_model_info decimal "RAF1_unrelaxed_model_1_seed_000.pdb"
    = Some ("RAF1", "000.pdb", 1%Z)
  /\ _extract_model_info decimal "RAF1_unrelaxed_model_1.pdb" = None.
Proof.
  assert (Hpre : Forall (fun p => no_underscore p = true /\ p <> "model" /\ p <> "seed")
                   ["RAF1"; "unrelaxed"]).
  { repeat constructor; discriminate. }
  destruct (X25_model_info_of_name decimal ["RAF1"; "unrelaxed"] "1" "000.pdb"
              ltac:(discriminate) Hpre eq_refl ltac:(discriminate) eq_refl ltac:(discriminate))
    as [H1 _].
  destruct (X25_model_info_of_name decimal ["RAF1"; "unrelaxed"] "1" "1.pdb"
              ltac:(discriminate) Hpre eq_refl ltac:(discriminate) eq_refl ltac:(discriminate))
    as [_ H2].
  split; [exact H1 | exact H2].
Defined.
